(** * Chat front end: stream consumer, conversation view and session view-model

    A shallow embedding of the browser script of the chat application
    ([static/js/app.js] and its later revision, which adds the
    near-bottom scroll policy and the delete modal).

    JavaScript strings are modelled as [string] holding the UTF-8 text;
    every separator the script looks for (the line feed, the six
    characters of the frame prefix) is ASCII, so splitting, prefix tests
    and [slice(6)] act on the bytes exactly as they act on the code
    units.  Platform services the script calls but does not define
    ([JSON.parse], [marked.parse], [String.prototype.trim],
    [Array.prototype.sort], the layout engine) are parameters of the
    model; executable instances are given for evaluation on samples. *)

From Stdlib Require Import String Ascii ZArith QArith Lia.
From stdpp Require Import base list strings pretty gmap.

Set Warnings "-register-all".

Local Open Scope Z_scope.

(** ** Strings *)

Definition LF : ascii := "010"%char.
Definition DQ : ascii := "034"%char.

(** [q] writes a sample with apostrophes where the wire format has
    double quotes. *)
Fixpoint q (s : string) : string :=
  match s with
  | EmptyString => EmptyString
  | String c r => String (if Ascii.eqb c "'" then DQ else c) (q r)
  end.

(** [chunk.split('\n')]: the pieces between line feeds; a text without
    line feed is its own single piece, and the empty text gives one empty
    piece. *)
Fixpoint split_lines (s : string) : list string :=
  match s with
  | EmptyString => [EmptyString]
  | String c r =>
      if Ascii.eqb c LF then EmptyString :: split_lines r
      else match split_lines r with
           | [] => [String c EmptyString]
           | l :: ls => String c l :: ls
           end
  end.

(** [line.startsWith(p)] *)
Definition startsWith (line p : string) : bool := String.prefix p line.

(** [line.slice(n)] for a non-negative [n] *)
Fixpoint slice_from (n : nat) (s : string) : string :=
  match n, s with
  | O, _ => s
  | S _, EmptyString => EmptyString
  | S n', String _ r => slice_from n' r
  end.

(** The part of [s] before position [n] ([s.slice(0, n)]). *)
Fixpoint slice_to (n : nat) (s : string) : string :=
  match n, s with
  | O, _ => EmptyString
  | S _, EmptyString => EmptyString
  | S n', String c r => String c (slice_to n' r)
  end.

Definition data_prefix : string := "data: ".

(** ** Values produced by [JSON.parse] *)

(** A number is kept as the decimal it was written as,
    [mantissa * 10 ^ exp10]. *)
Inductive JValue : Type :=
| JNull
| JBool (b : bool)
| JNum (mantissa exp10 : Z)
| JStr (s : string)
| JArr (items : list JValue)
| JObj (fields : list (string * JValue)).

(** The own property [k] of a parsed object; when a key was written
    twice the later one wins. *)
Fixpoint own_property (k : string) (fields : list (string * JValue)) : option JValue :=
  match fields with
  | [] => None
  | (k', v) :: rest =>
      match own_property k rest with
      | Some v' => Some v'
      | None => if String.eqb k' k then Some v else None
      end
  end.

(** Result of reading [data.k] for one of the three names the consumer
    reads ([text], [done], [error]; none of them lives on a prototype). *)
Inductive Read : Type :=
| Throws               (* TypeError: data is null *)
| Undefined
| Value (v : JValue).

Definition get (data : JValue) (k : string) : Read :=
  match data with
  | JNull => Throws
  | JObj fields =>
      match own_property k fields with
      | Some v => Value v
      | None => Undefined
      end
  | _ => Undefined
  end.

(** A decimal that the double-precision conversion turns into zero:
    zero itself, or a magnitude of at most half the least subnormal. *)
Definition rounds_to_zero (m e : Z) : bool :=
  (m =? 0) || ((e <? 0) && (Z.abs m * 2 ^ 1075 <=? 10 ^ (- e))).

(** Truthiness ([if (x)]). *)
Definition ToBoolean (v : JValue) : bool :=
  match v with
  | JNull => false
  | JBool b => b
  | JNum m e => negb (rounds_to_zero m e)
  | JStr s => negb (String.eqb s "")
  | JArr _ => true
  | JObj _ => true
  end.

Definition truthy (r : Read) : bool :=
  match r with
  | Value v => ToBoolean v
  | _ => false
  end.

Fixpoint join_comma (parts : list string) : string :=
  match parts with
  | [] => ""
  | [p] => p
  | p :: rest => p +:+ "," +:+ join_comma rest
  end.

Section Conversion.
(** [Number::toString] on the double nearest to the decimal. *)
Variable Number_toString : Z -> Z -> string.

(** The string a value contributes to [s + v].  [None] is a thrown
    TypeError: an object that carries its own, hence not callable,
    [toString].  Inside an array [null] prints as the empty string. *)
Fixpoint ToString (v : JValue) : option string :=
  match v with
  | JNull => Some "null"
  | JBool true => Some "true"
  | JBool false => Some "false"
  | JNum m e => Some (Number_toString m e)
  | JStr s => Some s
  | JArr items =>
      (fix elements (l : list JValue) : option (list string) :=
         match l with
         | [] => Some []
         | x :: rest =>
             match (match x with JNull => Some "" | _ => ToString x end), elements rest with
             | Some s, Some ss => Some (s :: ss)
             | _, _ => None
             end
         end) items
      ≫= fun parts => Some (join_comma parts)
  | JObj fields =>
      match own_property "toString" fields with
      | Some _ => None
      | None => Some "[object Object]"
      end
  end.
End Conversion.

(** ** An executable [JSON.parse]

    A recursive-descent reader of the JSON grammar (RFC 8259), used to
    evaluate the consumer on sample frames.  [None] stands for the thrown
    SyntaxError. *)
Module Json.

Definition is_ws (c : ascii) : bool :=
  match c with
  | " "%char | "009"%char | "010"%char | "013"%char => true
  | _ => false
  end.

Fixpoint skip_ws (s : string) : string :=
  match s with
  | String c r => if is_ws c then skip_ws r else s
  | EmptyString => s
  end.

Definition code (c : ascii) : Z := Z.of_nat (nat_of_ascii c).
Definition char_of (n : Z) : ascii := ascii_of_nat (Z.to_nat n).

Definition digit_val (c : ascii) : option Z :=
  let n := code c in
  if (48 <=? n) && (n <=? 57) then Some (n - 48) else None.

Definition hex_val (c : ascii) : option Z :=
  let n := code c in
  if (48 <=? n) && (n <=? 57) then Some (n - 48)
  else if (65 <=? n) && (n <=? 70) then Some (n - 55)
  else if (97 <=? n) && (n <=? 102) then Some (n - 87)
  else None.

(** Digits read so far as a value, their count, and the rest. *)
Fixpoint read_digits (s : string) (acc : Z) (count : nat) : Z * nat * string :=
  match s with
  | String c r =>
      match digit_val c with
      | Some d => read_digits r (10 * acc + d) (S count)
      | None => (acc, count, s)
      end
  | EmptyString => (acc, count, s)
  end.

(** number = [ minus ] int [ point, digits ] [ e or E, [ sign ], digits ] *)
Definition parse_number (s : string) : option (JValue * string) :=
  let '(neg, s1) := match s with
                    | String "-"%char r => (true, r)
                    | _ => (false, s)
                    end in
  match s1 with
  | EmptyString => None
  | String c r =>
      match digit_val c with
      | None => None
      | Some d =>
          let '(ip, _, s2) := if d =? 0 then (0, 1%nat, r) else read_digits r d 1 in
          let frac := match s2 with
                      | String "."%char r2 =>
                          match read_digits r2 ip 0 with
                          | (_, O, _) => None
                          | (m, n, s3) => Some (m, - Z.of_nat n, s3)
                          end
                      | _ => Some (ip, 0, s2)
                      end in
          match frac with
          | None => None
          | Some (m, e, s3) =>
              let signed := if neg then - m else m in
              let exponent (r3 : string) :=
                let '(eneg, r4) := match r3 with
                                   | String "-"%char t => (true, t)
                                   | String "+"%char t => (false, t)
                                   | _ => (false, r3)
                                   end in
                match read_digits r4 0 0 with
                | (_, O, _) => None
                | (x, _, s4) => Some (JNum signed (e + (if eneg then - x else x)), s4)
                end in
              match s3 with
              | String "e"%char r3 => exponent r3
              | String "E"%char r3 => exponent r3
              | _ => Some (JNum signed e, s3)
              end
          end
      end
  end.

(** UTF-8 bytes of a code point (a lone surrogate is written in the
    same three-byte form). *)
Definition utf8 (cp : Z) : string :=
  if cp <? 128 then String (char_of cp) ""
  else if cp <? 2048 then
    String (char_of (192 + cp / 64)) (String (char_of (128 + cp mod 64)) "")
  else if cp <? 65536 then
    String (char_of (224 + cp / 4096))
      (String (char_of (128 + (cp / 64) mod 64))
         (String (char_of (128 + cp mod 64)) ""))
  else
    String (char_of (240 + cp / 262144))
      (String (char_of (128 + (cp / 4096) mod 64))
         (String (char_of (128 + (cp / 64) mod 64))
            (String (char_of (128 + cp mod 64)) ""))).

Definition hex4 (a b c d : ascii) : option Z :=
  match hex_val a, hex_val b, hex_val c, hex_val d with
  | Some x, Some y, Some z, Some w => Some (4096 * x + 256 * y + 16 * z + w)
  | _, _, _, _ => None
  end.

Definition flush (hi : option Z) : string :=
  match hi with
  | Some h => utf8 h
  | None => ""
  end.

(** The characters of a string literal after its opening quote, up to
    the closing quote.  [hi] is a high surrogate read by the previous
    escape and still waiting for its low half. *)
Fixpoint parse_chars (s : string) (hi : option Z) : option (string * string) :=
  match s with
  | EmptyString => None
  | String "034"%char r => Some (flush hi, r)
  | String "\"%char (String "u"%char (String a (String b (String c (String d r))))) =>
      match hex4 a b c d with
      | None => None
      | Some u =>
          if (55296 <=? u) && (u <? 56320) then
            option_map (fun '(t, rest) => (flush hi +:+ t, rest)) (parse_chars r (Some u))
          else
            let here :=
              match hi with
              | Some h =>
                  if (56320 <=? u) && (u <? 57344)
                  then utf8 (65536 + (h - 55296) * 1024 + (u - 56320))
                  else utf8 h +:+ utf8 u
              | None => utf8 u
              end in
            option_map (fun '(t, rest) => (here +:+ t, rest)) (parse_chars r None)
      end
  | String "\"%char (String e r) =>
      let plain (c : ascii) :=
        option_map (fun '(t, rest) => (flush hi +:+ String c t, rest)) (parse_chars r None) in
      match e with
      | "034"%char => plain DQ
      | "\"%char => plain "\"%char
      | "/"%char => plain "/"%char
      | "b"%char => plain "008"%char
      | "f"%char => plain "012"%char
      | "n"%char => plain "010"%char
      | "r"%char => plain "013"%char
      | "t"%char => plain "009"%char
      | _ => None
      end
  | String c r =>
      if code c <? 32 then None
      else option_map (fun '(t, rest) => (flush hi +:+ String c t, rest)) (parse_chars r None)
  end.

Definition literal (word : string) (v : JValue) (s : string) : option (JValue * string) :=
  if String.prefix word s then Some (v, slice_from (String.length word) s) else None.

Fixpoint parse_value (fuel : nat) (s : string) {struct fuel} : option (JValue * string) :=
  match fuel with
  | O => None
  | S fuel' =>
      match skip_ws s with
      | EmptyString => None
      | String "{"%char r =>
          match skip_ws r with
          | String "}"%char r' => Some (JObj [], r')
          | _ => parse_members fuel' r []
          end
      | String "["%char r =>
          match skip_ws r with
          | String "]"%char r' => Some (JArr [], r')
          | _ => parse_elements fuel' r []
          end
      | String "034"%char r =>
          option_map (fun '(t, rest) => (JStr t, rest)) (parse_chars r None)
      | String "t"%char _ as w => literal "true" (JBool true) w
      | String "f"%char _ as w => literal "false" (JBool false) w
      | String "n"%char _ as w => literal "null" JNull w
      | w => parse_number w
      end
  end
with parse_elements (fuel : nat) (s : string) (acc : list JValue) {struct fuel}
       : option (JValue * string) :=
  match fuel with
  | O => None
  | S fuel' =>
      match parse_value fuel' s with
      | None => None
      | Some (v, r) =>
          match skip_ws r with
          | String ","%char r' => parse_elements fuel' r' (v :: acc)
          | String "]"%char r' => Some (JArr (rev (v :: acc)), r')
          | _ => None
          end
      end
  end
with parse_members (fuel : nat) (s : string) (acc : list (string * JValue)) {struct fuel}
       : option (JValue * string) :=
  match fuel with
  | O => None
  | S fuel' =>
      match skip_ws s with
      | String "034"%char r =>
          match parse_chars r None with
          | None => None
          | Some (k, r1) =>
              match skip_ws r1 with
              | String ":"%char r2 =>
                  match parse_value fuel' r2 with
                  | None => None
                  | Some (v, r3) =>
                      match skip_ws r3 with
                      | String ","%char r4 => parse_members fuel' r4 ((k, v) :: acc)
                      | String "}"%char r4 => Some (JObj (rev ((k, v) :: acc)), r4)
                      | _ => None
                      end
                  end
              | _ => None
              end
          end
      | _ => None
      end
  end.

(** [JSON.parse(text)]: one value, white space around it, nothing else.
    Every nested call consumes a character, so twice the length of the
    text is fuel enough. *)
Definition parse (text : string) : option JValue :=
  match parse_value (2 * String.length text + 2) text with
  | Some (v, rest) =>
      match skip_ws rest with
      | EmptyString => Some v
      | _ => None
      end
  | None => None
  end.

(** A rendering of numbers that is the platform's on integers written
    without exponent (below 2^53); used where an instance is needed. *)
Definition Number_toString (m e : Z) : string :=
  if e =? 0 then
    (if m <? 0 then "-" else "") +:+ pretty (Z.abs_N m)
  else pretty m +:+ "e" +:+ pretty e.

End Json.

(** ** The page *)

(** What a [div] shows: markup assigned through [innerHTML], or literal
    text assigned through [textContent]. *)
Inductive Content : Type :=
| InnerHTML (markup : string)
| TextContent (text : string).

(** Children of [#chat-messages]. *)
Inductive Node : Type :=
| MessageDiv (role : string) (content : Content)   (* className = `message ${role}` *)
| TypingIndicator
| EmptyState (chips : option (list string)) (fading : bool).

(** Calls that leave the script, in the order they are made. *)
Inductive Effect : Type :=
| Speak (text : string)
| LoadChatHistory
| PostChatStream (message session_id : string)
| PostHistoryClear (session_id : string)
| Alert (msg : string)
| ConsoleError (label : string)
| HideContextMenu
| ClearActiveItems.

Record Page : Type := mkPage {
  input_value : string;                   (* messageInput.value *)
  input_disabled : bool;                  (* messageInput.disabled *)
  send_disabled : bool;                   (* sendButton.disabled *)
  chatMessages : list Node;
  scrollTop : Z;                          (* chatMessages.scrollTop *)
  clientHeight : Z;                       (* chatMessages.clientHeight *)
  sessionId : string;
  currentChatToDelete : option string;    (* None is null *)
  effects : list Effect
}.

(** Local variables of [sendMessage] while the body is read. *)
Record Stream : Type := mkStream {
  page : Page;
  fullText : string
}.

(** The two revisions of the script. *)
Inductive Revision : Type :=
| Original     (* static/js/app.js *)
| Revised.     (* the revision with isNearBottom and the delete modal *)

(** What the network does with the chat request. *)
Inductive Ending : Type :=
| EndOfStream      (* reader.read() reports done *)
| ReadFailure      (* reader.read() rejects *)
| StillOpen.       (* the next read has not settled *)

Inductive Exchange : Type :=
| NoAnswerYet                                  (* fetch has not settled *)
| Rejected                                     (* fetch rejects *)
| Response (ok : bool) (reads : list string) (ending : Ending).

(** What the network does with the delete request. *)
Inductive ClearExchange : Type :=
| ClearUnsettled
| ClearRejected
| ClearResponse (ok : bool).

(** The shapes of the three frames of the protocol. *)
Inductive StreamEvent : Type :=
| Text (delta : string)
| Done
| Error (message : string).

Definition frame (e : StreamEvent) : JValue :=
  match e with
  | Text delta => JObj [("text", JStr delta)]
  | Done => JObj [("done", JBool true)]
  | Error message => JObj [("error", JStr message)]
  end.

Definition suggestionPool : list string :=
  [ "Tell me a fun fact";
    "Explain quantum computing";
    "Write a short poem";
    "What's the weather like today?";
    "Tell me a joke";
    "How does photosynthesis work?";
    "What are some healthy breakfast ideas?";
    "Explain the concept of recursion";
    "What's the meaning of life?";
    "Tell me about space exploration";
    "How to meditate for beginners?";
    "What's artificial intelligence?";
    "Give me cooking tips";
    "Explain blockchain technology";
    "What's your favorite color?" ].

(** [array.slice(start, end)] *)
Definition Array_slice {A} (start fin : Z) (l : list A) : list A :=
  let len := Z.of_nat (length l) in
  let k := if start <? 0 then Z.max (len + start) 0 else Z.min start len in
  let final := if fin <? 0 then Z.max (len + fin) 0 else Z.min fin len in
  take (Z.to_nat (final - k)) (drop (Z.to_nat k) l).

(** The comparator [() => 0.5 - Math.random()], applied to the value
    [Math.random()] returned for this call. *)
Definition comparefn (r : Q) : Q := (1 # 2) - r.

Definition fetch_error_message : string :=
  "❌ Error: Unable to fetch response. Please try again.".

Definition delete_failed_message : string :=
  "Failed to delete chat. Please try again.".

(** [emptyState.style.animation = 'fadeOut ...'] on the first
    [.empty-state] element; its removal by the timer is not part of the
    run. *)
Fixpoint fade_first (nodes : list Node) : list Node :=
  match nodes with
  | [] => []
  | EmptyState chips _ :: rest => EmptyState chips true :: rest
  | n :: rest => n :: fade_first rest
  end.

(** ** Executable stand-ins for the other services

    Used only to evaluate the script on samples. *)
Module Sample.

(** Markdown of a plain one-paragraph text, as [marked] prints it. *)
Definition marked_parse (s : string) : string :=
  if String.eqb s "" then "" else "<p>" +:+ s +:+ "</p>" +:+ String LF "".

Fixpoint trim_start (s : string) : string :=
  match s with
  | String c r => if Json.is_ws c then trim_start r else s
  | EmptyString => s
  end.

Fixpoint trim_end (s : string) : string :=
  match s with
  | EmptyString => EmptyString
  | String c r =>
      match trim_end r with
      | EmptyString => if Json.is_ws c then EmptyString else String c EmptyString
      | r' => String c r'
      end
  end.

(** [trim] on texts whose white space is blank, tab, line feed or
    carriage return. *)
Definition trim (s : string) : string := trim_end (trim_start s).

(** Every message row 40px high, the typing indicator 24px, the empty
    state 300px. *)
Definition height (n : Node) : Z :=
  match n with
  | MessageDiv _ _ => 40
  | TypingIndicator => 24
  | EmptyState _ _ => 300
  end.

Definition layout (nodes : list Node) : Z :=
  foldr (fun n acc => height n + acc) 0 nodes.

(** Insertion sort; [calls] counts the comparator calls made so far.  An
    element goes before the first one the comparator does not put it
    after. *)
Fixpoint insert_by (cmp : nat -> string -> string -> Q) (calls : nat)
    (x : string) (sorted : list string) : list string * nat :=
  match sorted with
  | [] => ([x], calls)
  | y :: ys =>
      if Qle_bool (cmp calls x y) 0 then (x :: y :: ys, S calls)
      else let '(r, calls') := insert_by cmp (S calls) x ys in (y :: r, calls')
  end.

Fixpoint sort_from (cmp : nat -> string -> string -> Q) (calls : nat)
    (l : list string) : list string * nat :=
  match l with
  | [] => ([], calls)
  | x :: xs =>
      let '(sorted, calls') := sort_from cmp calls xs in
      insert_by cmp calls' x sorted
  end.

Definition sort (cmp : nat -> string -> string -> Q) (l : list string) : list string :=
  (sort_from cmp 0 l).1.

(** A sequence of values of [Math.random()]. *)
Definition random (k : nat) : Q :=
  match Nat.modulo k 3 with
  | O => 1 # 4
  | 1%nat => 3 # 4
  | _ => 1 # 2
  end.

(** A page with one earlier exchange, scrolled to the bottom of a
    viewport 60px high, a message waiting in the input box. *)
Definition page0 : Page :=
  mkPage "  Hello " false false
    [MessageDiv "user" (TextContent "Hi"); MessageDiv "bot" (InnerHTML "<p>Hello!</p>")]
    20 60 "session_1700000000000" None [].

(** The same page with the user scrolled back to the top. *)
Definition page_scrolled_back : Page :=
  mkPage "  Hello " false false
    [MessageDiv "user" (TextContent "Hi"); MessageDiv "bot" (InnerHTML "<p>Hello!</p>")]
    0 60 "session_1700000000000" None [].

(** The read loop at its start: the page as [sendMessage] has it when the
    response arrives, the new bot message at position 3. *)
Definition stream0 : Stream :=
  mkStream
    (mkPage "" true true
       [MessageDiv "user" (TextContent "Hi"); MessageDiv "bot" (InnerHTML "<p>Hello!</p>");
        MessageDiv "user" (TextContent "Hello"); MessageDiv "bot" (InnerHTML "")]
       100 60 "session_1700000000000" None
       [PostChatStream "Hello" "session_1700000000000"])
    "".

End Sample.

(** ** The decoder of the reads *)

(** [new TextDecoder()] and [decoder.decode(value)], called without the
    [stream] option: every call starts a UTF-8 decoder of its own, runs
    the bytes of the read through it, flushes it, and drops a byte order
    mark at the start of what came out.  The decoder is the one of the
    Encoding Standard, not fatal.  Text is kept in UTF-8 here, so a
    well-formed sequence is passed on as it is, and a sequence that is
    not is replaced by U+FFFD. *)
Module TextDecoder.

Definition replacement : string := String "239" (String "191" (String "189" "")).
Definition BOM : string := String "239" (String "187" (String "191" "")).

(** The bytes seen of the sequence that is being read, the number of
    bytes it still needs, and the range the next byte has to be in. *)
Record Decoder : Type := mkDecoder {
  seen : string;
  needed : nat;
  lower : N;
  upper : N
}.

Definition fresh : Decoder := mkDecoder "" 0 128 191.

Definition between (lo n hi : N) : bool := ((lo <=? n) && (n <=? hi))%N.

(** A byte when no sequence is open. *)
Definition lead (byte : ascii) : string * Decoder :=
  let n := N_of_ascii byte in
  if (n <=? 127)%N then (String byte "", fresh)
  else if between 194 n 223 then ("", mkDecoder (String byte "") 1 128 191)
  else if between 224 n 239 then
    ("", mkDecoder (String byte "") 2
           (if (n =? 224)%N then 160%N else 128%N) (if (n =? 237)%N then 159%N else 191%N))
  else if between 240 n 244 then
    ("", mkDecoder (String byte "") 3
           (if (n =? 240)%N then 144%N else 128%N) (if (n =? 244)%N then 143%N else 191%N))
  else (replacement, fresh).

(** One byte: what is put out, and the decoder after it.  A byte out of
    range ends the open sequence in an error and is read again as the
    start of the next one. *)
Definition handler (d : Decoder) (byte : ascii) : string * Decoder :=
  match needed d with
  | O => lead byte
  | S more =>
      if between (lower d) (N_of_ascii byte) (upper d) then
        match more with
        | O => (seen d +:+ String byte "", fresh)
        | S _ => ("", mkDecoder (seen d +:+ String byte "") more 128 191)
        end
      else
        let '(out, d') := lead byte in (replacement +:+ out, d')
  end.

(** The bytes of a read, then the end of the queue. *)
Fixpoint run (d : Decoder) (bytes : string) : string :=
  match bytes with
  | EmptyString => match needed d with O => "" | S _ => replacement end
  | String byte rest => let '(out, d') := handler d byte in out +:+ run d' rest
  end.

(** A byte order mark at the very start is not passed on. *)
Definition strip (text : string) : string :=
  match text with
  | String c1 (String c2 (String c3 rest)) =>
      if Ascii.eqb c1 "239" && Ascii.eqb c2 "187" && Ascii.eqb c3 "191" then rest else text
  | _ => text
  end.

Definition decode (value : string) : string := strip (run fresh value).

End TextDecoder.

(** ** The session list *)

(** A row of [#chat-list]: the id kept in [dataset.sessionId], the title
    string that [createChatItem] puts between the tags of
    [span.chat-title] in the row's [innerHTML] (as it is, not escaped),
    and whether the row carries the class [active]. *)
Record ChatItem : Type := mkChatItem {
  item_sessionId : string;
  item_title : string;
  item_active : bool
}.

(** What the network does with the request for the sessions; a response
    lists the sessions as the service sends them, each an id and maybe a
    title. *)
Inductive SessionsExchange : Type :=
| SessionsUnsettled
| SessionsFailed                 (* fetch rejects, or the body is not JSON *)
| SessionsResponse (sessions : list (string * option string)).

Definition createChatItem (id title : string) (isActive : bool) : ChatItem :=
  mkChatItem id title isActive.

(** [chat.title || 'Untitled Chat'] *)
Definition title_or_default (title : option string) : string :=
  match title with
  | Some t => if String.eqb t "" then "Untitled Chat" else t
  | None => "Untitled Chat"
  end.

(** [loadChatHistory]: the rows of the list once the request has
    settled; [sessionId] is the active session at that moment. *)
Definition loadChatHistory (sessionId : string) (x : SessionsExchange)
    (chatList : list ChatItem) : list ChatItem :=
  match x with
  | SessionsUnsettled => chatList
  | SessionsFailed => []
  | SessionsResponse sessions =>
      map (fun chat : string * option string =>
             let isActive := String.eqb chat.1 sessionId in
             createChatItem chat.1 (title_or_default chat.2) isActive)
        sessions
  end.

(** The pass over the rows at the end of [loadChat]: the class is taken
    from every row and given to the rows of the chosen session. *)
Definition select_item (chatSessionId : string) (chatList : list ChatItem) : list ChatItem :=
  map (fun item =>
         mkChatItem (item_sessionId item) (item_title item)
           (String.eqb (item_sessionId item) chatSessionId))
    chatList.

(** The pass over the rows in [startNewChat]: no row stays active. *)
Definition clear_active (chatList : list ChatItem) : list ChatItem :=
  map (fun item => mkChatItem (item_sessionId item) (item_title item) false) chatList.

(** Number of rows that carry the class [active]. *)
Definition active_rows (chatList : list ChatItem) : nat :=
  length (filter (fun item => item_active item = true) chatList).

(** What the network does with the request for the history of a session;
    a response lists the messages in order, each a role and a text. *)
Inductive HistoryExchange : Type :=
| HistoryUnsettled
| HistoryFailed                  (* fetch rejects, or the body is not JSON *)
| HistoryResponse (history : list (string * string)).

(** [emptyState.remove()] on the first [.empty-state] element. *)
Fixpoint remove_first_empty_state (nodes : list Node) : list Node :=
  match nodes with
  | [] => []
  | EmptyState _ _ :: rest => rest
  | n :: rest => n :: remove_first_empty_state rest
  end.

(** ** Preferences and speech *)

(** A voice of the platform, as far as the script looks at it. *)
Record Voice : Type := mkVoice {
  voice_lang : string;
  voice_name : string
}.

(** [utter_voice] is [None] when the script leaves the choice to the
    platform. *)
Record Utterance : Type := mkUtterance {
  utter_text : string;
  utter_rate : Q;
  utter_pitch : Q;
  utter_volume : Q;
  utter_voice : option Voice
}.

Record Settings : Type := mkSettings {
  data_theme : option string;              (* attribute data-theme of the root; None: absent *)
  localStorage : gmap string string;
  isTTSEnabled : bool;
  tts_toggle_disabled : bool;              (* class disabled on .tts-toggle *)
  speechSynthesis : option (list Utterance)  (* what is queued to be spoken; None: no such API *)
}.

(** [localStorage.getItem('theme') || 'light'], then [setAttribute]. *)
Definition load_theme (s : Settings) : Settings :=
  let savedTheme := match localStorage s !! "theme" with
                    | Some t => if String.eqb t "" then "light" else t
                    | None => "light"
                    end in
  mkSettings (Some savedTheme) (localStorage s) (isTTSEnabled s) (tts_toggle_disabled s)
    (speechSynthesis s).

Definition toggleTheme (s : Settings) : Settings :=
  let newTheme := match data_theme s with
                  | Some currentTheme => if String.eqb currentTheme "light" then "dark" else "light"
                  | None => "light"
                  end in
  mkSettings (Some newTheme) (<["theme" := newTheme]> (localStorage s)) (isTTSEnabled s)
    (tts_toggle_disabled s) (speechSynthesis s).

Definition updateTTSButton (s : Settings) : Settings :=
  mkSettings (data_theme s) (localStorage s) (isTTSEnabled s) (negb (isTTSEnabled s))
    (speechSynthesis s).

(** The start of the script: a stored [tts-enabled] decides, and only
    then is the button brought in line. *)
Definition load_tts (s : Settings) : Settings :=
  match localStorage s !! "tts-enabled" with
  | Some savedTTS =>
      updateTTSButton
        (mkSettings (data_theme s) (localStorage s) (String.eqb savedTTS "true")
           (tts_toggle_disabled s) (speechSynthesis s))
  | None => s
  end.

(** The boolean as [setItem] stores it. *)
Definition string_of_flag (b : bool) : string := if b then "true" else "false".

(** [window.speechSynthesis.cancel()] *)
Definition cancel (s : Settings) : Settings :=
  mkSettings (data_theme s) (localStorage s) (isTTSEnabled s) (tts_toggle_disabled s)
    (option_map (fun _ => []) (speechSynthesis s)).

Definition toggleTTS (s : Settings) : Settings :=
  let enabled := negb (isTTSEnabled s) in
  let s := updateTTSButton
             (mkSettings (data_theme s)
                (<["tts-enabled" := string_of_flag enabled]> (localStorage s))
                enabled (tts_toggle_disabled s) (speechSynthesis s)) in
  match speechSynthesis s with
  | Some _ => if negb enabled then cancel s else s
  | None => s
  end.

(** The settings as the script finds and leaves them when the page is
    loaded: TTS enabled unless stored otherwise, nothing being spoken. *)
Definition startup (html_theme : option string) (html_toggle_disabled supported : bool)
    (storage : gmap string string) : Settings :=
  load_tts
    (load_theme
       (mkSettings html_theme storage true html_toggle_disabled
          (if supported then Some [] else None))).

(** [s.includes(sub)] *)
Fixpoint includes (s sub : string) : bool :=
  String.prefix sub s
  || match s with
     | String _ rest => includes rest sub
     | EmptyString => false
     end.

(** ** Executable stand-ins, continued *)
Module Fixture.

Definition lower (c : ascii) : ascii :=
  let n := nat_of_ascii c in
  if (65 <=? n)%nat && (n <=? 90)%nat then ascii_of_nat (n + 32) else c.

(** [toLowerCase] on texts in ASCII. *)
Fixpoint toLowerCase (s : string) : string :=
  match s with
  | EmptyString => EmptyString
  | String c rest => String (lower c) (toLowerCase rest)
  end.

Definition voices : list Voice :=
  [ mkVoice "en-US" "Samantha";
    mkVoice "de-DE" "Anna (Female)";
    mkVoice "ja-JP" "Otoya";
    mkVoice "ja-JP" "Kyoko FEMALE" ].

End Fixture.

(** Nothing is being spoken while TTS is off, and never more than one
    utterance is queued. *)
Definition calm (s : Settings) : Prop :=
  match speechSynthesis s with
  | Some queue => (length queue <= 1)%nat /\ (isTTSEnabled s = false -> queue = [])
  | None => True
  end.

(** ** The script *)

Section Script.

(** Services of the platform and of the page's libraries. *)
Variable marked_parse : string -> string.            (* marked.parse *)
Variable JSON_parse : string -> option JValue.       (* JSON.parse; None = throws *)
Variable Number_toString : Z -> Z -> string.
Variable String_trim : string -> string.             (* String.prototype.trim *)
Variable layout : list Node -> Z.                    (* height of the laid-out children *)
(** [Array.prototype.sort]; the comparator receives the number of
    comparator calls made before it. *)
Variable Array_sort : (nat -> string -> string -> Q) -> list string -> list string.

Variable revision : Revision.

(** *** Geometry of the message area *)

Definition scrollHeight (p : Page) : Z :=
  Z.max (clientHeight p) (layout (chatMessages p)).

Definition set_scrollTop (y : Z) (p : Page) : Page :=
  mkPage (input_value p) (input_disabled p) (send_disabled p) (chatMessages p)
    y (clientHeight p) (sessionId p) (currentChatToDelete p) (effects p).

(** Replacing the children lays the area out again; the browser keeps
    the scroll offset within the new range. *)
Definition set_children (nodes : list Node) (p : Page) : Page :=
  let p' := mkPage (input_value p) (input_disabled p) (send_disabled p) nodes
              (scrollTop p) (clientHeight p) (sessionId p) (currentChatToDelete p)
              (effects p) in
  set_scrollTop (Z.min (scrollTop p) (scrollHeight p' - clientHeight p')) p'.

Definition appendChild (n : Node) (p : Page) : Page :=
  set_children (chatMessages p ++ [n]) p.

Definition log (e : Effect) (p : Page) : Page :=
  mkPage (input_value p) (input_disabled p) (send_disabled p) (chatMessages p)
    (scrollTop p) (clientHeight p) (sessionId p) (currentChatToDelete p)
    (effects p ++ [e]).

Definition set_controls (value : string) (disabled : bool) (p : Page) : Page :=
  mkPage value disabled disabled (chatMessages p)
    (scrollTop p) (clientHeight p) (sessionId p) (currentChatToDelete p) (effects p).

Definition set_sessionId (id : string) (p : Page) : Page :=
  mkPage (input_value p) (input_disabled p) (send_disabled p) (chatMessages p)
    (scrollTop p) (clientHeight p) id (currentChatToDelete p) (effects p).

Definition set_currentChatToDelete (c : option string) (p : Page) : Page :=
  mkPage (input_value p) (input_disabled p) (send_disabled p) (chatMessages p)
    (scrollTop p) (clientHeight p) (sessionId p) c (effects p).

(** [chatMessages.scrollTop = chatMessages.scrollHeight]: the offset
    ends at the largest one the area allows. *)
Definition scroll_to_bottom (p : Page) : Page :=
  set_scrollTop (scrollHeight p - clientHeight p) p.

Definition isNearBottom (p : Page) : bool :=
  scrollHeight p - 10 <=? scrollTop p + clientHeight p.

Definition scrollToBottomIfNear (p : Page) : Page :=
  if isNearBottom p then scroll_to_bottom p else p.

(** *** addMessage *)

Definition message_node (role message : string) : Node :=
  MessageDiv role
    (if String.eqb role "bot" then InnerHTML (marked_parse message)
     else TextContent message).

Definition addMessage (role message : string) (p : Page) : Page :=
  match revision with
  | Original => scroll_to_bottom (appendChild (message_node role message) p)
  | Revised =>
      let wasNearBottom := isNearBottom p in
      let p' := appendChild (message_node role message) p in
      if wasNearBottom then scrollToBottomIfNear p' else p'
  end.

(** *** getRandomSuggestions *)

Definition getRandomSuggestions (random : nat -> Q) (count : Z) : list string :=
  let shuffled := Array_sort (fun k _ _ => comparefn (random k)) suggestionPool in
  Array_slice 0 count shuffled.

(** *** The stream consumer: the body of the read loop *)

Definition parse_error : Effect := ConsoleError "Error parsing SSE data:".

(** [messageDiv.innerHTML = ...] / [messageDiv.textContent = ...] on
    the child at position [messageDiv]. *)
Definition set_content (messageDiv : nat) (c : Content) (p : Page) : Page :=
  set_children (<[messageDiv := MessageDiv "bot" c]> (chatMessages p)) p.

Definition content_at (messageDiv : nat) (p : Page) : option Content :=
  match chatMessages p !! messageDiv with
  | Some (MessageDiv _ c) => Some c
  | _ => None
  end.

(** Whether a re-render is followed by the scroll to the bottom. *)
Definition follows (wasNearBottom : bool) : bool :=
  match revision with
  | Original => true
  | Revised => wasNearBottom
  end.

(** The [if / else if / else if] on the parsed frame, inside the
    [try]; every exception ends in the [catch] that logs it. *)
Definition process_data (messageDiv : nat) (wasNearBottom : bool)
    (data : JValue) (st : Stream) : Stream :=
  match get data "text" with
  | Throws => mkStream (log parse_error (page st)) (fullText st)
  | text =>
      if truthy text then
        match text with
        | Value v =>
            match ToString Number_toString v with
            | None => mkStream (log parse_error (page st)) (fullText st)
            | Some s =>
                let fullText' := fullText st +:+ s in
                let p := set_content messageDiv (InnerHTML (marked_parse fullText')) (page st) in
                mkStream (if follows wasNearBottom then scroll_to_bottom p else p) fullText'
            end
        | _ => st
        end
      else if truthy (get data "done") then
        mkStream (log LoadChatHistory (log (Speak (fullText st)) (page st))) (fullText st)
      else
        match get data "error" with
        | Value v =>
            if ToBoolean v then
              match ToString Number_toString v with
              | None => mkStream (log parse_error (page st)) (fullText st)
              | Some s =>
                  mkStream (set_content messageDiv (TextContent ("Error: " +:+ s)) (page st))
                    (fullText st)
              end
            else st
        | _ => st
        end
  end.

Definition process_line (messageDiv : nat) (wasNearBottom : bool)
    (line : string) (st : Stream) : Stream :=
  if startsWith line data_prefix then
    match JSON_parse (slice_from 6 line) with
    | None => mkStream (log parse_error (page st)) (fullText st)
    | Some data => process_data messageDiv wasNearBottom data st
    end
  else st.

Definition process_lines (messageDiv : nat) (wasNearBottom : bool)
    (lines : list string) (st : Stream) : Stream :=
  foldl (fun st line => process_line messageDiv wasNearBottom line st) st lines.

(** One iteration of [while (true)]: a chunk that was read and decoded. *)
Definition process_chunk (messageDiv : nat) (wasNearBottom : bool)
    (chunk : string) (st : Stream) : Stream :=
  process_lines messageDiv wasNearBottom (split_lines chunk) st.

Definition read_loop (messageDiv : nat) (wasNearBottom : bool)
    (reads : list string) (st : Stream) : Stream :=
  foldl (fun st chunk => process_chunk messageDiv wasNearBottom chunk st) st reads.

(** *** sendMessage *)

(** [node.remove()] for the child at position [i]. *)
Definition remove_child (i : nat) (p : Page) : Page :=
  set_children (delete i (chatMessages p)) p.

(** The outer [catch], once [typingDiv.remove()] has run: the fixed
  error text as a bot message, and a line on the console. *)
Definition on_failure (p : Page) : Page :=
  log (ConsoleError "Error:") (addMessage "bot" fetch_error_message p).

Definition enable_controls (p : Page) : Page :=
  set_controls (input_value p) false p.

Definition sendMessage (x : Exchange) (p : Page) : Page :=
  let message := String_trim (input_value p) in
  if String.eqb message "" then p
  else
    let p := set_children (fade_first (chatMessages p)) p in
    let p := addMessage "user" message p in
    let p := set_controls "" true p in
    let typingDiv := length (chatMessages p) in
    let p := appendChild TypingIndicator p in
    let p := match revision with
             | Original => scroll_to_bottom p
             | Revised => scrollToBottomIfNear p
             end in
    let p := log (PostChatStream message (sessionId p)) p in
    match x with
    | NoAnswerYet => p
    | Rejected => enable_controls (on_failure (remove_child typingDiv p))
    | Response ok reads ending =>
        let p := remove_child typingDiv p in
        if negb ok then enable_controls (on_failure p)   (* the indicator is gone already *)
        else
          let messageDiv := length (chatMessages p) in
          let p := appendChild (MessageDiv "bot" (InnerHTML "")) p in
          let p := match revision with
                   | Original => scroll_to_bottom p
                   | Revised => p
                   end in
          let wasNearBottom := isNearBottom p in
          let st := read_loop messageDiv wasNearBottom reads (mkStream p "") in
          match ending with
          | StillOpen => page st
          | EndOfStream => enable_controls (page st)
          | ReadFailure => enable_controls (on_failure (page st))
          end
    end.

(** *** Sessions *)

(** ['session_' + Date.now()] *)
Definition fresh_session (now : Z) : string := "session_" +:+ pretty now.

Definition startNewChat (now : Z) (random : nat -> Q) (p : Page) : Page :=
  let p := set_sessionId (fresh_session now) p in
  let randomSuggestions := getRandomSuggestions random 3 in
  let p := set_children [EmptyState (Some randomSuggestions) false] p in
  log LoadChatHistory (log ClearActiveItems p).

(** [deleteChat]; [confirmed] is the answer to the [confirm] dialog,
    which only the original revision opens here. *)
Definition deleteChat (confirmed : bool) (x : ClearExchange)
    (now : Z) (random : nat -> Q) (p : Page) : Page :=
  match currentChatToDelete p with
  | None => p
  | Some id =>
      if String.eqb id "" then p
      else
        let p := match revision with
                 | Original => log HideContextMenu p
                 | Revised => p
                 end in
        if match revision with Original => negb confirmed | Revised => false end
        then set_currentChatToDelete None p
        else
          let p := log (PostHistoryClear id) p in
          match x with
          | ClearUnsettled => p
          | ClearRejected =>
              set_currentChatToDelete None
                (log (Alert delete_failed_message) (log (ConsoleError "Error deleting chat:") p))
          | ClearResponse ok =>
              set_currentChatToDelete None
                (if ok then
                   if String.eqb id (sessionId p) then startNewChat now random p
                   else log LoadChatHistory p
                 else log (Alert delete_failed_message) p)
          end
  end.


(** *** Observation up to the console *)

Definition is_console (e : Effect) : bool :=
  match e with
  | ConsoleError _ => true
  | _ => false
  end.

(** The page with the lines written to the console left out. *)
Definition quiet (p : Page) : Page :=
  mkPage (input_value p) (input_disabled p) (send_disabled p) (chatMessages p)
    (scrollTop p) (clientHeight p) (sessionId p) (currentChatToDelete p)
    (filter (fun e => is_console e = false) (effects p)).

Definition quiet_stream (st : Stream) : Stream :=
  mkStream (quiet (page st)) (fullText st).

(** A line that carries the frame [e]. *)
Definition carries (line : string) (e : StreamEvent) : Prop :=
  startsWith line data_prefix = true /\ JSON_parse (slice_from 6 line) = Some (frame e).

Definition is_post (e : Effect) : bool :=
  match e with
  | PostChatStream _ _ => true
  | _ => false
  end.

Definition error_node : Node :=
  MessageDiv "bot" (InnerHTML (marked_parse fetch_error_message)).

(** The deltas put one after the other, in arrival order. *)
Definition joined (deltas : list string) : string :=
  foldr String.append "" deltas.

(** The lines of the reads that the consumer looks into. *)
Definition data_lines (reads : list string) : list string :=
  filter (fun line => startsWith line data_prefix = true) (concat (map split_lines reads)).

(** The request is still running: no answer yet, or a body whose next
    read has not settled. *)
Definition in_flight (x : Exchange) : bool :=
  match x with
  | NoAnswerYet => true
  | Response true _ StillOpen => true
  | _ => false
  end.

(** Number of chat requests sent. *)
Definition posts (l : list Effect) : nat :=
  length (filter (fun e => is_post e = true) l).

(** What the read loop has no business with. *)
Definition outside (p : Page) : string * bool * bool * Z * string * option string * nat :=
  (input_value p, input_disabled p, send_disabled p, clientHeight p, sessionId p,
   currentChatToDelete p, posts (effects p)).

(** *** The frames of a stream, read as events *)

(** The deltas of the Text frames, in arrival order. *)
Fixpoint deltas (events : list StreamEvent) : list string :=
  match events with
  | [] => []
  | Text delta :: rest => delta :: deltas rest
  | _ :: rest => deltas rest
  end.

(** The calls a sequence of frames gives rise to when the accumulator
    holds [acc] at its start: every Done speaks what has been received so
    far and reloads the session list. *)
Fixpoint calls (acc : string) (events : list StreamEvent) : list Effect :=
  match events with
  | [] => []
  | Text delta :: rest => calls (acc +:+ delta) rest
  | Done :: rest => Speak acc :: LoadChatHistory :: calls acc rest
  | Error _ :: rest => calls acc rest
  end.

(** What the bot message shows after a sequence of frames: the
    rendering made by the last frame that renders. *)
Fixpoint shown (acc : string) (current : Content) (events : list StreamEvent) : Content :=
  match events with
  | [] => current
  | Text delta :: rest =>
      if String.eqb delta "" then shown acc current rest
      else shown (acc +:+ delta) (InnerHTML (marked_parse (acc +:+ delta))) rest
  | Done :: rest => shown acc current rest
  | Error message :: rest =>
      if String.eqb message "" then shown acc current rest
      else shown acc (TextContent ("Error: " +:+ message)) rest
  end.

(** *** Histories *)

(** [data.history.forEach(item => addMessage(item.role, item.message))] *)
Definition replay (history : list (string * string)) (p : Page) : Page :=
  foldl (fun p item => addMessage item.1 item.2 p) p history.

(** The revised script ends a replay by a timer of delay 0 that scrolls
    to the bottom; the page is taken once the timer has run. *)
Definition after_replay (p : Page) : Page :=
  match revision with
  | Original => p
  | Revised => scroll_to_bottom p
  end.

Definition loadHistory (x : HistoryExchange) (p : Page) : Page :=
  match x with
  | HistoryUnsettled => p
  | HistoryFailed => log (ConsoleError "Error loading history:") p
  | HistoryResponse [] => p
  | HistoryResponse history =>
      let p := set_children (remove_first_empty_state (chatMessages p)) p in
      after_replay (replay history p)
  end.

Definition loadChat (chatSessionId : string) (x : HistoryExchange) (p : Page) : Page :=
  let p := set_sessionId chatSessionId p in
  let p := set_children [] p in
  match x with
  | HistoryUnsettled => p
  | HistoryFailed => log (ConsoleError "Error loading history:") p
  | HistoryResponse [] => set_children [EmptyState None false] p
  | HistoryResponse history => after_replay (replay history p)
  end.

(** [sendSuggestion(text)]: the chip text goes into the input box and is
    sent. *)
Definition sendSuggestion (text : string) (x : Exchange) (p : Page) : Page :=
  sendMessage x
    (mkPage text (input_disabled p) (send_disabled p) (chatMessages p) (scrollTop p)
       (clientHeight p) (sessionId p) (currentChatToDelete p) (effects p)).

(** *** speak *)

Variable String_toLowerCase : string -> string.      (* String.prototype.toLowerCase *)

Definition named (word : string) (v : Voice) : bool :=
  includes (String_toLowerCase (voice_name v)) word.

(** The choice of a voice in the revised script: the first match of the
    first test that has one, else the first voice, else none. *)
Definition selectVoice (voices : list Voice) : option Voice :=
  match find (fun v => String.eqb (voice_lang v) "ja-JP" && named "female" v) voices with
  | Some v => Some v
  | None =>
      match find (fun v => String.eqb (voice_lang v) "ja-JP") voices with
      | Some v => Some v
      | None =>
          match find (fun v => named "female" v || named "girl" v) voices with
          | Some v => Some v
          | None =>
              match find (fun v => startsWith (voice_lang v) "en"
                                   || startsWith (voice_lang v) "zh"
                                   || startsWith (voice_lang v) "ko") voices with
              | Some v => Some v
              | None => head voices
              end
          end
      end
  end.

(** [voices] is what [getVoices()] returns at the moment of the call. *)
Definition utterance (voices : list Voice) (text : string) : Utterance :=
  match revision with
  | Original => mkUtterance text 1 1 1 None
  | Revised => mkUtterance text (12 # 10) (18 # 10) 1 (selectVoice voices)
  end.

Definition speak (voices : list Voice) (text : string) (s : Settings) : Settings :=
  match speechSynthesis s with
  | Some _ =>
      if negb (isTTSEnabled s) then s
      else
        let s := cancel s in
        mkSettings (data_theme s) (localStorage s) (isTTSEnabled s) (tts_toggle_disabled s)
          (option_map (fun queue => queue ++ [utterance voices text]) (speechSynthesis s))
  | None => s
  end.

(** What can happen to the speech settings, one after the other. *)
Inductive SpeechOp : Type :=
| DoSpeak (voices : list Voice) (text : string)
| DoToggleTTS
| DoToggleTheme.

Definition speech_step (s : Settings) (op : SpeechOp) : Settings :=
  match op with
  | DoSpeak voices text => speak voices text s
  | DoToggleTTS => toggleTTS s
  | DoToggleTheme => toggleTheme s
  end.

(** *** Suggestion chips *)

(** [text.replace(/'/g, '\\$&')]: a backslash goes in front of every
    apostrophe. *)
Fixpoint escape_apostrophes (text : string) : string :=
  match text with
  | EmptyString => EmptyString
  | String c rest =>
      if Ascii.eqb c "'" then String "\" (String "'" (escape_apostrophes rest))
      else String c (escape_apostrophes rest)
  end.

Definition icons : list string :=
  [ "M12 2l3.09 6.26L22 9.27l-5 4.87 1.18 6.88L12 17.77l-6.18 3.25L7 14.14 2 9.27l6.91-1.01L12 2z";
    "M9 19v-6a2 2 0 00-2-2H5a2 2 0 00-2 2v6a2 2 0 002 2h2a2 2 0 002-2zm0 0V9a2 2 0 012-2h2a2 2 0 012 2v10m-6 0a2 2 0 002 2h2a2 2 0 002-2m0 0V5a2 2 0 012-2h2a2 2 0 012 2v14a2 2 0 01-2 2h-2a2 2 0 01-2-2z";
    "M11 5H6a2 2 0 00-2 2v11a2 2 0 002 2h11a2 2 0 002-2v-5m-1.414-9.414a2 2 0 112.828 2.828L11.828 15H9v-2.828l8.586-8.586z";
    "M3 15a4 4 0 004 4h11a3 3 0 002.995-2.824L21 15v2.18a3 3 0 01-.171.923L15.5 21l-5-3-5.329 3L3 17.18V15zm15-3a1 1 0 110-2 1 1 0 010 2z";
    "M14 2H6a2 2 0 00-2 2v16a2 2 0 002 2h12a2 2 0 002-2V8z";
    "M21 16V8a2 2 0 00-1-1.73l-7-4a2 2 0 00-2 0l-7 4A2 2 0 003 8v8a2 2 0 001 1.73l7 4a2 2 0 002 0l7-4A2 2 0 0021 16z" ].

(** [tpl] writes a piece of the template with a backquote where the
    markup has a double quote. *)
Fixpoint tpl (s : string) : string :=
  match s with
  | EmptyString => EmptyString
  | String c r => String (if Ascii.eqb c "`" then DQ else c) (tpl r)
  end.

(** The markup of one chip, from its start up to the apostrophe that
    opens the argument of the handler, and as a whole. *)
Definition chip_open : string := tpl "<div class=`chip` onclick=`sendSuggestion('".

Definition chip (iconPath escapedText text : string) : string :=
  chip_open +:+ escapedText +:+ tpl "')`>"
  +:+ String LF (tpl "            <svg viewBox=`0 0 24 24` fill=`none` stroke=`currentColor` stroke-width=`2`>")
  +:+ String LF (tpl "                <path d=`") +:+ iconPath +:+ tpl "`/>"
  +:+ String LF "            </svg>"
  +:+ String LF "            " +:+ text
  +:+ String LF "        </div>".

Definition generateSuggestionChipsHTML (suggestions : list string) : string :=
  joined
    (imap (fun index text =>
             let iconPath := nth (index mod length icons) icons "" in
             let escapedText := escape_apostrophes text in
             chip iconPath escapedText text)
       suggestions).

(** The body of a single-quoted string literal made of plain characters
    and the escapes of the apostrophe and of the backslash, read up to
    the closing apostrophe: what it denotes, and what follows it.  A line
    break or another escape is not read. *)
Fixpoint read_quoted (s : string) : option (string * string) :=
  match s with
  | EmptyString => None
  | String "'" rest => Some (EmptyString, rest)
  | String "\" (String c rest) =>
      if Ascii.eqb c "'" || Ascii.eqb c "\"
      then option_map (fun '(t, r) => (String c t, r)) (read_quoted rest)
      else None
  | String c rest =>
      if Ascii.eqb c LF || Ascii.eqb c "013" || Ascii.eqb c "\" then None
      else option_map (fun '(t, r) => (String c t, r)) (read_quoted rest)
  end.

(** No backslash and no line break in the text. *)
Fixpoint plain (text : string) : bool :=
  match text with
  | EmptyString => true
  | String c rest =>
      negb (Ascii.eqb c "\" || Ascii.eqb c LF || Ascii.eqb c "013") && plain rest
  end.

(** ** Properties *)

(** *** Lines and reads *)

Lemma process_lines_app i w l1 l2 st :
  process_lines i w (l1 ++ l2) st = process_lines i w l2 (process_lines i w l1 st).
Proof. unfold process_lines. apply foldl_app. Qed.

Lemma read_loop_app i w r1 r2 st :
  read_loop i w (r1 ++ r2) st = read_loop i w r2 (read_loop i w r1 st).
Proof. unfold read_loop. apply foldl_app. Qed.

(** Every read is cut into lines on its own: the loop is the line
    processor run over the pieces of the first read, then those of the
    second, and so on. *)
Lemma read_loop_lines i w reads st :
  read_loop i w reads st = process_lines i w (concat (map split_lines reads)) st.
Proof.
  revert st. induction reads as [|chunk reads IH]; intros st; [reflexivity|].
  cbn [map concat]. rewrite process_lines_app, <- IH. reflexivity.
Qed.

Lemma process_line_other i w line st :
  startsWith line data_prefix = false -> process_line i w line st = st.
Proof. intros H. unfold process_line. rewrite H. reflexivity. Qed.

Lemma process_line_malformed i w line st :
  startsWith line data_prefix = true ->
  JSON_parse (slice_from 6 line) = None ->
  process_line i w line st = mkStream (log parse_error (page st)) (fullText st).
Proof. intros H1 H2. unfold process_line. rewrite H1, H2. reflexivity. Qed.

Lemma process_line_data i w line data st :
  startsWith line data_prefix = true ->
  JSON_parse (slice_from 6 line) = Some data ->
  process_line i w line st = process_data i w data st.
Proof. intros H1 H2. unfold process_line. rewrite H1, H2. reflexivity. Qed.

(** *** The console does not feed back into the consumer *)

Lemma quiet_log e p :
  quiet (log e p) = if is_console e then quiet p else log e (quiet p).
Proof.
  unfold quiet, log; cbn. rewrite filter_app.
  destruct e; cbn; rewrite ?app_nil_r; reflexivity.
Qed.

Lemma quiet_set_children nodes p :
  quiet (set_children nodes p) = set_children nodes (quiet p).
Proof. reflexivity. Qed.

Lemma quiet_scroll_to_bottom p :
  quiet (scroll_to_bottom p) = scroll_to_bottom (quiet p).
Proof. reflexivity. Qed.

Lemma quiet_set_content i c p :
  quiet (set_content i c p) = set_content i c (quiet p).
Proof. reflexivity. Qed.

Lemma quiet_idem p : quiet (quiet p) = quiet p.
Proof.
  unfold quiet; cbn. f_equal.
  induction (effects p) as [|e l IH]; [reflexivity|].
  rewrite (filter_cons _ e l).
  destruct (decide (is_console e = false)) as [H|H]; [|exact IH].
  rewrite filter_cons_True by exact H. rewrite IH. reflexivity.
Qed.

Lemma quiet_process_data i w data st :
  quiet_stream (process_data i w data st)
  = quiet_stream (process_data i w data (quiet_stream st)).
Proof.
  unfold process_data, quiet_stream.
  destruct (get data "text") as [| |v]; cbn [truthy page fullText].
  - rewrite !quiet_log; cbn. rewrite quiet_idem. reflexivity.
  - destruct (truthy (get data "done")); cbn [page fullText].
    + rewrite !quiet_log; cbn. rewrite quiet_idem. reflexivity.
    + destruct (get data "error") as [| |e]; cbn [page fullText]; rewrite ?quiet_idem; try reflexivity.
      destruct (ToBoolean e); cbn [page fullText]; rewrite ?quiet_idem; try reflexivity.
      destruct (ToString Number_toString e); cbn [page fullText];
        rewrite ?quiet_log, ?quiet_set_content; cbn; rewrite ?quiet_idem; reflexivity.
  - destruct (ToBoolean v); cbn [page fullText].
    + destruct (ToString Number_toString v); cbn [page fullText].
      * destruct (follows w);
          rewrite ?quiet_scroll_to_bottom, ?quiet_set_content, ?quiet_idem; reflexivity.
      * rewrite !quiet_log; cbn. rewrite quiet_idem. reflexivity.
    + destruct (truthy (get data "done")); cbn [page fullText].
      * rewrite !quiet_log; cbn. rewrite quiet_idem. reflexivity.
      * destruct (get data "error") as [| |e]; cbn [page fullText]; rewrite ?quiet_idem; try reflexivity.
        destruct (ToBoolean e); cbn [page fullText]; rewrite ?quiet_idem; try reflexivity.
        destruct (ToString Number_toString e); cbn [page fullText];
          rewrite ?quiet_log, ?quiet_set_content; cbn; rewrite ?quiet_idem; reflexivity.
Qed.

Lemma quiet_process_line i w line st :
  quiet_stream (process_line i w line st)
  = quiet_stream (process_line i w line (quiet_stream st)).
Proof.
  unfold process_line. destruct (startsWith line data_prefix).
  - destruct (JSON_parse (slice_from 6 line)) as [data|].
    + apply quiet_process_data.
    + unfold quiet_stream; cbn [page fullText]. rewrite !quiet_log; cbn.
      rewrite quiet_idem. reflexivity.
  - unfold quiet_stream; cbn [page fullText]. rewrite quiet_idem. reflexivity.
Qed.

Lemma quiet_process_lines i w lines st :
  quiet_stream (process_lines i w lines st)
  = quiet_stream (process_lines i w lines (quiet_stream st)).
Proof.
  revert st. induction lines as [|line lines IH]; intros st.
  - unfold quiet_stream; cbn. rewrite quiet_idem. reflexivity.
  - change (process_lines i w (line :: lines) st)
      with (process_lines i w lines (process_line i w line st)).
    change (process_lines i w (line :: lines) (quiet_stream st))
      with (process_lines i w lines (process_line i w line (quiet_stream st))).
    rewrite IH, quiet_process_line, <- IH. reflexivity.
Qed.

(** *** Frames without effect *)

Lemma process_data_nothing_truthy i w data st :
  data <> JNull ->
  truthy (get data "text") = false ->
  truthy (get data "done") = false ->
  truthy (get data "error") = false ->
  process_data i w data st = st.
Proof.
  intros Hnull Ht Hd He. unfold process_data. rewrite Hd.
  destruct (get data "text") as [| |v] eqn:Et.
  - destruct data; cbn in Et; try discriminate; [congruence|].
    destruct (own_property "text" fields); discriminate.
  - cbn [truthy]. destruct (get data "error") as [| |e]; try reflexivity.
    cbn in He. rewrite He. reflexivity.
  - rewrite Ht. destruct (get data "error") as [| |e]; try reflexivity.
    cbn in He. rewrite He. reflexivity.
Qed.

(** C10. The consumer tests the fields of a frame for truthiness, not for
    presence: a line carrying the frame with the empty text, with [done]
    false, or with the empty error leaves the whole state as it was -- accumulator,
    rendered content, scroll offset, speech, session-list refresh and
    console alike -- so an empty delta is skipped, not appended. *)
Theorem falsy_frames_ignored i w line data st :
  startsWith line data_prefix = true ->
  JSON_parse (slice_from 6 line) = Some data ->
  data = JObj [("text", JStr "")] \/
  data = JObj [("done", JBool false)] \/
  data = JObj [("error", JStr "")] ->
  process_line i w line st = st.
Proof.
  intros Hp Hj Hd. rewrite (process_line_data _ _ _ _ _ Hp Hj).
  apply process_data_nothing_truthy;
    destruct Hd as [-> | [-> | ->]]; solve [discriminate | reflexivity].
Qed.

(** C7. A line with the [data: ] prefix whose remainder does not parse is
    dropped: apart from the line written to the console the state is
    unchanged (accumulator and children of the message area in
    particular), and a run that contains the line ends, up to the
    console, where the run without it ends. *)
Theorem malformed_frame_dropped i w pre line post st0 :
  startsWith line data_prefix = true ->
  JSON_parse (slice_from 6 line) = None ->
  (forall st,
      fullText (process_line i w line st) = fullText st /\
      chatMessages (page (process_line i w line st)) = chatMessages (page st) /\
      quiet_stream (process_line i w line st) = quiet_stream st) /\
  quiet_stream (process_lines i w (pre ++ line :: post) st0)
  = quiet_stream (process_lines i w (pre ++ post) st0).
Proof.
  intros Hp Hj.
  assert (Hq : forall st, quiet_stream (process_line i w line st) = quiet_stream st).
  { intros st. rewrite (process_line_malformed _ _ _ _ Hp Hj).
    unfold quiet_stream; cbn [page fullText]. rewrite quiet_log. reflexivity. }
  split.
  - intros st. split; [|split]; [| |apply Hq];
      rewrite (process_line_malformed _ _ _ _ Hp Hj); reflexivity.
  - rewrite !process_lines_app.
    change (process_lines i w (line :: post) ?s)
      with (process_lines i w post (process_line i w line s)).
    rewrite quiet_process_lines, Hq, <- quiet_process_lines. reflexivity.
Qed.

(** *** Strings *)

Lemma append_nil_r s : s +:+ "" = s.
Proof.
  induction s as [|c s IH]; [reflexivity|].
  change (String c (s +:+ "") = String c s). f_equal. exact IH.
Qed.

Lemma append_assoc s1 s2 s3 : (s1 +:+ s2) +:+ s3 = s1 +:+ (s2 +:+ s3).
Proof.
  induction s1 as [|c s1 IH]; [reflexivity|].
  change (String c ((s1 +:+ s2) +:+ s3) = String c (s1 +:+ (s2 +:+ s3))).
  f_equal. exact IH.
Qed.

Lemma append_empty s1 s2 : s1 +:+ s2 = "" -> s1 = "" /\ s2 = "".
Proof. destruct s1; cbn; [auto|discriminate]. Qed.

Lemma eqb_empty_false s : s <> "" -> String.eqb s "" = false.
Proof. intros H. apply String.eqb_neq. exact H. Qed.

(** *** One frame *)

Lemma process_data_text i w delta st :
  delta <> "" ->
  process_data i w (frame (Text delta)) st
  = let fullText' := fullText st +:+ delta in
    let p := set_content i (InnerHTML (marked_parse fullText')) (page st) in
    mkStream (if follows w then scroll_to_bottom p else p) fullText'.
Proof.
  intros H. unfold process_data. cbn. rewrite (eqb_empty_false _ H). reflexivity.
Qed.

Lemma process_data_text_empty i w st :
  process_data i w (frame (Text "")) st = st.
Proof. reflexivity. Qed.

Lemma process_data_done i w st :
  process_data i w (frame Done) st
  = mkStream (log LoadChatHistory (log (Speak (fullText st)) (page st))) (fullText st).
Proof. reflexivity. Qed.

Lemma process_data_error i w message st :
  message <> "" ->
  process_data i w (frame (Error message)) st
  = mkStream (set_content i (TextContent ("Error: " +:+ message)) (page st)) (fullText st).
Proof.
  intros H. unfold process_data. cbn. rewrite (eqb_empty_false _ H). reflexivity.
Qed.

Lemma process_data_error_empty i w st :
  process_data i w (frame (Error "")) st = st.
Proof. reflexivity. Qed.

(** *** The bot message *)

Lemma content_at_set_content i c p :
  (i < length (chatMessages p))%nat ->
  content_at i (set_content i c p) = Some c.
Proof.
  intros H. unfold content_at, set_content; cbn.
  rewrite list_lookup_insert_eq by exact H. reflexivity.
Qed.

Lemma length_set_content i c p :
  length (chatMessages (set_content i c p)) = length (chatMessages p).
Proof. unfold set_content; cbn. apply length_insert. Qed.

Lemma content_at_scroll_to_bottom i p :
  content_at i (scroll_to_bottom p) = content_at i p.
Proof. reflexivity. Qed.

(** A Text frame: the accumulator grows by the delta, nothing leaves the
    script, and unless the delta is empty the bot message shows the
    markdown of the whole accumulator. *)
Lemma text_frame_step i w delta st :
  (i < length (chatMessages (page st)))%nat ->
  let st' := process_data i w (frame (Text delta)) st in
  fullText st' = fullText st +:+ delta /\
  effects (page st') = effects (page st) /\
  length (chatMessages (page st')) = length (chatMessages (page st)) /\
  content_at i (page st')
  = if String.eqb delta "" then content_at i (page st)
    else Some (InnerHTML (marked_parse (fullText st +:+ delta))).
Proof.
  intros Hi. destruct (String.eqb_spec delta "") as [->|Hne].
  - rewrite process_data_text_empty. cbn zeta. rewrite append_nil_r. auto.
  - rewrite (process_data_text _ _ _ _ Hne). cbn zeta.
    destruct (follows w); cbn [page fullText];
      rewrite ?content_at_scroll_to_bottom, (content_at_set_content _ _ _ Hi);
      repeat split; try reflexivity; apply length_set_content.
Qed.

Lemma text_frames_run i w lines deltas st :
  Forall2 carries lines (map Text deltas) ->
  (i < length (chatMessages (page st)))%nat ->
  let st' := process_lines i w lines st in
  fullText st' = fullText st +:+ joined deltas /\
  effects (page st') = effects (page st) /\
  length (chatMessages (page st')) = length (chatMessages (page st)) /\
  content_at i (page st')
  = if String.eqb (joined deltas) "" then content_at i (page st)
    else Some (InnerHTML (marked_parse (fullText st +:+ joined deltas))).
Proof.
  revert lines st. induction deltas as [|d deltas IH]; intros lines st HF Hi.
  - apply Forall2_nil_inv_r in HF as ->. cbn zeta. cbn [joined foldr].
    rewrite append_nil_r. auto.
  - cbn [map] in HF. apply Forall2_cons_inv_r in HF as (line & lines' & [Hp Hj] & HF & ->).
    change (process_lines i w (line :: lines') st)
      with (process_lines i w lines' (process_line i w line st)).
    rewrite (process_line_data _ _ _ _ _ Hp Hj).
    destruct (text_frame_step i w d st Hi) as (Hf & He & Hl & Hc).
    set (st1 := process_data i w (frame (Text d)) st) in *.
    assert (Hi1 : (i < length (chatMessages (page st1)))%nat) by (rewrite Hl; exact Hi).
    destruct (IH lines' st1 HF Hi1) as (Hf' & He' & Hl' & Hc').
    cbn zeta. cbn [joined foldr]. fold (joined deltas).
    rewrite Hf', He', Hl', Hc', Hf, He, Hl, Hc, append_assoc.
    repeat split.
    destruct (String.eqb_spec (joined deltas) "") as [E|E].
    + rewrite E, !append_nil_r. reflexivity.
    + destruct (String.eqb_spec (d +:+ joined deltas) "") as [E'|E']; [|reflexivity].
      apply append_empty in E' as [_ E']. contradiction.
Qed.

Lemma process_lines_data_only i w lines st :
  process_lines i w lines st
  = process_lines i w (filter (fun line => startsWith line data_prefix = true) lines) st.
Proof.
  revert st. induction lines as [|line lines IH]; intros st; [reflexivity|].
  change (process_lines i w (line :: lines) st)
    with (process_lines i w lines (process_line i w line st)).
  rewrite filter_cons. destruct (decide (startsWith line data_prefix = true)) as [H|H].
  - change (process_lines i w (line :: ?l) st)
      with (process_lines i w l (process_line i w line st)).
    apply IH.
  - apply not_true_is_false in H. rewrite (process_line_other _ _ _ _ H). apply IH.
Qed.

Lemma read_loop_data_lines i w reads st :
  read_loop i w reads st = process_lines i w (data_lines reads) st.
Proof. rewrite read_loop_lines. apply process_lines_data_only. Qed.

(** C1. When the data lines of the reads carry Text frames followed by a
    Done frame, the bot message ends up showing the markdown rendering of
    the deltas concatenated in arrival order, the accumulator is that
    concatenation, and the one call the run makes to the speech bridge
    passes exactly it (followed by the session-list refresh).  The bot
    message starts as the empty [div] that [sendMessage] creates;
    [marked] renders the empty text as the empty markup. *)
Theorem text_then_done_renders_concatenation i w reads deltas p :
  marked_parse "" = "" ->
  chatMessages p !! i = Some (MessageDiv "bot" (InnerHTML "")) ->
  Forall2 carries (data_lines reads) (map Text deltas ++ [Done]) ->
  let st := read_loop i w reads (mkStream p "") in
  content_at i (page st) = Some (InnerHTML (marked_parse (joined deltas))) /\
  fullText st = joined deltas /\
  effects (page st) = effects p ++ [Speak (joined deltas); LoadChatHistory].
Proof.
  intros Hm Hdiv HF. cbn zeta. rewrite read_loop_data_lines.
  apply Forall2_app_inv_r in HF as (ltext & ldone & HFt & HFd & ->).
  apply Forall2_cons_inv_r in HFd as (line & rest & [Hp Hj] & HFn & ->).
  apply Forall2_nil_inv_r in HFn as ->.
  rewrite process_lines_app.
  assert (Hi : (i < length (chatMessages (page (mkStream p ""))))%nat).
  { cbn. apply lookup_lt_is_Some. eauto. }
  destruct (text_frames_run i w ltext deltas (mkStream p "") HFt Hi) as (Hf & He & _ & Hc).
  set (st1 := process_lines i w ltext (mkStream p "")) in *.
  change (process_lines i w [line] st1) with (process_line i w line st1).
  rewrite (process_line_data _ _ _ _ _ Hp Hj), process_data_done.
  cbn [page fullText] in *. cbn [String.append] in Hf, Hc.
  repeat split.
  - change (content_at i (log LoadChatHistory (log (Speak (fullText st1)) (page st1))))
      with (content_at i (page st1)).
    rewrite Hc. destruct (String.eqb_spec (joined deltas) "") as [E|E]; [|reflexivity].
    unfold content_at. rewrite Hdiv, E, Hm. reflexivity.
  - exact Hf.
  - unfold log; cbn. rewrite He, Hf, <- app_assoc. reflexivity.
Qed.

(** C2 (as the script has it).  An Error frame with a non-empty message
    puts the literal text [Error: ] followed by the message into the bot
    message and
    leaves the accumulator and the outgoing calls alone; it does not end
    the consumption: a Text frame that arrives after it, with a non-empty
    delta, is appended to the accumulator and the markdown of the
    accumulated text takes the place of the error display. *)
Theorem error_frame_then_text_still_rendered i w eline tline message delta st :
  carries eline (Error message) ->
  carries tline (Text delta) ->
  message <> "" ->
  delta <> "" ->
  (i < length (chatMessages (page st)))%nat ->
  let st1 := process_line i w eline st in
  let st2 := process_line i w tline st1 in
  fullText st1 = fullText st /\
  content_at i (page st1) = Some (TextContent ("Error: " +:+ message)) /\
  effects (page st1) = effects (page st) /\
  fullText st2 = fullText st +:+ delta /\
  content_at i (page st2) = Some (InnerHTML (marked_parse (fullText st +:+ delta))).
Proof.
  intros [Hpe Hje] [Hpt Hjt] Hm Hd Hi. cbn zeta.
  rewrite (process_line_data _ _ _ _ _ Hpe Hje), (process_data_error _ _ _ _ Hm).
  rewrite (process_line_data _ _ _ _ _ Hpt Hjt).
  set (st1 := mkStream _ _).
  assert (Hi1 : (i < length (chatMessages (page st1)))%nat).
  { subst st1; cbn [page]. rewrite length_set_content. exact Hi. }
  destruct (text_frame_step i w delta st1 Hi1) as (Hf & _ & _ & Hc).
  rewrite Hf, Hc, (eqb_empty_false _ Hd). subst st1; cbn [page fullText].
  rewrite (content_at_set_content _ _ _ Hi). repeat split; reflexivity.
Qed.

(** *** A frame cut by the end of a read *)

Lemma startsWith_head k payload :
  (0 < k < 6)%nat ->
  startsWith (slice_to k (data_prefix +:+ payload)) data_prefix = false /\
  startsWith (slice_from k (data_prefix +:+ payload)) data_prefix = false.
Proof.
  intros Hk.
  do 6 (destruct k as [|k]; [split; (reflexivity || lia)|]). lia.
Qed.

Lemma startsWith_body k payload :
  (6 <= k)%nat ->
  startsWith (slice_to k (data_prefix +:+ payload)) data_prefix = true.
Proof.
  intros Hk. do 6 (destruct k as [|k]; [lia|]).
  change (slice_to (S (S (S (S (S (S k)))))) (data_prefix +:+ payload))
    with (data_prefix +:+ slice_to k payload).
  unfold startsWith, data_prefix.
  destruct (slice_to k payload); reflexivity.
Qed.

Lemma slice_to_length s : slice_to (String.length s) s = s.
Proof. induction s as [|c s IH]; [reflexivity|]. cbn. rewrite IH. reflexivity. Qed.

Lemma slice_from_length s : slice_from (String.length s) s = "".
Proof. induction s as [|c s IH]; [reflexivity|]. exact IH. Qed.

(** C3 (as the script has it).  Each read is split on line feeds by
    itself and nothing is carried from one read to the next; lines
    without the [data: ] prefix are skipped.  When the end of a read cuts
    the frame [data: payload] at position [k], so that its first part is
    the last line of one read and the rest the first line of the next,
    the two parts are processed as two separate lines.  The frame is lost
    -- the run ends, up to the console, as if the frame had not been sent
    -- whenever the cut falls inside the prefix, or the part of the
    payload before the cut does not parse and the part after it does not
    itself begin with the prefix.  When the part of the payload before
    the cut does parse, and the part after it does not begin with the
    prefix, the part before the cut is processed as a frame of its own;
    so the frame is processed exactly as if it had not been cut whenever
    that part parses to what the whole payload parses to, as it does for
    a cut just before the line feed that ends the frame. *)
Theorem split_frame_lost i w read1 read2 before after payload k st :
  (0 < k <= String.length (data_prefix +:+ payload))%nat ->
  split_lines read1 = before ++ [slice_to k (data_prefix +:+ payload)] ->
  split_lines read2 = slice_from k (data_prefix +:+ payload) :: after ->
  (forall reads st', read_loop i w reads st'
                     = process_lines i w (concat (map split_lines reads)) st') /\
  (forall line st', startsWith line data_prefix = false -> process_line i w line st' = st') /\
  read_loop i w [read1; read2] st
  = process_lines i w
      (before ++ [slice_to k (data_prefix +:+ payload);
                  slice_from k (data_prefix +:+ payload)] ++ after) st /\
  (((6 <= k)%nat ->
    JSON_parse (slice_from 6 (slice_to k (data_prefix +:+ payload))) = None /\
    startsWith (slice_from k (data_prefix +:+ payload)) data_prefix = false) ->
   quiet_stream (read_loop i w [read1; read2] st)
   = quiet_stream (process_lines i w (before ++ after) st)) /\
  ((6 <= k)%nat ->
   startsWith (slice_from k (data_prefix +:+ payload)) data_prefix = false ->
   forall data,
     JSON_parse (slice_from 6 (slice_to k (data_prefix +:+ payload))) = Some data ->
     read_loop i w [read1; read2] st
     = process_lines i w after (process_data i w data (process_lines i w before st)) /\
     (JSON_parse payload = Some data ->
      read_loop i w [read1; read2] st
      = process_lines i w (before ++ [data_prefix +:+ payload] ++ after) st)) /\
  (k = String.length (data_prefix +:+ payload) ->
   read_loop i w [read1; read2] st
   = process_lines i w (before ++ [data_prefix +:+ payload] ++ after) st).
Proof.
  intros Hk H1 H2.
  set (first := slice_to k (data_prefix +:+ payload)) in *.
  set (second := slice_from k (data_prefix +:+ payload)) in *.
  assert (Hrun : read_loop i w [read1; read2] st
                 = process_lines i w (before ++ [first; second] ++ after) st).
  { rewrite read_loop_lines. cbn [map concat]. rewrite H1, H2, app_nil_r, <- app_assoc.
    reflexivity. }
  assert (Hsteps : process_lines i w (before ++ [first; second] ++ after) st
                   = process_lines i w after
                       (process_line i w second
                          (process_line i w first (process_lines i w before st)))).
  { rewrite !process_lines_app. reflexivity. }
  split; [apply read_loop_lines|]. split; [apply process_line_other|]. split; [exact Hrun|].
  split; [|split].
  - intros Hbody. rewrite Hrun, !process_lines_app.
    set (s1 := process_lines i w before st).
    change (process_lines i w [first; second] s1)
      with (process_line i w second (process_line i w first s1)).
    assert (Hq : quiet_stream (process_line i w second (process_line i w first s1))
                 = quiet_stream s1).
    { destruct (Nat.lt_ge_cases k 6) as [Hlt|Hge].
      - destruct (startsWith_head k payload ltac:(lia)) as [Hf Hs].
        fold first in Hf. fold second in Hs.
        rewrite (process_line_other _ _ _ _ Hs), (process_line_other _ _ _ _ Hf). reflexivity.
      - destruct (Hbody Hge) as [Hj Hs].
        rewrite (process_line_other _ _ _ _ Hs).
        rewrite (process_line_malformed _ _ _ _ (startsWith_body k payload Hge) Hj).
        unfold quiet_stream; cbn [page fullText]. rewrite quiet_log. reflexivity. }
    rewrite quiet_process_lines, Hq, <- quiet_process_lines. reflexivity.
  - intros Hge Hs data Hj.
    assert (Hcut : read_loop i w [read1; read2] st
                   = process_lines i w after
                       (process_data i w data (process_lines i w before st))).
    { rewrite Hrun, Hsteps, (process_line_other _ _ _ _ Hs).
      rewrite (process_line_data _ _ _ _ _ (startsWith_body k payload Hge) Hj).
      reflexivity. }
    split; [exact Hcut|]. intros Hwhole. rewrite Hcut, !process_lines_app.
    change (process_lines i w [data_prefix +:+ payload] ?s)
      with (process_line i w (data_prefix +:+ payload) s).
    rewrite (process_line_data _ _ (data_prefix +:+ payload) data); [reflexivity| |exact Hwhole].
    unfold startsWith, data_prefix. destruct payload; reflexivity.
  - intros ->. rewrite Hrun, Hsteps. subst first second.
    rewrite slice_to_length, slice_from_length, !process_lines_app.
    rewrite (process_line_other _ _ "") by reflexivity. reflexivity.
Qed.

(** *** Suggestions *)

Lemma suggestionPool_NoDup : NoDup suggestionPool.
Proof. apply (bool_decide_unpack _). vm_compute. exact I. Qed.

Lemma Array_slice_first {A} (n : Z) (l : list A) :
  0 <= n <= Z.of_nat (length l) ->
  Array_slice 0 n l = take (Z.to_nat n) l.
Proof.
  intros Hn. unfold Array_slice.
  change (0 <? 0) with false. cbv iota.
  destruct (Z.ltb_spec n 0) as [Hneg|_]; [lia|].
  rewrite Z.min_l by lia. rewrite Z.min_l by lia.
  rewrite Z.sub_0_r. change (Z.to_nat 0) with 0%nat. rewrite drop_0. reflexivity.
Qed.

(** C9. For every count [n] between 0 and the size of the pool,
    [getRandomSuggestions(n)] has exactly [n] entries, no entry twice, and
    every entry comes from the pool -- whatever [Math.random] returns
    during the shuffle.  The sort of the platform is taken to rearrange
    its input, also under a comparator that is not consistent. *)
Theorem getRandomSuggestions_distinct_from_pool random n :
  (forall cmp l, Array_sort cmp l ≡ₚ l) ->
  0 <= n <= Z.of_nat (length suggestionPool) ->
  length (getRandomSuggestions random n) = Z.to_nat n /\
  NoDup (getRandomSuggestions random n) /\
  (forall s, s ∈ getRandomSuggestions random n -> s ∈ suggestionPool).
Proof.
  intros Hsort Hn. unfold getRandomSuggestions.
  set (shuffled := Array_sort _ suggestionPool).
  assert (Hp : shuffled ≡ₚ suggestionPool) by apply Hsort.
  assert (Hlen : length shuffled = length suggestionPool) by (rewrite Hp; reflexivity).
  rewrite Array_slice_first by (rewrite Hlen; exact Hn).
  split; [|split].
  - apply length_take_le. lia.
  - apply (sublist_NoDup _ shuffled); [|apply sublist_take].
    rewrite Hp. apply suggestionPool_NoDup.
  - intros s Hs. rewrite <- Hp. exact (subseteq_take _ _ _ Hs).
Qed.

(** *** Deleting a session *)

(** C4. After a delete request that succeeded: when the deleted id is the
    active one, the active id becomes ['session_' + Date.now()] -- the
    text [session_] followed by the decimal digits of the clock -- and
    the message area holds the empty state and nothing else; when it is
    another id, the active id, the message area, its scroll offset and
    the input controls are as before, and the only call made after the
    request is the reload of the session list. *)
Theorem deleteChat_success confirmed now random id p :
  currentChatToDelete p = Some id ->
  id <> "" ->
  (revision = Original -> confirmed = true) ->
  let p' := deleteChat confirmed (ClearResponse true) now random p in
  (id = sessionId p ->
   sessionId p' = "session_" +:+ pretty now /\
   chatMessages p' = [EmptyState (Some (getRandomSuggestions random 3)) false]) /\
  (id <> sessionId p ->
   sessionId p' = sessionId p /\
   chatMessages p' = chatMessages p /\
   scrollTop p' = scrollTop p /\
   (input_value p', input_disabled p', send_disabled p')
   = (input_value p, input_disabled p, send_disabled p) /\
   effects p'
   = effects p
     ++ match revision with Original => [HideContextMenu] | Revised => [] end
     ++ [PostHistoryClear id; LoadChatHistory]).
Proof.
  intros Hc Hid Hconf. cbn zeta. unfold deleteChat. rewrite Hc, (eqb_empty_false _ Hid).
  destruct revision.
  - rewrite (Hconf eq_refl). cbn [negb]. split.
    + intros ->. rewrite String.eqb_refl. split; reflexivity.
    + intros Hne. apply String.eqb_neq in Hne. cbn [sessionId log]. rewrite Hne.
      cbn. repeat split; try reflexivity. rewrite <- !app_assoc. reflexivity.
  - split.
    + intros ->. cbn [sessionId log]. rewrite String.eqb_refl. split; reflexivity.
    + intros Hne. apply String.eqb_neq in Hne. cbn [sessionId log]. rewrite Hne.
      cbn. repeat split; try reflexivity. rewrite <- !app_assoc. reflexivity.
Qed.

(** *** addMessage *)

Lemma chatMessages_addMessage role message p :
  chatMessages (addMessage role message p) = chatMessages p ++ [message_node role message].
Proof.
  unfold addMessage, scrollToBottomIfNear. destruct revision; [reflexivity|].
  repeat case_match; reflexivity.
Qed.

Lemma outside_addMessage role message p :
  outside (addMessage role message p) = outside p.
Proof.
  unfold addMessage, scrollToBottomIfNear. destruct revision; [reflexivity|].
  repeat case_match; reflexivity.
Qed.


(** *** What the read loop leaves alone *)

Lemma outside_log e p : is_post e = false -> outside (log e p) = outside p.
Proof.
  intros H. unfold outside, posts, log; cbn. rewrite filter_app.
  rewrite (filter_cons_False _ e []) by (rewrite H; discriminate).
  rewrite filter_nil, app_nil_r. reflexivity.
Qed.

Lemma outside_process_data i w data st :
  outside (page (process_data i w data st)) = outside (page st).
Proof.
  unfold process_data. repeat case_match; cbn [page];
    rewrite ?outside_log by reflexivity; reflexivity.
Qed.

Lemma outside_process_line i w line st :
  outside (page (process_line i w line st)) = outside (page st).
Proof.
  unfold process_line. repeat case_match; cbn [page];
    rewrite ?outside_process_data, ?outside_log by reflexivity; reflexivity.
Qed.

Lemma outside_process_lines i w lines st :
  outside (page (process_lines i w lines st)) = outside (page st).
Proof.
  revert st. induction lines as [|line lines IH]; intros st; [reflexivity|].
  change (process_lines i w (line :: lines) st)
    with (process_lines i w lines (process_line i w line st)).
  rewrite IH. apply outside_process_line.
Qed.

Lemma outside_read_loop i w reads st :
  outside (page (read_loop i w reads st)) = outside (page st).
Proof. rewrite read_loop_lines. apply outside_process_lines. Qed.

(** The children in front of the bot message stay as they are. *)
Lemma take_process_data i w data st :
  take i (chatMessages (page (process_data i w data st))) = take i (chatMessages (page st)).
Proof.
  unfold process_data. repeat case_match; cbn [page]; try reflexivity;
    apply take_insert_ge; lia.
Qed.

Lemma take_process_lines i w lines st :
  take i (chatMessages (page (process_lines i w lines st))) = take i (chatMessages (page st)).
Proof.
  revert st. induction lines as [|line lines IH]; intros st; [reflexivity|].
  change (process_lines i w (line :: lines) st)
    with (process_lines i w lines (process_line i w line st)).
  rewrite IH. unfold process_line. repeat case_match; try reflexivity.
  apply take_process_data.
Qed.

Lemma take_read_loop i w reads st :
  take i (chatMessages (page (read_loop i w reads st))) = take i (chatMessages (page st)).
Proof. rewrite read_loop_lines. apply take_process_lines. Qed.

(** *** sendMessage *)

Lemma length_fade_first nodes : length (fade_first nodes) = length nodes.
Proof.
  induction nodes as [|n nodes IH]; [reflexivity|].
  destruct n; cbn; rewrite ?IH; reflexivity.
Qed.

Lemma scroll_step_chatMessages q :
  chatMessages (match revision with
                | Original => scroll_to_bottom q
                | Revised => scrollToBottomIfNear q
                end) = chatMessages q.
Proof.
  unfold scrollToBottomIfNear. destruct revision; [reflexivity|]. case_match; reflexivity.
Qed.

Lemma scroll_step_outside q :
  outside (match revision with
           | Original => scroll_to_bottom q
           | Revised => scrollToBottomIfNear q
           end) = outside q.
Proof.
  unfold scrollToBottomIfNear. destruct revision; [reflexivity|]. case_match; reflexivity.
Qed.

(** The page while the request has no answer: the message of the user as
    literal text, then the typing indicator, after what was there. *)
Lemma sendMessage_pending_chatMessages p :
  String.eqb (String_trim (input_value p)) "" = false ->
  chatMessages (sendMessage NoAnswerYet p)
  = fade_first (chatMessages p)
    ++ [MessageDiv "user" (TextContent (String_trim (input_value p)))]
    ++ [TypingIndicator].
Proof.
  intros H. unfold sendMessage. rewrite H. cbn [log chatMessages].
  rewrite scroll_step_chatMessages.
  change (chatMessages (appendChild TypingIndicator ?q)) with (chatMessages q ++ [TypingIndicator]).
  change (chatMessages (set_controls ?v ?d ?q)) with (chatMessages q).
  rewrite chatMessages_addMessage, <- app_assoc. reflexivity.
Qed.

Lemma sendMessage_pending_outside p :
  String.eqb (String_trim (input_value p)) "" = false ->
  outside (sendMessage NoAnswerYet p)
  = ("", true, true, clientHeight p, sessionId p, currentChatToDelete p,
     S (posts (effects p))).
Proof.
  intros H. unfold sendMessage. rewrite H.
  set (q := match revision with Original => _ | Revised => _ end).
  assert (Hq : outside q = ("", true, true, clientHeight p, sessionId p,
                            currentChatToDelete p, posts (effects p))).
  { subst q. rewrite scroll_step_outside.
    change (outside (appendChild TypingIndicator ?r)) with (outside r).
    set (r := addMessage _ _ _).
    assert (Hr : outside r = outside p) by (subst r; rewrite outside_addMessage; reflexivity).
    unfold outside, posts in *. injection Hr as _ _ _ E1 E2 E3 E4.
    cbn. rewrite E1, E2, E3, E4. reflexivity. }
  unfold outside, posts in *. injection Hq as E0 E1 E2 E3 E4 E5 E6.
  unfold log; cbn [effects input_value input_disabled
    send_disabled clientHeight sessionId currentChatToDelete].
  rewrite filter_app, length_app, E0, E1, E2, E3, E4, E5, E6.
  rewrite (filter_cons_True _ _ []) by reflexivity. cbn.
  f_equal. lia.
Qed.

(** The typing indicator sits right after the message of the user. *)
Lemma typingDiv_position p :
  length (chatMessages
            (set_controls "" true
               (addMessage "user" (String_trim (input_value p))
                  (set_children (fade_first (chatMessages p)) p))))
  = S (length (chatMessages p)).
Proof.
  change (chatMessages (set_controls ?v ?d ?q)) with (chatMessages q).
  rewrite chatMessages_addMessage, length_app. cbn [chatMessages set_children set_scrollTop].
  rewrite length_fade_first. cbn. lia.
Qed.

Lemma sendMessage_cases x p :
  String.eqb (String_trim (input_value p)) "" = false ->
  sendMessage x p
  = let settled := remove_child (S (length (chatMessages p))) (sendMessage NoAnswerYet p) in
    match x with
    | NoAnswerYet => sendMessage NoAnswerYet p
    | Rejected => enable_controls (on_failure settled)
    | Response ok reads ending =>
        if negb ok then enable_controls (on_failure settled)
        else
          let messageDiv := length (chatMessages settled) in
          let q := appendChild (MessageDiv "bot" (InnerHTML "")) settled in
          let q := match revision with
                   | Original => scroll_to_bottom q
                   | Revised => q
                   end in
          let st := read_loop messageDiv (isNearBottom q) reads (mkStream q "") in
          match ending with
          | StillOpen => page st
          | EndOfStream => enable_controls (page st)
          | ReadFailure => enable_controls (on_failure (page st))
          end
    end.
Proof.
  intros H. unfold sendMessage. rewrite H. cbv zeta. rewrite typingDiv_position.
  destruct x; reflexivity.
Qed.

(** The message area once the typing indicator is removed. *)
Lemma settled_chatMessages p :
  String.eqb (String_trim (input_value p)) "" = false ->
  chatMessages (remove_child (S (length (chatMessages p))) (sendMessage NoAnswerYet p))
  = fade_first (chatMessages p)
    ++ [MessageDiv "user" (TextContent (String_trim (input_value p)))].
Proof.
  intros H.
  change (chatMessages (remove_child ?i ?q)) with (delete i (chatMessages q)).
  rewrite (sendMessage_pending_chatMessages p H), app_assoc.
  set (front := fade_first (chatMessages p) ++ [_]).
  replace (S (length (chatMessages p))) with (length front).
  - rewrite delete_middle. apply app_nil_r.
  - subst front. rewrite length_app, length_fade_first. cbn. lia.
Qed.

Lemma outside_on_failure p : outside (on_failure p) = outside p.
Proof.
  unfold on_failure. rewrite outside_log by reflexivity.
  rewrite outside_addMessage. reflexivity.
Qed.

Lemma chatMessages_on_failure p :
  chatMessages (on_failure p) = chatMessages p ++ [error_node].
Proof.
  unfold on_failure. cbn [log chatMessages]. rewrite chatMessages_addMessage. reflexivity.
Qed.

Lemma outside_fields a v d1 d2 c s t n :
  outside a = (v, d1, d2, c, s, t, n) ->
  input_disabled a = d1 /\ send_disabled a = d2 /\ posts (effects a) = n.
Proof. unfold outside. intros H. injection H as _ E1 E2 _ _ _ E6. auto. Qed.

Lemma outside_enable_controls a v d1 d2 c s t n :
  outside a = (v, d1, d2, c, s, t, n) ->
  input_disabled (enable_controls a) = false /\
  send_disabled (enable_controls a) = false /\
  posts (effects (enable_controls a)) = n.
Proof. unfold outside. intros H. injection H as _ _ _ _ _ _ E6. cbn. auto. Qed.

(** The page while the body of a successful response is read. *)
Lemma sendMessage_streaming_outside reads p :
  String.eqb (String_trim (input_value p)) "" = false ->
  outside (sendMessage (Response true reads StillOpen) p)
  = outside (sendMessage NoAnswerYet p).
Proof.
  intros H. rewrite (sendMessage_cases (Response true reads StillOpen) p H).
  cbn zeta. cbn [negb]. cbv iota. rewrite outside_read_loop. cbn [page].
  destruct revision; reflexivity.
Qed.

(** A successful response: the page at its end is the page while the
    body was read, with the controls enabled again and, after a failing
    read, the outer [catch] run on it. *)
Lemma sendMessage_ok_cases reads ending p :
  String.eqb (String_trim (input_value p)) "" = false ->
  sendMessage (Response true reads ending) p
  = match ending with
    | StillOpen => sendMessage (Response true reads StillOpen) p
    | EndOfStream => enable_controls (sendMessage (Response true reads StillOpen) p)
    | ReadFailure =>
        enable_controls (on_failure (sendMessage (Response true reads StillOpen) p))
    end.
Proof.
  intros Hne.
  rewrite (sendMessage_cases (Response true reads StillOpen) p Hne).
  rewrite (sendMessage_cases (Response true reads ending) p Hne).
  cbn zeta. destruct revision, ending; reflexivity.
Qed.

(** The text of the input box stays in the message area, as literal
    text, whatever becomes of the request. *)
Lemma user_node_stays x p :
  String.eqb (String_trim (input_value p)) "" = false ->
  MessageDiv "user" (TextContent (String_trim (input_value p)))
  ∈ chatMessages (sendMessage x p).
Proof.
  intros Hne.
  set (user := MessageDiv "user" (TextContent (String_trim (input_value p)))).
  set (settled := remove_child (S (length (chatMessages p))) (sendMessage NoAnswerYet p)).
  assert (Hq : user ∈ chatMessages (sendMessage NoAnswerYet p)).
  { rewrite (sendMessage_pending_chatMessages p Hne).
    apply elem_of_app. right. apply elem_of_app. left. apply list_elem_of_singleton.
    reflexivity. }
  assert (Hf : forall a, user ∈ chatMessages a -> user ∈ chatMessages (on_failure a)).
  { intros a Ha. rewrite chatMessages_on_failure. apply elem_of_app. left. exact Ha. }
  assert (Hr : user ∈ chatMessages settled).
  { subst settled. rewrite (settled_chatMessages p Hne).
    apply elem_of_app. right. apply list_elem_of_singleton. reflexivity. }
  destruct x as [| |ok reads ending].
  - exact Hq.
  - rewrite (sendMessage_cases Rejected p Hne). cbn zeta. apply (Hf _ Hr).
  - destruct ok.
    + assert (Hs : user ∈ chatMessages (sendMessage (Response true reads StillOpen) p)).
      { rewrite (sendMessage_cases (Response true reads StillOpen) p Hne). cbn zeta.
        cbn [negb]. cbv iota. fold settled.
        set (q' := match revision with Original => _ | Revised => _ end).
        assert (Hq' : chatMessages q'
                      = chatMessages settled ++ [MessageDiv "bot" (InnerHTML "")])
          by (subst q'; destruct revision; reflexivity).
        eapply subseteq_take. rewrite take_read_loop. cbn [page].
        rewrite Hq', take_app_length. exact Hr. }
      rewrite (sendMessage_ok_cases reads ending p Hne).
      destruct ending; [exact Hs|apply (Hf _ Hs)|exact Hs].
    + rewrite (sendMessage_cases (Response false reads ending) p Hne). cbn zeta.
      cbn [negb]. cbv iota. apply (Hf _ Hr).
Qed.

(** *** Scrolling *)

(** The page when the bot message has just been created, and the stream
    that [sendMessage] runs from there: the flag of the read loop is the
    test made on that page. *)
Lemma sendMessage_stream reads p :
  String.eqb (String_trim (input_value p)) "" = false ->
  let created := sendMessage (Response true [] StillOpen) p in
  sendMessage (Response true reads StillOpen) p
  = page (read_loop (S (length (chatMessages p))) (isNearBottom created) reads
            (mkStream created "")).
Proof.
  intros Hne. cbn zeta.
  rewrite (sendMessage_cases (Response true reads StillOpen) p Hne).
  rewrite (sendMessage_cases (Response true [] StillOpen) p Hne).
  cbn zeta. cbn [negb]. cbv iota.
  set (settled := remove_child (S (length (chatMessages p))) (sendMessage NoAnswerYet p)).
  assert (Hlen : length (chatMessages settled) = S (length (chatMessages p))).
  { subst settled. rewrite (settled_chatMessages p Hne), length_app, length_fade_first.
    cbn. lia. }
  rewrite Hlen. reflexivity.
Qed.

(** C5 (as the script has it).  In the original script [addMessage] and
    every streaming re-render end with the message area scrolled to its
    bottom, wherever it was before.  In the revised script [addMessage]
    leaves the scroll offset where it was when the area was further than
    the threshold from its bottom before the append (the append not
    making the content shorter), and a streaming re-render is followed by
    the scroll to the bottom exactly when [wasNearBottom] is set.  This
    flag is sampled once by [sendMessage], on the page as it is when the
    empty bot message has just been appended, and the whole stream runs
    with it: a read that brings a text frame re-renders the bot message
    and scrolls, or does not scroll, by the flag of that moment and not
    by where the area is before the re-render. *)
Theorem scroll_policy_by_revision role message delta i w p st :
  delta <> "" ->
  let p' := addMessage role message p in
  let rendered :=
    set_content i (InnerHTML (marked_parse (fullText st +:+ delta))) (page st) in
  let st' := process_data i w (frame (Text delta)) st in
  match revision with
  | Original =>
      scrollTop p' = scrollHeight p' - clientHeight p' /\
      page st' = scroll_to_bottom rendered
  | Revised =>
      (isNearBottom p = false ->
       layout (chatMessages p) <= layout (chatMessages p') ->
       scrollTop p' = scrollTop p) /\
      page st' = (if w then scroll_to_bottom rendered else rendered)
  end /\
  (String_trim (input_value p) <> "" ->
   forall reads line,
     carries line (Text delta) ->
     split_lines line = [line] ->
     let created := sendMessage (Response true [] StillOpen) p in
     let messageDiv := S (length (chatMessages p)) in
     let running :=
       read_loop messageDiv (isNearBottom created) reads (mkStream created "") in
     let rerendered :=
       set_content messageDiv (InnerHTML (marked_parse (fullText running +:+ delta)))
         (page running) in
     sendMessage (Response true reads StillOpen) p = page running /\
     sendMessage (Response true (reads ++ [line]) StillOpen) p
     = match revision with
       | Original => scroll_to_bottom rerendered
       | Revised => if isNearBottom created then scroll_to_bottom rerendered else rerendered
       end).
Proof.
  intros Hd. cbn zeta. split.
  - rewrite (process_data_text _ _ _ _ Hd). cbn zeta.
    pose proof (chatMessages_addMessage role message p) as Hc. revert Hc.
    unfold follows, addMessage. destruct revision; intros Hc.
    + split; reflexivity.
    + split; [|reflexivity].
      intros Hnear Hgrow. rewrite Hnear in *. rewrite Hc in Hgrow.
      unfold isNearBottom, scrollHeight in Hnear. apply Z.leb_gt in Hnear.
      unfold appendChild, set_children, scrollHeight; cbn. lia.
  - intros Hne reads line [Hp Hj] Hline. apply String.eqb_neq in Hne.
    split; [apply (sendMessage_stream reads p Hne)|].
    rewrite (sendMessage_stream (reads ++ [line]) p Hne), read_loop_app.
    set (running := read_loop _ _ reads _).
    change (read_loop ?k ?b [line] running) with (process_lines k b (split_lines line) running).
    rewrite Hline.
    change (process_lines ?k ?b [line] running) with (process_line k b line running).
    rewrite (process_line_data _ _ _ _ _ Hp Hj), (process_data_text _ _ _ _ Hd).
    cbn zeta. cbn [page]. unfold follows. destruct revision; reflexivity.
Qed.

(** The read loop keeps the number of children. *)
Lemma length_process_data i w data st :
  length (chatMessages (page (process_data i w data st))) = length (chatMessages (page st)).
Proof.
  unfold process_data. repeat case_match; cbn [page]; try reflexivity; apply length_insert.
Qed.

Lemma length_process_lines i w lines st :
  length (chatMessages (page (process_lines i w lines st))) = length (chatMessages (page st)).
Proof.
  revert st. induction lines as [|line lines IH]; intros st; [reflexivity|].
  change (process_lines i w (line :: lines) st)
    with (process_lines i w lines (process_line i w line st)).
  rewrite IH. unfold process_line. repeat case_match; try reflexivity.
  apply length_process_data.
Qed.

(** An error frame as the last data line read so far: the bot message,
    the child right after the message of the user, shows it. *)
Lemma sendMessage_error_shown reads lines eline message p :
  String.eqb (String_trim (input_value p)) "" = false ->
  data_lines reads = lines ++ [eline] ->
  carries eline (Error message) ->
  message <> "" ->
  content_at (S (length (chatMessages p))) (sendMessage (Response true reads StillOpen) p)
  = Some (TextContent ("Error: " +:+ message)).
Proof.
  intros Hne Hdl [Hp Hj] Hm.
  rewrite (sendMessage_cases (Response true reads StillOpen) p Hne). cbn zeta.
  cbn [negb]. cbv iota.
  set (settled := remove_child (S (length (chatMessages p))) (sendMessage NoAnswerYet p)).
  assert (Hlen : length (chatMessages settled) = S (length (chatMessages p))).
  { subst settled. rewrite (settled_chatMessages p Hne), length_app, length_fade_first.
    cbn. lia. }
  set (q := match revision with Original => _ | Revised => _ end).
  assert (Hq : length (chatMessages q) = S (S (length (chatMessages p)))).
  { assert (E : chatMessages q = chatMessages settled ++ [MessageDiv "bot" (InnerHTML "")])
      by (subst q; destruct revision; reflexivity).
    rewrite E, length_app, Hlen. cbn. lia. }
  rewrite Hlen, read_loop_data_lines, Hdl, process_lines_app.
  set (s1 := process_lines _ _ lines _).
  change (process_lines ?i ?w [eline] s1) with (process_line i w eline s1).
  rewrite (process_line_data _ _ _ _ _ Hp Hj), (process_data_error _ _ _ _ Hm).
  cbn [page]. apply content_at_set_content.
  subst s1. rewrite length_process_lines. cbn [page]. rewrite Hq. lia.
Qed.

(** The controls, the requests sent and the message area after a send. *)
Lemma sendMessage_controls x p :
  String_trim (input_value p) <> "" ->
  let p' := sendMessage x p in
  let user := MessageDiv "user" (TextContent (String_trim (input_value p))) in
  input_disabled p' = in_flight x /\
  send_disabled p' = in_flight x /\
  posts (effects p') = S (posts (effects p)) /\
  chatMessages p'
  = match x with
    | NoAnswerYet => fade_first (chatMessages p) ++ [user; TypingIndicator]
    | Rejected | Response false _ _ => fade_first (chatMessages p) ++ [user; error_node]
    | Response true reads ReadFailure =>
        chatMessages (sendMessage (Response true reads StillOpen) p) ++ [error_node]
    | Response true reads _ => chatMessages (sendMessage (Response true reads StillOpen) p)
    end.
Proof.
  intros Hne. apply String.eqb_neq in Hne. cbn zeta.
  pose proof (sendMessage_pending_outside p Hne) as Hq.
  assert (Hfail : chatMessages
                    (on_failure (remove_child (S (length (chatMessages p)))
                                   (sendMessage NoAnswerYet p)))
                  = fade_first (chatMessages p)
                    ++ [MessageDiv "user" (TextContent (String_trim (input_value p)));
                        error_node]).
  { rewrite chatMessages_on_failure, (settled_chatMessages p Hne), <- app_assoc.
    reflexivity. }
  assert (Hout : outside (on_failure (remove_child (S (length (chatMessages p)))
                                        (sendMessage NoAnswerYet p)))
                 = ("", true, true, clientHeight p, sessionId p, currentChatToDelete p,
                    S (posts (effects p)))).
  { rewrite outside_on_failure. exact Hq. }
  destruct x as [| |ok reads ending].
  - destruct (outside_fields _ _ _ _ _ _ _ _ Hq) as (H1 & H2 & H3).
    repeat split; try assumption; apply (sendMessage_pending_chatMessages p Hne).
  - rewrite (sendMessage_cases Rejected p Hne). cbn zeta.
    destruct (outside_enable_controls _ _ _ _ _ _ _ _ Hout) as (H1 & H2 & H3).
    repeat split; try assumption; exact Hfail.
  - destruct ok.
    + pose proof (sendMessage_streaming_outside reads p Hne) as Hs. rewrite Hq in Hs.
      rewrite (sendMessage_ok_cases reads ending p Hne). destruct ending.
      * destruct (outside_enable_controls _ _ _ _ _ _ _ _ Hs) as (H1 & H2 & H3).
        repeat split; assumption.
      * rewrite <- outside_on_failure in Hs.
        destruct (outside_enable_controls _ _ _ _ _ _ _ _ Hs) as (H1 & H2 & H3).
        repeat split; try assumption; apply chatMessages_on_failure.
      * destruct (outside_fields _ _ _ _ _ _ _ _ Hs) as (H1 & H2 & H3).
        repeat split; assumption.
    + rewrite (sendMessage_cases (Response false reads ending) p Hne). cbn zeta.
      cbn [negb]. cbv iota.
      destruct (outside_enable_controls _ _ _ _ _ _ _ _ Hout) as (H1 & H2 & H3).
      repeat split; try assumption; exact Hfail.
Qed.

(** C6 (as the script has it).  A send of a message that is not blank:
    while the request is in flight -- no answer yet, or the body of a
    successful response still being read, whatever frames it has
    brought, error frames included -- the input box and the send button
    are disabled; once the request has ended, by the end of the stream,
    by a rejected fetch, by a non-success status or by a failing read,
    both are enabled.  Exactly one chat request is sent in all cases
    (nothing is retried).  A transport failure leaves, after the message
    of the user or after what the stream had put into the message area,
    one bot message with the fixed error text, the typing indicator gone;
    the end of the stream adds nothing.  An error frame of the
    application is no end of the request: when it is the last data line
    read so far and the body is still open, the bot message shows its
    text and the controls are still disabled. *)
Theorem controls_follow_the_request x p :
  String_trim (input_value p) <> "" ->
  let p' := sendMessage x p in
  let user := MessageDiv "user" (TextContent (String_trim (input_value p))) in
  input_disabled p' = in_flight x /\
  send_disabled p' = in_flight x /\
  posts (effects p') = S (posts (effects p)) /\
  chatMessages p'
  = match x with
    | NoAnswerYet => fade_first (chatMessages p) ++ [user; TypingIndicator]
    | Rejected | Response false _ _ => fade_first (chatMessages p) ++ [user; error_node]
    | Response true reads ReadFailure =>
        chatMessages (sendMessage (Response true reads StillOpen) p) ++ [error_node]
    | Response true reads _ => chatMessages (sendMessage (Response true reads StillOpen) p)
    end /\
  (forall reads lines eline message,
      data_lines reads = lines ++ [eline] ->
      carries eline (Error message) ->
      message <> "" ->
      let streaming := sendMessage (Response true reads StillOpen) p in
      content_at (S (length (chatMessages p))) streaming
      = Some (TextContent ("Error: " +:+ message)) /\
      input_disabled streaming = true /\
      send_disabled streaming = true).
Proof.
  intros Hne. cbn zeta.
  destruct (sendMessage_controls x p Hne) as (H1 & H2 & H3 & H4).
  split; [exact H1|]. split; [exact H2|]. split; [exact H3|]. split; [exact H4|].
  intros reads lines eline message Hdl Hc Hm.
  destruct (sendMessage_controls (Response true reads StillOpen) p Hne) as (Hi & Hb & _).
  apply String.eqb_neq in Hne.
  split; [exact (sendMessage_error_shown _ _ _ _ _ Hne Hdl Hc Hm)|].
  split; [exact Hi|exact Hb].
Qed.

(** C8. [addMessage] appends one [div]; for the role [user] -- for every
    role but [bot] -- it shows the message as literal text, for the role
    [bot] it shows the markup that [marked.parse] makes of it.  What the
    user typed enters the message area through [sendMessage] as such a
    literal-text node, and that node is there whatever becomes of the
    request. *)
Theorem addMessage_rendering message p :
  chatMessages (addMessage "user" message p)
  = chatMessages p ++ [MessageDiv "user" (TextContent message)] /\
  chatMessages (addMessage "bot" message p)
  = chatMessages p ++ [MessageDiv "bot" (InnerHTML (marked_parse message))] /\
  (forall role,
      role <> "bot" ->
      chatMessages (addMessage role message p)
      = chatMessages p ++ [MessageDiv role (TextContent message)]) /\
  (forall x,
      String_trim (input_value p) <> "" ->
      MessageDiv "user" (TextContent (String_trim (input_value p)))
      ∈ chatMessages (sendMessage x p)).
Proof.
  split; [apply chatMessages_addMessage|]. split; [apply chatMessages_addMessage|].
  split.
  - intros role Hrole. rewrite chatMessages_addMessage. unfold message_node.
    apply String.eqb_neq in Hrole. rewrite Hrole. reflexivity.
  - intros x Hne. apply user_node_stays. apply String.eqb_neq. exact Hne.
Qed.

(** ** Further properties of the stream consumer *)

Lemma split_lines_not_nil s : split_lines s <> [].
Proof.
  destruct s as [|c s]; cbn; [discriminate|].
  destruct (Ascii.eqb c LF); [discriminate|].
  destruct (split_lines s); discriminate.
Qed.

(** Splitting distributes over a line feed. *)
Lemma split_lines_app_LF a b :
  split_lines (a +:+ String LF b) = split_lines a ++ split_lines b.
Proof.
  induction a as [|c a IH].
  - reflexivity.
  - change (String c a +:+ String LF b) with (String c (a +:+ String LF b)).
    cbn [split_lines]. rewrite IH.
    destruct (Ascii.eqb c LF); [reflexivity|].
    pose proof (split_lines_not_nil a) as Hne.
    destruct (split_lines a) as [|l ls]; [contradiction|reflexivity].
Qed.

(** On decoded text a cut after a line feed changes nothing. *)
Lemma read_cut_after_line_feed i w pre a b post st :
  read_loop i w (pre ++ [a +:+ String LF b] ++ post) st
  = read_loop i w (pre ++ [a +:+ String LF ""; b] ++ post) st.
Proof.
  rewrite !read_loop_app. f_equal.
  change (read_loop i w [a +:+ String LF b] ?s)
    with (process_lines i w (split_lines (a +:+ String LF b)) s).
  change (read_loop i w [a +:+ String LF ""; b] ?s)
    with (process_lines i w (split_lines b)
            (process_lines i w (split_lines (a +:+ String LF "")) s)).
  rewrite !split_lines_app_LF, !process_lines_app.
  reflexivity.
Qed.

(** *** The decoder at a line feed *)

Lemma lead_lower byte : (128 <= TextDecoder.lower (TextDecoder.lead byte).2)%N.
Proof.
  unfold TextDecoder.lead. repeat case_match; cbn; lia.
Qed.

Lemma handler_lower d byte :
  (128 <= TextDecoder.lower (TextDecoder.handler d byte).2)%N.
Proof.
  unfold TextDecoder.handler. destruct (TextDecoder.needed d) as [|[|more]].
  - apply lead_lower.
  - case_match; [cbn; lia|].
    pose proof (lead_lower byte). destruct (TextDecoder.lead byte). exact H0.
  - case_match; [cbn; lia|].
    pose proof (lead_lower byte). destruct (TextDecoder.lead byte). exact H0.
Qed.

(** A line feed closes whatever sequence is open. *)
Lemma handler_LF d :
  (128 <= TextDecoder.lower d)%N ->
  exists out, TextDecoder.handler d LF = (out +:+ String LF "", TextDecoder.fresh).
Proof.
  intros Hd. unfold TextDecoder.handler. destruct (TextDecoder.needed d) as [|more].
  - exists "". reflexivity.
  - assert (E : TextDecoder.between (TextDecoder.lower d) (N_of_ascii LF) (TextDecoder.upper d)
                = false).
    { unfold TextDecoder.between. apply andb_false_iff. left. apply N.leb_gt.
      change (N_of_ascii LF) with 10%N. lia. }
    rewrite E. exists TextDecoder.replacement. reflexivity.
Qed.

Lemma run_cons d c rest :
  TextDecoder.run d (String c rest)
  = (TextDecoder.handler d c).1 +:+ TextDecoder.run (TextDecoder.handler d c).2 rest.
Proof. cbn [TextDecoder.run]. destruct (TextDecoder.handler d c). reflexivity. Qed.

Lemma run_LF_out d a b :
  (128 <= TextDecoder.lower d)%N ->
  exists out,
    TextDecoder.run d (a +:+ String LF b)
    = out +:+ String LF (TextDecoder.run TextDecoder.fresh b) /\
    TextDecoder.run d (a +:+ String LF "") = out +:+ String LF "".
Proof.
  revert d. induction a as [|c a IH]; intros d Hd.
  - destruct (handler_LF d Hd) as [out E]. exists out.
    change ("" +:+ String LF b) with (String LF b).
    change ("" +:+ String LF "") with (String LF "").
    rewrite !run_cons, E. cbn [fst snd]. rewrite !append_assoc. split; reflexivity.
  - change (String c a +:+ String LF b) with (String c (a +:+ String LF b)).
    change (String c a +:+ String LF "") with (String c (a +:+ String LF "")).
    rewrite !run_cons.
    destruct (IH _ (handler_lower d c)) as (out & E1 & E2).
    exists ((TextDecoder.handler d c).1 +:+ out).
    rewrite E1, E2, !append_assoc. split; reflexivity.
Qed.

(** The mark is looked for in the first three bytes only. *)
Lemma strip_LF out r :
  TextDecoder.strip (out +:+ String LF r) = TextDecoder.strip out +:+ String LF r.
Proof.
  destruct out as [|c1 [|c2 [|c3 out]]].
  - destruct r as [|? [|? ?]]; reflexivity.
  - destruct r as [|? ?]; [reflexivity|].
    cbv beta iota delta [String.append TextDecoder.strip].
    destruct (Ascii.eqb c1 "239"); reflexivity.
  - cbv beta iota delta [String.append TextDecoder.strip].
    destruct (Ascii.eqb c1 "239"), (Ascii.eqb c2 "187"); reflexivity.
  - change (String c1 (String c2 (String c3 out)) +:+ String LF r)
      with (String c1 (String c2 (String c3 (out +:+ String LF r)))).
    cbn [TextDecoder.strip]. case_match; reflexivity.
Qed.

Lemma strip_other c r : c <> "239"%char -> TextDecoder.strip (String c r) = String c r.
Proof.
  intros Hc. apply Ascii.eqb_neq in Hc.
  destruct r as [|c2 [|c3 r]]; try reflexivity. cbn. rewrite Hc. reflexivity.
Qed.

Lemma strip_replacement r :
  TextDecoder.strip (TextDecoder.replacement +:+ r) = TextDecoder.replacement +:+ r.
Proof. reflexivity. Qed.

(** An open sequence ends in an error, or in the bytes seen followed by
    as many of the next bytes as it needed. *)
Lemma run_open d y :
  TextDecoder.needed d <> 0%nat ->
  (exists r, TextDecoder.run d y = TextDecoder.replacement +:+ r) \/
  (exists more y' r,
      y = more +:+ y' /\ String.length more = TextDecoder.needed d /\
      TextDecoder.run d y = (TextDecoder.seen d +:+ more) +:+ r).
Proof.
  destruct d as [seen needed lower upper]. cbn [TextDecoder.needed TextDecoder.seen].
  revert seen lower upper y.
  induction needed as [|[|m] IH]; intros seen lower upper y Hn; [contradiction| |].
  - destruct y as [|c y]; [left; exists ""; reflexivity|].
    cbn [TextDecoder.run TextDecoder.handler TextDecoder.needed TextDecoder.lower
           TextDecoder.upper TextDecoder.seen].
    destruct (TextDecoder.between lower (N_of_ascii c) upper).
    + right. exists (String c ""), y, (TextDecoder.run TextDecoder.fresh y).
      repeat split; reflexivity.
    + left. destruct (TextDecoder.lead c) as [o d'].
      exists (o +:+ TextDecoder.run d' y). rewrite append_assoc. reflexivity.
  - destruct y as [|c y]; [left; exists ""; reflexivity|].
    cbn [TextDecoder.run TextDecoder.handler TextDecoder.needed TextDecoder.lower
           TextDecoder.upper TextDecoder.seen].
    destruct (TextDecoder.between lower (N_of_ascii c) upper).
    + destruct (IH (seen +:+ String c "") 128%N 191%N y ltac:(discriminate))
        as [[r E]|(more & y' & r & -> & Hl & E)].
      * left. exists r. exact E.
      * right. exists (String c more), y', r. split; [reflexivity|]. split; [cbn; lia|].
        cbn ["+:+"]. rewrite E, !append_assoc. reflexivity.
    + left. destruct (TextDecoder.lead c) as [o d'].
      exists (o +:+ TextDecoder.run d' y). rewrite append_assoc. reflexivity.
Qed.

(** What comes out begins with the mark only when the bytes do. *)
Lemma decode_without_mark b :
  startsWith b TextDecoder.BOM = false ->
  TextDecoder.decode b = TextDecoder.run TextDecoder.fresh b.
Proof.
  intros Hb. unfold TextDecoder.decode.
  destruct b as [|c1 b]; [reflexivity|].
  cbn [TextDecoder.run TextDecoder.handler TextDecoder.needed TextDecoder.fresh].
  unfold TextDecoder.lead.
  destruct (N_of_ascii c1 <=? 127)%N eqn:E1.
  { apply strip_other. intros ->. discriminate E1. }
  destruct (TextDecoder.between 194 (N_of_ascii c1) 223) eqn:E2.
  { match goal with |- context [TextDecoder.run ?d b] =>
      destruct (run_open d b ltac:(discriminate)) as [[r E]|(more & y' & r & _ & _ & E)];
      rewrite E end.
    - apply strip_replacement.
    - apply strip_other. intros ->. discriminate E2. }
  destruct (TextDecoder.between 224 (N_of_ascii c1) 239) eqn:E3.
  { match goal with |- context [TextDecoder.run ?d b] =>
      destruct (run_open d b ltac:(discriminate)) as [[r E]|(more & y' & r & -> & Hl & E)];
      rewrite E end.
    - apply strip_replacement.
    - cbn [TextDecoder.needed] in Hl.
      destruct more as [|c2 [|c3 [|? ?]]]; try discriminate Hl.
      change (TextDecoder.strip (String c1 (String c2 (String c3 r)))
              = String c1 (String c2 (String c3 r))).
      cbn [TextDecoder.strip].
      destruct (Ascii.eqb_spec c1 "239") as [->|]; [|reflexivity].
      destruct (Ascii.eqb_spec c2 "187") as [->|]; [|reflexivity].
      destruct (Ascii.eqb_spec c3 "191") as [->|]; [|reflexivity].
      destruct y'; vm_compute in Hb; discriminate Hb. }
  destruct (TextDecoder.between 240 (N_of_ascii c1) 244) eqn:E4.
  { match goal with |- context [TextDecoder.run ?d b] =>
      destruct (run_open d b ltac:(discriminate)) as [[r E]|(more & y' & r & _ & _ & E)];
      rewrite E end.
    - apply strip_replacement.
    - apply strip_other. intros ->. discriminate E4. }
  apply strip_replacement.
Qed.

Lemma decode_mark b :
  TextDecoder.decode (TextDecoder.BOM +:+ b) = TextDecoder.run TextDecoder.fresh b.
Proof. reflexivity. Qed.

Lemma decode_LF a b :
  exists t,
    TextDecoder.decode (a +:+ String LF b)
    = t +:+ String LF (TextDecoder.run TextDecoder.fresh b) /\
    TextDecoder.decode (a +:+ String LF "") = t +:+ String LF "".
Proof.
  destruct (run_LF_out TextDecoder.fresh a b ltac:(cbn; lia)) as (out & E1 & E2).
  exists (TextDecoder.strip out). unfold TextDecoder.decode.
  rewrite E1, E2, !strip_LF. split; reflexivity.
Qed.

(** X1. The bytes [a], a line feed and the bytes [b], in one read or in
    two reads of which the first ends after the line feed, whatever is
    read before and after: both give the same result unless [b] begins
    with a byte order mark.  Every read is decoded by itself, and a mark
    at the start of a read is dropped: the two reads [a], line feed and
    mark, [b] give what the one read [a], line feed, [b] without the
    mark gives. *)
Theorem cut_after_line_feed_is_harmless i w pre a b post st :
  (startsWith b TextDecoder.BOM = false ->
   read_loop i w (map TextDecoder.decode (pre ++ [a +:+ String LF b] ++ post)) st
   = read_loop i w (map TextDecoder.decode (pre ++ [a +:+ String LF ""; b] ++ post)) st) /\
  read_loop i w
    (map TextDecoder.decode (pre ++ [a +:+ String LF ""; TextDecoder.BOM +:+ b] ++ post)) st
  = read_loop i w (map TextDecoder.decode (pre ++ [a +:+ String LF b] ++ post)) st.
Proof.
  destruct (decode_LF a b) as (t & E1 & E2).
  rewrite !map_app. cbn [map]. rewrite E1, E2, decode_mark. split.
  - intros Hb. rewrite (decode_without_mark b Hb). apply read_cut_after_line_feed.
  - symmetry. apply read_cut_after_line_feed.
Qed.

(** One frame of the protocol, on the accumulator, the calls and the bot
    message. *)
Lemma event_step i w e st c :
  (i < length (chatMessages (page st)))%nat ->
  content_at i (page st) = Some c ->
  let st' := process_data i w (frame e) st in
  fullText st' = fullText st +:+ joined (deltas [e]) /\
  effects (page st') = effects (page st) ++ calls (fullText st) [e] /\
  length (chatMessages (page st')) = length (chatMessages (page st)) /\
  content_at i (page st') = Some (shown (fullText st) c [e]).
Proof.
  intros Hi Hc. destruct e as [delta| |message]; cbn zeta.
  - destruct (text_frame_step i w delta st Hi) as (Hf & He & Hl & Hs).
    cbn [deltas joined foldr calls shown]. rewrite append_nil_r, app_nil_r.
    repeat split; try assumption.
    rewrite Hs. destruct (String.eqb delta ""); [exact Hc|reflexivity].
  - rewrite process_data_done. cbn [page fullText deltas joined foldr calls shown].
    rewrite append_nil_r. unfold log; cbn. rewrite <- app_assoc.
    repeat split; try reflexivity. exact Hc.
  - cbn [deltas joined foldr calls shown]. rewrite append_nil_r, app_nil_r.
    destruct (String.eqb_spec message "") as [->|Hne].
    + rewrite process_data_error_empty. repeat split; try reflexivity. exact Hc.
    + rewrite (process_data_error _ _ _ _ Hne). cbn [page fullText].
      rewrite length_set_content, (content_at_set_content _ _ _ Hi).
      repeat split; reflexivity.
Qed.

Lemma joined_deltas_cons e events :
  joined (deltas (e :: events)) = joined (deltas [e]) +:+ joined (deltas events).
Proof.
  destruct e; cbn [deltas joined foldr]; fold (joined (deltas events));
    rewrite ?append_nil_r; reflexivity.
Qed.

Lemma calls_cons acc e events :
  calls acc (e :: events) = calls acc [e] ++ calls (acc +:+ joined (deltas [e])) events.
Proof.
  destruct e; cbn [calls deltas joined foldr app]; rewrite ?append_nil_r; reflexivity.
Qed.

Lemma shown_cons acc c e events :
  shown acc c (e :: events) = shown (acc +:+ joined (deltas [e])) (shown acc c [e]) events.
Proof.
  destruct e as [delta| |message]; cbn [shown deltas joined foldr]; rewrite ?append_nil_r;
    try reflexivity.
  - destruct (String.eqb_spec delta "") as [->|_]; [rewrite append_nil_r|]; reflexivity.
  - destruct (String.eqb message ""); reflexivity.
Qed.

Lemma events_run i w lines events st c :
  Forall2 carries lines events ->
  (i < length (chatMessages (page st)))%nat ->
  content_at i (page st) = Some c ->
  let st' := process_lines i w lines st in
  fullText st' = fullText st +:+ joined (deltas events) /\
  effects (page st') = effects (page st) ++ calls (fullText st) events /\
  content_at i (page st') = Some (shown (fullText st) c events).
Proof.
  revert lines st c. induction events as [|e events IH]; intros lines st c HF Hi Hc.
  - apply Forall2_nil_inv_r in HF as ->. cbn zeta. cbn [deltas joined foldr calls shown].
    rewrite append_nil_r, app_nil_r. auto.
  - apply Forall2_cons_inv_r in HF as (line & lines' & [Hp Hj] & HF & ->).
    change (process_lines i w (line :: lines') st)
      with (process_lines i w lines' (process_line i w line st)).
    rewrite (process_line_data _ _ _ _ _ Hp Hj).
    destruct (event_step i w e st c Hi Hc) as (Hf & He & Hl & Hs).
    set (st1 := process_data i w (frame e) st) in *.
    assert (Hi1 : (i < length (chatMessages (page st1)))%nat) by (rewrite Hl; exact Hi).
    destruct (IH lines' st1 _ HF Hi1 Hs) as (Hf' & He' & Hs').
    cbn zeta. rewrite Hf', He', Hs', Hf, He.
    rewrite (joined_deltas_cons e events), (calls_cons _ e events), (shown_cons _ _ e events).
    rewrite append_assoc, <- app_assoc. auto.
Qed.

(** X2. Whatever frames of the protocol the data lines of the reads
    carry, in whatever order: the accumulator ends as what it was followed
    by the deltas of the Text frames in arrival order -- Done and Error
    frames never change it -- and the calls made are, for every Done
    frame, one call of [speak] with the text received up to that frame
    and one reload of the session list, and nothing else. *)
Theorem accumulator_and_calls_of_a_stream i w reads events st c :
  Forall2 carries (data_lines reads) events ->
  (i < length (chatMessages (page st)))%nat ->
  content_at i (page st) = Some c ->
  fullText (read_loop i w reads st) = fullText st +:+ joined (deltas events) /\
  effects (page (read_loop i w reads st)) = effects (page st) ++ calls (fullText st) events.
Proof.
  intros HF Hi Hc. rewrite read_loop_data_lines.
  destruct (events_run i w _ events st c HF Hi Hc) as (Hf & He & _). auto.
Qed.

(** X3. After any sequence of protocol frames the bot message shows what
    the last rendering frame put there: the markdown of the text
    accumulated up to the last Text frame with a non-empty delta, or the
    literal error text of the last Error frame with a non-empty message,
    whichever came later; without such a frame it shows what it showed
    before. *)
Theorem bot_message_shows_last_rendering i w reads events st c :
  Forall2 carries (data_lines reads) events ->
  (i < length (chatMessages (page st)))%nat ->
  content_at i (page st) = Some c ->
  content_at i (page (read_loop i w reads st)) = Some (shown (fullText st) c events).
Proof.
  intros HF Hi Hc. rewrite read_loop_data_lines.
  destruct (events_run i w _ events st c HF Hi Hc) as (_ & _ & Hs). exact Hs.
Qed.

(** X4. The three tests on a frame are an [if / else if] chain: a frame
    with a non-empty string [text] is a Text frame whatever else it
    carries, so a [done] or [error] sent along is not acted on; a frame
    without truthy [text] but with truthy [done] is a Done frame whatever
    [error] it carries. *)
Theorem first_truthy_field_wins i w data st :
  (forall delta, get data "text" = Value (JStr delta) -> delta <> "" ->
                 process_data i w data st = process_data i w (frame (Text delta)) st) /\
  (data <> JNull -> truthy (get data "text") = false -> truthy (get data "done") = true ->
   process_data i w data st = process_data i w (frame Done) st).
Proof.
  split.
  - intros delta Ht Hne. rewrite (process_data_text _ _ _ _ Hne).
    unfold process_data. rewrite Ht. cbn. rewrite (eqb_empty_false _ Hne). reflexivity.
  - intros Hnull Ht Hd. rewrite process_data_done. unfold process_data. rewrite Hd.
    destruct (get data "text") as [| |v] eqn:Et.
    + destruct data; cbn in Et; try discriminate; try congruence.
      destruct (own_property "text" fields); discriminate.
    + reflexivity.
    + rewrite Ht. reflexivity.
Qed.

(** X5. A data line whose payload is valid JSON but not an object: for
    [null] reading its field throws inside the [try], so it is logged
    like a malformed line and changes nothing else; a number, a string, a
    boolean or an array has none of the three fields and is ignored
    without a trace. *)
Theorem payload_that_is_no_object i w line data st :
  startsWith line data_prefix = true ->
  JSON_parse (slice_from 6 line) = Some data ->
  match data with
  | JObj _ => True
  | JNull => process_line i w line st = mkStream (log parse_error (page st)) (fullText st)
  | _ => process_line i w line st = st
  end.
Proof.
  intros Hp Hj. rewrite (process_line_data _ _ _ _ _ Hp Hj).
  destruct data; try exact I; reflexivity.
Qed.

(** X6. The result of the read loop depends on the reads only through
    their data lines, taken in order: blank lines, comment lines and any
    other line that does not begin with the six characters of the prefix
    -- a [data:] line without the blank after the colon among them -- are
    passed over, and reads with the same data lines end in the same
    state. *)
Theorem only_data_lines_matter i w reads1 reads2 st :
  data_lines reads1 = data_lines reads2 ->
  read_loop i w reads1 st = read_loop i w reads2 st.
Proof. intros H. rewrite !read_loop_data_lines, H. reflexivity. Qed.

(** ** Further properties of the session operations *)

(** X7. A delete request that fails -- a non-success status or a fetch
    that rejects -- shows the alert with the fixed text (after a line on
    the console when the fetch rejected), forgets the pending deletion,
    and leaves the active session, the message area, its scroll offset
    and the controls as they were; the session list is not reloaded. *)
Theorem deleteChat_failure confirmed x now random id p :
  currentChatToDelete p = Some id ->
  id <> "" ->
  (revision = Original -> confirmed = true) ->
  x = ClearResponse false \/ x = ClearRejected ->
  let p' := deleteChat confirmed x now random p in
  currentChatToDelete p' = None /\
  sessionId p' = sessionId p /\
  chatMessages p' = chatMessages p /\
  scrollTop p' = scrollTop p /\
  (input_value p', input_disabled p', send_disabled p')
  = (input_value p, input_disabled p, send_disabled p) /\
  effects p'
  = effects p
    ++ match revision with Original => [HideContextMenu] | Revised => [] end
    ++ [PostHistoryClear id]
    ++ match x with ClearRejected => [ConsoleError "Error deleting chat:"] | _ => [] end
    ++ [Alert delete_failed_message].
Proof.
  intros Hc Hid Hconf Hx. cbn zeta. unfold deleteChat. rewrite Hc, (eqb_empty_false _ Hid).
  destruct revision.
  - rewrite (Hconf eq_refl). cbn [negb].
    destruct Hx as [-> | ->]; cbn; repeat split; rewrite <- ?app_assoc; reflexivity.
  - destruct Hx as [-> | ->]; cbn; repeat split; rewrite <- ?app_assoc; reflexivity.
Qed.

(** X8. No delete request is sent without a pending deletion or, in the
    original script, without the confirmation: with nothing pending (or
    the empty id pending) [deleteChat] does nothing at all; with the
    confirmation declined it closes the context menu and forgets the
    pending deletion, and that is all.  Whenever a request was sent and
    has settled, nothing is pending any more. *)
Theorem deleteChat_guards confirmed x now random p :
  (currentChatToDelete p = None \/ currentChatToDelete p = Some "" ->
   deleteChat confirmed x now random p = p) /\
  (forall id, currentChatToDelete p = Some id -> id <> "" ->
              revision = Original -> confirmed = false ->
              deleteChat confirmed x now random p
              = set_currentChatToDelete None (log HideContextMenu p)) /\
  (forall id, currentChatToDelete p = Some id -> id <> "" ->
              x <> ClearUnsettled ->
              currentChatToDelete (deleteChat confirmed x now random p) = None).
Proof.
  unfold deleteChat. split; [|split].
  - intros [H | H]; rewrite H; reflexivity.
  - intros id Hc Hid Hrev ->. rewrite Hc, (eqb_empty_false _ Hid), Hrev. reflexivity.
  - intros id Hc Hid Hx. rewrite Hc, (eqb_empty_false _ Hid).
    destruct revision, confirmed, x as [| |ok]; try contradiction; reflexivity.
Qed.

(** The first [n] entries of a list through [slice(0, n)], for every
    integer [n]: a negative [n] counts from the end. *)
Lemma Array_slice_from_start {A} (n : Z) (l : list A) :
  Array_slice 0 n l
  = take (Z.to_nat (if n <? 0 then Z.max (Z.of_nat (length l) + n) 0
                    else Z.min n (Z.of_nat (length l)))) l.
Proof.
  unfold Array_slice. change (0 <? 0) with false. cbv iota.
  rewrite (Z.min_l 0) by lia. rewrite Z.sub_0_r. change (Z.to_nat 0) with 0%nat.
  rewrite drop_0. reflexivity.
Qed.

Lemma shuffled_prefix (shuffled : list string) (k : nat) :
  shuffled ≡ₚ suggestionPool ->
  NoDup (take k shuffled) /\ (forall s, s ∈ take k shuffled -> s ∈ suggestionPool).
Proof.
  intros Hp. split.
  - apply (sublist_NoDup _ shuffled); [|apply sublist_take].
    rewrite Hp. apply suggestionPool_NoDup.
  - intros s Hs. rewrite <- Hp. exact (subseteq_take _ _ _ Hs).
Qed.

(** X9. [getRandomSuggestions] for an arbitrary integer count: the
    entries are always distinct and from the pool; a count of 15 or more
    gives all fifteen prompts, in the shuffled order; a negative count
    [-k] does not give an empty list but the first [15 - k] shuffled
    prompts (none once [k] reaches 15), as [slice] counts a negative end
    from the end of the array. *)
Theorem getRandomSuggestions_any_count random n :
  (forall cmp l, Array_sort cmp l ≡ₚ l) ->
  length (getRandomSuggestions random n)
  = Z.to_nat (if n <? 0 then Z.max (15 + n) 0 else Z.min n 15) /\
  NoDup (getRandomSuggestions random n) /\
  (forall s, s ∈ getRandomSuggestions random n -> s ∈ suggestionPool) /\
  (15 <= n -> getRandomSuggestions random n ≡ₚ suggestionPool).
Proof.
  intros Hsort. unfold getRandomSuggestions.
  set (shuffled := Array_sort _ suggestionPool).
  assert (Hp : shuffled ≡ₚ suggestionPool) by apply Hsort.
  assert (Hlen : length shuffled = 15%nat) by (rewrite Hp; reflexivity).
  rewrite Array_slice_from_start, Hlen. change (Z.of_nat 15) with 15.
  destruct (shuffled_prefix shuffled
              (Z.to_nat (if n <? 0 then Z.max (15 + n) 0 else Z.min n 15)) Hp) as [Hn Hin].
  repeat split; try assumption.
  - rewrite length_take, Hlen. destruct (Z.ltb_spec n 0); lia.
  - intros Hge. destruct (Z.ltb_spec n 0); [lia|].
    rewrite Z.min_r by lia. change (Z.to_nat 15) with 15%nat.
    rewrite <- Hlen, firstn_all. exact Hp.
Qed.

(** X10. [startNewChat] makes ['session_' + Date.now()] the active
    session and replaces whatever the message area held by the empty
    state alone, with three distinct prompts of the pool as chips; it
    clears the active marks of the list and reloads it, and leaves the
    input controls and a pending deletion alone. *)
Theorem startNewChat_resets_the_view now random p :
  (forall cmp l, Array_sort cmp l ≡ₚ l) ->
  let p' := startNewChat now random p in
  sessionId p' = "session_" +:+ pretty now /\
  (exists chips,
      chatMessages p' = [EmptyState (Some chips) false] /\
      length chips = 3%nat /\ NoDup chips /\
      (forall s, s ∈ chips -> s ∈ suggestionPool)) /\
  effects p' = effects p ++ [ClearActiveItems; LoadChatHistory] /\
  (input_value p', input_disabled p', send_disabled p', currentChatToDelete p')
  = (input_value p, input_disabled p, send_disabled p, currentChatToDelete p).
Proof.
  intros Hsort. cbn zeta. split; [reflexivity|]. split.
  - exists (getRandomSuggestions random 3). split; [reflexivity|].
    unfold getRandomSuggestions.
    set (shuffled := Array_sort _ suggestionPool).
    assert (Hp : shuffled ≡ₚ suggestionPool) by apply Hsort.
    assert (Hlen : length shuffled = 15%nat) by (rewrite Hp; reflexivity).
    rewrite Array_slice_from_start, Hlen. change (Z.to_nat _) with 3%nat.
    destruct (shuffled_prefix shuffled 3 Hp) as [Hn Hin].
    repeat split; try assumption. rewrite length_take, Hlen. reflexivity.
  - split; [|reflexivity]. cbn. rewrite <- app_assoc. reflexivity.
Qed.

(** ** The session list *)

Lemma active_rows_loadChatHistory sessionId sessions chatList :
  active_rows (loadChatHistory sessionId (SessionsResponse sessions) chatList)
  = length (filter (fun id => id = sessionId) (map fst sessions)).
Proof.
  unfold active_rows. cbn [loadChatHistory].
  induction sessions as [|[id title] sessions IH]; [reflexivity|].
  cbn [map fst]. rewrite !filter_cons. cbn [item_active createChatItem fst snd].
  destruct (String.eqb_spec id sessionId) as [->|Hne].
  - rewrite !decide_True by reflexivity. cbn [length]. rewrite IH. reflexivity.
  - rewrite decide_False by discriminate. rewrite decide_False by exact Hne. exact IH.
Qed.

Lemma count_in_NoDup (s : string) (ids : list string) :
  NoDup ids ->
  (length (filter (fun id => id = s) ids) <= 1)%nat /\
  (s ∈ ids -> length (filter (fun id => id = s) ids) = 1%nat).
Proof.
  induction 1 as [|id ids Hnotin Hnd IH].
  - split; [cbn; lia|]. intros Hin. apply elem_of_nil in Hin. contradiction.
  - rewrite filter_cons. destruct (decide (id = s)) as [->|Hne].
    + assert (Hz : filter (fun id => id = s) ids = []).
      { destruct (filter (fun id => id = s) ids) as [|x l] eqn:E; [reflexivity|].
        assert (Hx : x ∈ filter (fun id => id = s) ids)
          by (rewrite E; apply elem_of_cons; left; reflexivity).
        apply list_elem_of_filter in Hx as [-> Hx]. contradiction. }
      rewrite Hz. cbn. split; [lia|reflexivity].
    + split; [apply IH|]. intros Hin. apply elem_of_cons in Hin as [->|Hin]; [contradiction|].
      apply IH. exact Hin.
Qed.

(** X11. [loadChatHistory] with a response: one row per session, in the
    order of the response and with its id; a row is active exactly when
    its id is the active session.  The title string handed to
    [createChatItem] for the row's markup is the title of the session
    when it has one that is not empty, and [Untitled Chat] when the title
    is missing or empty; so no row has an empty title string.  When the
    ids of the response are pairwise distinct at most one row is active,
    and exactly one when the active session is among them.  When the
    request fails the list is emptied. *)
Theorem loadChatHistory_rows sessionId sessions chatList :
  let rows := loadChatHistory sessionId (SessionsResponse sessions) chatList in
  map item_sessionId rows = map fst sessions /\
  (forall row, row ∈ rows -> (item_active row = true <-> item_sessionId row = sessionId)) /\
  (forall k id t, sessions !! k = Some (id, Some t) -> t <> "" ->
                  item_title <$> rows !! k = Some t) /\
  (forall k id, sessions !! k = Some (id, None) \/ sessions !! k = Some (id, Some "") ->
                item_title <$> rows !! k = Some "Untitled Chat") /\
  (forall row, row ∈ rows -> item_title row <> "") /\
  (NoDup (map fst sessions) ->
   (active_rows rows <= 1)%nat /\
   (sessionId ∈ map fst sessions -> active_rows rows = 1%nat)) /\
  loadChatHistory sessionId SessionsFailed chatList = [].
Proof.
  cbn zeta. split; [|split; [|split; [|split; [|split; [|split]]]]].
  - cbn [loadChatHistory]. rewrite map_map. reflexivity.
  - intros row Hrow. cbn [loadChatHistory] in Hrow.
    apply list_elem_of_fmap in Hrow as ([id title] & -> & _).
    cbn. apply String.eqb_eq.
  - intros k id t Hk Ht. cbn [loadChatHistory].
    change (map ?f sessions) with (f <$> sessions). rewrite list_lookup_fmap, Hk.
    cbn. apply String.eqb_neq in Ht. rewrite Ht. reflexivity.
  - intros k id Hk. cbn [loadChatHistory].
    change (map ?f sessions) with (f <$> sessions). rewrite list_lookup_fmap.
    destruct Hk as [Hk|Hk]; rewrite Hk; reflexivity.
  - intros row Hrow. cbn [loadChatHistory] in Hrow.
    apply list_elem_of_fmap in Hrow as ([id title] & -> & _).
    cbn. destruct title as [t|]; cbn; [|discriminate].
    destruct (String.eqb_spec t ""); [discriminate|assumption].
  - intros Hnd. rewrite active_rows_loadChatHistory. apply count_in_NoDup. exact Hnd.
  - reflexivity.
Qed.

(** X12. The marks set by hand agree with a reload: after [loadChat] has
    passed over the rows they are what [loadChatHistory] would render
    with the chosen session active; after [startNewChat] has cleared the
    marks they are what it would render with the new session active, the
    new id not being in the list. *)
Theorem marks_agree_with_reload sessionId chosen sessions chatList :
  select_item chosen (loadChatHistory sessionId (SessionsResponse sessions) chatList)
  = loadChatHistory chosen (SessionsResponse sessions) chatList /\
  (chosen ∉ map fst sessions ->
   clear_active (loadChatHistory sessionId (SessionsResponse sessions) chatList)
   = loadChatHistory chosen (SessionsResponse sessions) chatList).
Proof.
  cbn [loadChatHistory]. unfold select_item, clear_active. rewrite !map_map. split.
  - reflexivity.
  - intros Hnotin. apply map_ext_in. intros [id title] Hin. cbn.
    f_equal. symmetry. apply String.eqb_neq. intros ->.
    apply Hnotin. apply list_elem_of_fmap. exists (chosen, title). split; [reflexivity|].
    apply list_elem_of_In. exact Hin.
Qed.

(** ** Histories *)

Lemma replay_chatMessages history p :
  chatMessages (replay history p)
  = chatMessages p ++ map (fun item => message_node item.1 item.2) history.
Proof.
  revert p. induction history as [|item history IH]; intros p.
  - cbn. rewrite app_nil_r. reflexivity.
  - change (replay (item :: history) p) with (replay history (addMessage item.1 item.2 p)).
    rewrite IH, chatMessages_addMessage, <- app_assoc. reflexivity.
Qed.

Lemma replay_outside history p : outside (replay history p) = outside p.
Proof.
  revert p. induction history as [|item history IH]; intros p; [reflexivity|].
  change (replay (item :: history) p) with (replay history (addMessage item.1 item.2 p)).
  rewrite IH. apply outside_addMessage.
Qed.

Lemma after_replay_chatMessages p : chatMessages (after_replay p) = chatMessages p.
Proof. unfold after_replay. destruct revision; reflexivity. Qed.

Lemma after_replay_outside p : outside (after_replay p) = outside p.
Proof. unfold after_replay. destruct revision; reflexivity. Qed.

Lemma posts_log e p : is_post e = false -> posts (effects (log e p)) = posts (effects p).
Proof.
  intros H. pose proof (outside_log e p H) as Ho. unfold outside in Ho.
  injection Ho as E. exact E.
Qed.

Lemma outside_eq_fields a b :
  outside a = outside b ->
  input_value a = input_value b /\ input_disabled a = input_disabled b /\
  send_disabled a = send_disabled b /\ sessionId a = sessionId b /\
  currentChatToDelete a = currentChatToDelete b /\
  posts (effects a) = posts (effects b).
Proof.
  unfold outside. intros H. injection H as E0 E1 E2 _ E4 E5 E6.
  repeat split; assumption.
Qed.

Lemma loadChat_shows_the_history_aux chatSessionId x p :
  sessionId (loadChat chatSessionId x p) = chatSessionId /\
  input_value (loadChat chatSessionId x p) = input_value p.
Proof.
  unfold loadChat.
  set (q := set_children [] (set_sessionId chatSessionId p)).
  destruct x as [| |[|item history]]; try (split; reflexivity).
  assert (Ho : outside (after_replay (replay (item :: history) q)) = outside q)
    by (rewrite after_replay_outside; apply replay_outside).
  destruct (outside_eq_fields _ _ Ho) as (E0 & _ & _ & E4 & _ & _). split; assumption.
Qed.

(** X13. [loadChat] makes the chosen session the active one at once,
    whatever becomes of the request for its history, and empties the
    message area.  A history with messages fills the area with exactly
    these messages in order -- those of role [bot] as the markup of their
    markdown, all others as literal text --; an empty history puts the
    empty state, without chips, there; a failed request leaves the area
    empty.  The input controls and a pending deletion are not touched,
    and no chat request is sent. *)
Theorem loadChat_shows_the_history chatSessionId x p :
  let p' := loadChat chatSessionId x p in
  sessionId p' = chatSessionId /\
  chatMessages p'
  = match x with
    | HistoryResponse [] => [EmptyState None false]
    | HistoryResponse history => map (fun item => message_node item.1 item.2) history
    | _ => []
    end /\
  (input_value p', input_disabled p', send_disabled p', currentChatToDelete p')
  = (input_value p, input_disabled p, send_disabled p, currentChatToDelete p) /\
  posts (effects p') = posts (effects p).
Proof.
  cbn zeta. unfold loadChat.
  set (q := set_children [] (set_sessionId chatSessionId p)).
  assert (Hq : outside q = (input_value p, input_disabled p, send_disabled p,
                            clientHeight p, chatSessionId, currentChatToDelete p,
                            posts (effects p))) by reflexivity.
  destruct x as [| |[|item history]]; try (repeat split; reflexivity).
  { repeat split; try reflexivity.
    exact (posts_log (ConsoleError "Error loading history:") q eq_refl). }
  set (h := item :: history).
  assert (Ho : outside (after_replay (replay h q)) = outside q)
    by (rewrite after_replay_outside; apply replay_outside).
  destruct (outside_eq_fields _ _ Ho) as (E0 & E1 & E2 & E4 & E5 & E6).
  rewrite after_replay_chatMessages, replay_chatMessages, E0, E1, E2, E4, E5, E6.
  repeat split; reflexivity.
Qed.

(** X14. [loadHistory], run when the page has loaded: a history with
    messages removes the first empty state from the message area and
    appends the messages in order after what else is there; an empty
    history, and a failed request, leave the message area as it is.  The
    active session is never changed. *)
Theorem loadHistory_appends_the_history x p :
  let p' := loadHistory x p in
  sessionId p' = sessionId p /\
  chatMessages p'
  = match x with
    | HistoryResponse (item :: history) =>
        remove_first_empty_state (chatMessages p)
        ++ map (fun item => message_node item.1 item.2) (item :: history)
    | _ => chatMessages p
    end.
Proof.
  cbn zeta. unfold loadHistory.
  destruct x as [| |[|item history]]; try (split; reflexivity).
  set (h := item :: history).
  set (q := set_children _ p).
  assert (Ho : outside (after_replay (replay h q)) = outside p)
    by (rewrite after_replay_outside, replay_outside; reflexivity).
  destruct (outside_eq_fields _ _ Ho) as (_ & _ & _ & E4 & _ & _).
  rewrite after_replay_chatMessages, replay_chatMessages. split; [exact E4|reflexivity].
Qed.

(** ** Which session a message goes to *)

Lemma effects_grow_process_data i w data st :
  exists extra, effects (page (process_data i w data st)) = effects (page st) ++ extra.
Proof.
  unfold process_data. repeat case_match; cbn [page];
    try (exists []; rewrite app_nil_r; reflexivity);
    try (eexists; unfold log; cbn [effects]; rewrite <- ?app_assoc; reflexivity).
Qed.

Lemma effects_grow_process_lines i w lines st :
  exists extra, effects (page (process_lines i w lines st)) = effects (page st) ++ extra.
Proof.
  revert st. induction lines as [|line lines IH]; intros st.
  - exists []. rewrite app_nil_r. reflexivity.
  - change (process_lines i w (line :: lines) st)
      with (process_lines i w lines (process_line i w line st)).
    destruct (IH (process_line i w line st)) as [e2 H2]. rewrite H2.
    assert (H1 : exists e1, effects (page (process_line i w line st))
                            = effects (page st) ++ e1).
    { unfold process_line. repeat case_match.
      - apply effects_grow_process_data.
      - eexists. reflexivity.
      - exists []. rewrite app_nil_r. reflexivity. }
    destruct H1 as [e1 H1]. rewrite H1. exists (e1 ++ e2). rewrite app_assoc. reflexivity.
Qed.

Lemma effects_addMessage role message p :
  effects (addMessage role message p) = effects p.
Proof.
  unfold addMessage, scrollToBottomIfNear. destruct revision; [reflexivity|].
  repeat case_match; reflexivity.
Qed.

Lemma sessionId_addMessage role message p :
  sessionId (addMessage role message p) = sessionId p.
Proof.
  unfold addMessage, scrollToBottomIfNear. destruct revision; [reflexivity|].
  repeat case_match; reflexivity.
Qed.

Lemma sendMessage_pending_effects p :
  String.eqb (String_trim (input_value p)) "" = false ->
  effects (sendMessage NoAnswerYet p)
  = effects p ++ [PostChatStream (String_trim (input_value p)) (sessionId p)].
Proof.
  intros H. unfold sendMessage. rewrite H. cbn [log effects].
  assert (Hs : forall q, sessionId (match revision with
                                    | Original => scroll_to_bottom q
                                    | Revised => scrollToBottomIfNear q
                                    end) = sessionId q
                         /\ effects (match revision with
                                     | Original => scroll_to_bottom q
                                     | Revised => scrollToBottomIfNear q
                                     end) = effects q).
  { intros q. unfold scrollToBottomIfNear. destruct revision; [split; reflexivity|].
    case_match; split; reflexivity. }
  destruct (Hs (appendChild TypingIndicator
                  (set_controls "" true
                     (addMessage "user" (String_trim (input_value p))
                        (set_children (fade_first (chatMessages p)) p))))) as [-> ->].
  cbn [appendChild set_children set_scrollTop set_controls sessionId effects].
  rewrite sessionId_addMessage, effects_addMessage. reflexivity.
Qed.

(** Every send makes its chat request right after the calls made before,
    with the trimmed input and the session that is active. *)
Lemma sendMessage_effects x p :
  String.eqb (String_trim (input_value p)) "" = false ->
  exists rest,
    effects (sendMessage x p)
    = effects p ++ PostChatStream (String_trim (input_value p)) (sessionId p) :: rest.
Proof.
  intros Hne. pose proof (sendMessage_pending_effects p Hne) as Hq.
  set (post := PostChatStream (String_trim (input_value p)) (sessionId p)) in *.
  assert (Hfail : forall a rest, effects a = effects p ++ post :: rest ->
                                 exists rest', effects (enable_controls (on_failure a))
                                               = effects p ++ post :: rest').
  { intros a rest Ha. exists (rest ++ [ConsoleError "Error:"]).
    unfold on_failure. cbn [enable_controls set_controls log effects].
    rewrite effects_addMessage, Ha, <- app_assoc. reflexivity. }
  rewrite (sendMessage_cases x p Hne). cbn zeta.
  destruct x as [| |ok reads ending].
  - exists []. exact Hq.
  - apply (Hfail _ []). exact Hq.
  - destruct ok; cbn [negb]; cbv iota; [|apply (Hfail _ []); exact Hq].
    set (settled := remove_child _ _).
    set (q := match revision with Original => _ | Revised => _ end).
    assert (Hq' : effects q = effects p ++ [post])
      by (subst q settled; destruct revision; exact Hq).
    destruct (effects_grow_process_lines (length (chatMessages settled)) (isNearBottom q)
                (concat (map split_lines reads)) (mkStream q "")) as [extra He].
    rewrite <- read_loop_lines in He. cbn [page] in He. rewrite Hq', <- app_assoc in He.
    destruct ending.
    + exists extra. exact He.
    + apply (Hfail _ extra). exact He.
    + exists extra. exact He.
Qed.

Lemma sendMessage_sessionId x p : sessionId (sendMessage x p) = sessionId p.
Proof.
  destruct (String.eqb (String_trim (input_value p)) "") eqn:Hne.
  - unfold sendMessage. rewrite Hne. reflexivity.
  - pose proof (sendMessage_pending_outside p Hne) as Hq.
    assert (Hs : forall a, outside a = outside (sendMessage NoAnswerYet p) ->
                           sessionId a = sessionId p).
    { intros a Ha. rewrite Hq in Ha. unfold outside in Ha.
      injection Ha as _ _ _ _ E _ _. exact E. }
    assert (Hf : forall a, outside a = outside (sendMessage NoAnswerYet p) ->
                           sessionId (enable_controls (on_failure a)) = sessionId p).
    { intros a Ha. change (sessionId (enable_controls ?b)) with (sessionId b).
      apply Hs. rewrite outside_on_failure. exact Ha. }
    destruct x as [| |ok reads ending].
    + apply Hs. reflexivity.
    + rewrite (sendMessage_cases Rejected p Hne). cbn zeta. apply Hf. reflexivity.
    + destruct ok.
      * pose proof (sendMessage_streaming_outside reads p Hne) as Ho.
        rewrite (sendMessage_ok_cases reads ending p Hne).
        destruct ending; [|apply Hf, Ho|apply Hs, Ho].
        change (sessionId (enable_controls ?b)) with (sessionId b). apply Hs, Ho.
      * rewrite (sendMessage_cases (Response false reads ending) p Hne). cbn zeta.
        cbn [negb]. cbv iota. apply Hf. reflexivity.
Qed.

(** X15. A send never changes the active session, whatever the network
    does; and when the input is not blank its chat request is the first
    call it makes, carrying the trimmed input and the session active at
    that moment.  A blank input sends nothing and leaves the page as it
    is. *)
Theorem send_goes_to_the_active_session x p :
  sessionId (sendMessage x p) = sessionId p /\
  (String_trim (input_value p) = "" -> sendMessage x p = p) /\
  (String_trim (input_value p) <> "" ->
   exists rest,
     effects (sendMessage x p)
     = effects p ++ PostChatStream (String_trim (input_value p)) (sessionId p) :: rest).
Proof.
  split; [apply sendMessage_sessionId|]. split.
  - intros H. unfold sendMessage. rewrite H. reflexivity.
  - intros H. apply sendMessage_effects. apply String.eqb_neq. exact H.
Qed.

(** X16. How the session operations and a send compose: the message sent
    after [loadChat] goes to the chosen session, whatever became of the
    request for its history; the message sent after [startNewChat] goes
    to the new session; and a chip that is clicked sends its own text,
    trimmed, to the active session. *)
Theorem next_send_follows_the_session_operation x chosen history now random text p :
  (String_trim (input_value p) <> "" ->
   (exists rest,
       effects (sendMessage x (loadChat chosen history p))
       = effects (loadChat chosen history p)
         ++ PostChatStream (String_trim (input_value p)) chosen :: rest) /\
   (exists rest,
       effects (sendMessage x (startNewChat now random p))
       = effects (startNewChat now random p)
         ++ PostChatStream (String_trim (input_value p)) (fresh_session now) :: rest)) /\
  (String_trim text <> "" ->
   exists rest,
     effects (sendSuggestion text x p)
     = effects p ++ PostChatStream (String_trim text) (sessionId p) :: rest).
Proof.
  split.
  - intros Hne. apply String.eqb_neq in Hne.
    destruct (loadChat_shows_the_history_aux chosen history p) as (Hs & Hv).
    split.
    + destruct (sendMessage_effects x (loadChat chosen history p)) as [rest Hr].
      { rewrite Hv. exact Hne. }
      exists rest. rewrite Hr, Hs, Hv. reflexivity.
    + destruct (sendMessage_effects x (startNewChat now random p)) as [rest Hr];
        [exact Hne|].
      exists rest. exact Hr.
  - intros Hne. apply String.eqb_neq in Hne. unfold sendSuggestion.
    destruct (sendMessage_effects x
                (mkPage text (input_disabled p) (send_disabled p) (chatMessages p)
                   (scrollTop p) (clientHeight p) (sessionId p) (currentChatToDelete p)
                   (effects p)) Hne) as [rest Hr].
    exists rest. exact Hr.
Qed.

(** ** Preferences and speech *)

Lemma data_theme_load_tts s : data_theme (load_tts s) = data_theme s.
Proof. unfold load_tts. destruct (localStorage s !! "tts-enabled"); reflexivity. Qed.

Lemma string_of_flag_true b : String.eqb (string_of_flag b) "true" = b.
Proof. destruct b; reflexivity. Qed.

(** X17. [toggleTheme] always ends on [dark] or [light] -- [dark] exactly
    when the theme was [light], so an unknown or missing theme becomes
    [light] -- and stores what it sets; the script started again on that
    storage comes up with the same theme.  Toggling twice gives back the
    theme when it was [light] or [dark].  With nothing stored the script
    starts [light]. *)
Theorem theme_survives_reload s html_theme html_toggle supported storage :
  let s' := toggleTheme s in
  (data_theme s' = Some "dark" \/ data_theme s' = Some "light") /\
  (data_theme s' = Some "dark" <-> data_theme s = Some "light") /\
  localStorage s' !! "theme" = data_theme s' /\
  data_theme (startup html_theme html_toggle supported (localStorage s')) = data_theme s' /\
  (data_theme s = Some "light" \/ data_theme s = Some "dark" ->
   data_theme (toggleTheme s') = data_theme s) /\
  (storage !! "theme" = None ->
   data_theme (startup html_theme html_toggle supported storage) = Some "light").
Proof.
  cbn zeta. unfold startup. rewrite !data_theme_load_tts.
  unfold toggleTheme, load_theme; cbn [data_theme localStorage].
  rewrite lookup_insert_eq.
  destruct (data_theme s) as [t|] eqn:Et.
  - destruct (String.eqb_spec t "light") as [->|Hne]; cbn.
    + repeat split; auto; try discriminate.
      intros H. rewrite H. reflexivity.
    + repeat split; auto; try discriminate; try congruence.
      * intros [H|H]; injection H as ->; [contradiction|reflexivity].
      * intros H. rewrite H. reflexivity.
  - cbn. repeat split; auto; try discriminate.
    + intros [H|H]; discriminate.
    + intros H. rewrite H. reflexivity.
Qed.

(** X18. [toggleTTS] flips the flag, brings the button in line (marked
    disabled exactly when speech is now off) and stores the new flag as
    [true] or [false]; the script started again on that storage comes up
    with the same flag and the same button.  Switching speech off
    silences what is being spoken; switching it on leaves the queue
    alone.  With nothing stored the script starts with speech on. *)
Theorem tts_flag_survives_reload s html_theme html_toggle supported storage :
  let s' := toggleTTS s in
  isTTSEnabled s' = negb (isTTSEnabled s) /\
  tts_toggle_disabled s' = isTTSEnabled s /\
  localStorage s' !! "tts-enabled" = Some (string_of_flag (isTTSEnabled s')) /\
  isTTSEnabled (startup html_theme html_toggle supported (localStorage s')) = isTTSEnabled s' /\
  tts_toggle_disabled (startup html_theme html_toggle supported (localStorage s'))
  = tts_toggle_disabled s' /\
  speechSynthesis s'
  = (if isTTSEnabled s then option_map (fun _ => []) (speechSynthesis s)
     else speechSynthesis s) /\
  (storage !! "tts-enabled" = None ->
   isTTSEnabled (startup html_theme html_toggle supported storage) = true).
Proof.
  cbn zeta.
  set (t := mkSettings (data_theme s)
              (<["tts-enabled" := string_of_flag (negb (isTTSEnabled s))]> (localStorage s))
              (negb (isTTSEnabled s)) (negb (negb (isTTSEnabled s))) (speechSynthesis s)).
  assert (Ht : toggleTTS s = if isTTSEnabled s
                             then match speechSynthesis s with
                                  | Some _ => cancel t
                                  | None => t
                                  end
                             else t).
  { unfold toggleTTS, updateTTSButton; cbn [speechSynthesis isTTSEnabled]. subst t.
    destruct (speechSynthesis s), (isTTSEnabled s); reflexivity. }
  assert (Hflag : isTTSEnabled (toggleTTS s) = negb (isTTSEnabled s))
    by (rewrite Ht; destruct (isTTSEnabled s), (speechSynthesis s); reflexivity).
  assert (Hbutton : tts_toggle_disabled (toggleTTS s) = isTTSEnabled s)
    by (rewrite Ht; destruct (isTTSEnabled s), (speechSynthesis s); reflexivity).
  assert (Hstore : localStorage (toggleTTS s)
                   = <["tts-enabled" := string_of_flag (negb (isTTSEnabled s))]>
                       (localStorage s))
    by (rewrite Ht; destruct (isTTSEnabled s), (speechSynthesis s); reflexivity).
  assert (Hup : forall m, m !! "tts-enabled" = Some (string_of_flag (negb (isTTSEnabled s))) ->
                  isTTSEnabled (startup html_theme html_toggle supported m)
                  = negb (isTTSEnabled s) /\
                  tts_toggle_disabled (startup html_theme html_toggle supported m)
                  = isTTSEnabled s).
  { intros m Hm. unfold startup, load_tts. cbn [load_theme localStorage]. rewrite Hm.
    cbn. rewrite string_of_flag_true, negb_involutive. auto. }
  rewrite Hflag, Hbutton, Hstore, lookup_insert_eq.
  destruct (Hup _ (lookup_insert_eq (localStorage s) "tts-enabled"
                     (string_of_flag (negb (isTTSEnabled s))))) as [H1 H2].
  repeat split; try assumption; try reflexivity.
  - rewrite Ht. destruct (isTTSEnabled s), (speechSynthesis s); reflexivity.
  - intros Hnone. unfold startup, load_tts. cbn [load_theme localStorage].
    rewrite Hnone. reflexivity.
Qed.

Lemma calm_step s op : calm s -> calm (speech_step s op).
Proof.
  clear marked_parse JSON_parse Number_toString String_trim layout Array_sort.
  destruct s as [theme storage enabled button [queue|]], op as [voices text| |];
    destruct enabled; unfold calm; cbn; intuition (try discriminate; try lia; auto).
Qed.

(** X19. At most one utterance is queued, and none while speech is off:
    this holds when the script has started and is kept by every sequence
    of [speak], [toggleTTS] and [toggleTheme].  A [speak] with speech on
    cancels what was queued and leaves exactly the new utterance; with
    speech off, or on a platform without the API, it does nothing. *)
Theorem at_most_one_utterance ops voices text s html_theme html_toggle supported storage :
  calm (startup html_theme html_toggle supported storage) /\
  (calm s -> calm (foldl speech_step s ops)) /\
  (isTTSEnabled s = true -> speechSynthesis s <> None ->
   speechSynthesis (speak voices text s) = Some [utterance voices text]) /\
  (isTTSEnabled s = false \/ speechSynthesis s = None -> speak voices text s = s).
Proof.
  split; [|split; [|split]].
  - unfold startup, load_tts, calm. cbn [load_theme localStorage].
    destruct (storage !! "tts-enabled"); destruct supported; cbn; auto.
  - revert s. induction ops as [|op ops IH]; intros s Hs; [exact Hs|].
    cbn [foldl]. apply IH, calm_step, Hs.
  - intros He Hq. unfold speak. destruct (speechSynthesis s) as [queue|] eqn:Eq;
      [|contradiction].
    rewrite He. cbn. rewrite Eq. reflexivity.
  - intros [He|Hq]; unfold speak.
    + rewrite He. destruct (speechSynthesis s); reflexivity.
    + rewrite Hq. reflexivity.
Qed.

(** X20. The voice of the revised script: without voices none is set and
    the platform decides; otherwise the choice is one of the voices
    offered.  When a voice of language [ja-JP] is offered the choice has
    that language, and when one of them has [female] in its lower-cased
    name the choice is such a voice. *)
Theorem selectVoice_prefers_japanese voices :
  (voices = [] -> selectVoice voices = None) /\
  (voices <> [] -> exists v, selectVoice voices = Some v /\ v ∈ voices) /\
  ((exists v, v ∈ voices /\ voice_lang v = "ja-JP") ->
   exists v, selectVoice voices = Some v /\ v ∈ voices /\ voice_lang v = "ja-JP") /\
  ((exists v, v ∈ voices /\ voice_lang v = "ja-JP" /\ named "female" v = true) ->
   exists v, selectVoice voices = Some v /\ v ∈ voices /\ voice_lang v = "ja-JP"
             /\ named "female" v = true).
Proof.
  unfold selectVoice.
  set (f1 := fun v => String.eqb (voice_lang v) "ja-JP" && named "female" v).
  set (f2 := fun v => String.eqb (voice_lang v) "ja-JP").
  set (f3 := fun v => named "female" v || named "girl" v).
  set (f4 := fun v => startsWith (voice_lang v) "en" || startsWith (voice_lang v) "zh"
                      || startsWith (voice_lang v) "ko").
  assert (Hsome : forall f v, find f voices = Some v -> v ∈ voices /\ f v = true).
  { intros f v H. apply find_some in H as [Hin Hf]. split; [|exact Hf].
    apply list_elem_of_In. exact Hin. }
  assert (Hnone : forall f v, find f voices = None -> v ∈ voices -> f v = false).
  { intros f v H Hin. apply (find_none f voices H). apply list_elem_of_In. exact Hin. }
  split; [|split; [|split]].
  - intros ->. reflexivity.
  - intros Hne.
    destruct (find f1 voices) as [v|] eqn:E1; [exists v; split; [reflexivity|apply (Hsome _ _ E1)]|].
    destruct (find f2 voices) as [v|] eqn:E2; [exists v; split; [reflexivity|apply (Hsome _ _ E2)]|].
    destruct (find f3 voices) as [v|] eqn:E3; [exists v; split; [reflexivity|apply (Hsome _ _ E3)]|].
    destruct (find f4 voices) as [v|] eqn:E4; [exists v; split; [reflexivity|apply (Hsome _ _ E4)]|].
    destruct voices as [|v rest]; [contradiction|].
    exists v. split; [reflexivity|]. apply elem_of_cons. left. reflexivity.
  - intros (u & Hu & Hlang).
    destruct (find f1 voices) as [v|] eqn:E1.
    + exists v. destruct (Hsome _ _ E1) as [Hin Hf]. unfold f1 in Hf.
      apply andb_true_iff in Hf as [Hf _]. apply String.eqb_eq in Hf. auto.
    + destruct (find f2 voices) as [v|] eqn:E2.
      * exists v. destruct (Hsome _ _ E2) as [Hin Hf]. apply String.eqb_eq in Hf. auto.
      * pose proof (Hnone _ _ E2 Hu) as Hf. unfold f2 in Hf. rewrite Hlang in Hf. discriminate.
  - intros (u & Hu & Hlang & Hname).
    destruct (find f1 voices) as [v|] eqn:E1.
    + exists v. destruct (Hsome _ _ E1) as [Hin Hf]. unfold f1 in Hf.
      apply andb_true_iff in Hf as [Hl Hn]. apply String.eqb_eq in Hl. auto.
    + pose proof (Hnone _ _ E1 Hu) as Hf. unfold f1 in Hf. rewrite Hlang, Hname in Hf.
      discriminate.
Qed.

(** ** Suggestion chips *)

Lemma read_quoted_escaped text rest :
  plain text = true ->
  read_quoted (escape_apostrophes text +:+ String "'" rest) = Some (text, rest).
Proof.
  induction text as [|c text IH]; intros Hp; [reflexivity|].
  cbn [plain] in Hp. apply andb_true_iff in Hp as [Hc Hp]. specialize (IH Hp).
  apply negb_true_iff in Hc.
  apply orb_false_iff in Hc as [Hc H13]. apply orb_false_iff in Hc as [Hb Hlf].
  cbn [escape_apostrophes]. destruct (Ascii.eqb_spec c "'") as [->|Hq].
  - change (read_quoted (String "\" (String "'" (escape_apostrophes text +:+ String "'" rest)))
            = Some (String "'" text, rest)).
    cbn [read_quoted]. cbn. rewrite IH. reflexivity.
  - change (read_quoted (String c (escape_apostrophes text +:+ String "'" rest))
            = Some (String c text, rest)).
    apply Ascii.eqb_neq in Hq.
    destruct c as [[] [] [] [] [] [] [] []]; try discriminate;
      cbn [read_quoted]; cbn; rewrite IH; reflexivity.
Qed.

Lemma joined_app l1 l2 : joined (l1 ++ l2) = joined l1 +:+ joined l2.
Proof.
  induction l1 as [|x l1 IH]; [reflexivity|].
  cbn [app]. unfold joined in *. cbn [foldr]. rewrite IH, append_assoc. reflexivity.
Qed.

(** X21. The markup of the chips holds, for every suggestion, a chip
    whose handler is the call of [sendSuggestion] on the text with a
    backslash in front of every apostrophe, between apostrophes.  Read as
    a string literal this argument denotes the text itself, for every
    text without backslash and line break, as all prompts of the pool
    are.  A backslash in the text is not escaped: a text that is one
    backslash swallows the closing apostrophe and is not read back. *)
Theorem chip_argument_denotes_the_text suggestions k text rest :
  (suggestions !! k = Some text -> plain text = true ->
   exists before after,
     generateSuggestionChipsHTML suggestions
     = before +:+ chip_open +:+ escape_apostrophes text +:+ String "'" after /\
     read_quoted (escape_apostrophes text +:+ String "'" after) = Some (text, after)) /\
  Forall (fun prompt => plain prompt = true) suggestionPool /\
  read_quoted (escape_apostrophes "\" +:+ String "'" rest) <> Some ("\", rest).
Proof.
  split; [|split].
  - intros Hk Hp. unfold generateSuggestionChipsHTML.
    assert (E : exists l1 l2, suggestions = l1 ++ text :: l2)
      by (exists (take k suggestions), (drop (S k) suggestions);
          symmetry; apply take_drop_middle, Hk).
    destruct E as (l1 & l2 & ->).
    rewrite imap_app, joined_app. cbn [imap]. unfold joined at 2. cbn [foldr].
    match goal with |- context [foldr append "" ?l] => fold (joined l) end.
    unfold chip. rewrite !append_assoc.
    eexists _, _. split; [reflexivity|]. apply read_quoted_escaped, Hp.
  - repeat constructor.
  - change (escape_apostrophes "\" +:+ String "'" rest) with (String "\" (String "'" rest)).
    cbn [read_quoted]. cbn [Ascii.eqb Bool.eqb orb].
    destruct (read_quoted rest) as [[t r]|]; cbn [option_map]; intros H; discriminate H.
Qed.

End Script.

(** ** The script on samples *)

(** The insertion sort rearranges its input, whatever the comparator
    answers. *)
Lemma insert_by_permutes cmp calls x sorted :
  (Sample.insert_by cmp calls x sorted).1 ≡ₚ x :: sorted.
Proof.
  revert calls. induction sorted as [|y ys IH]; intros calls; [reflexivity|].
  cbn [Sample.insert_by]. destruct (Qle_bool (cmp calls x y) 0); [reflexivity|].
  specialize (IH (S calls)). destruct (Sample.insert_by cmp (S calls) x ys) as [r calls'].
  cbn [fst] in *. rewrite IH. apply Permutation_swap.
Qed.

Lemma sort_from_permutes cmp calls l :
  (Sample.sort_from cmp calls l).1 ≡ₚ l.
Proof.
  induction l as [|x xs IH]; [reflexivity|].
  cbn [Sample.sort_from]. destruct (Sample.sort_from cmp calls xs) as [sorted calls'].
  cbn [fst] in IH. rewrite insert_by_permutes, IH. reflexivity.
Qed.

Lemma sample_sort_permutes cmp l : Sample.sort cmp l ≡ₚ l.
Proof. apply sort_from_permutes. Qed.

(** A reply in three frames: [Hi], [ there] and
    [done], each followed by a blank line, in two reads. *)
Lemma text_then_done_witness :
  let st :=
    read_loop Sample.marked_parse Json.parse Json.Number_toString Sample.layout
      Revised 3 true
      [q "data: {'text':'Hi'}" +:+ String LF (String LF "");
       q "data: {'text':' there'}" +:+ String LF (String LF "")
         +:+ q "data: {'done':true}" +:+ String LF (String LF "")]
      (mkStream (page Sample.stream0) "") in
  content_at 3 (page st)
  = Some (InnerHTML (Sample.marked_parse (joined ["Hi"; " there"]))) /\
  fullText st = joined ["Hi"; " there"] /\
  effects (page st)
  = effects (page Sample.stream0) ++ [Speak (joined ["Hi"; " there"]); LoadChatHistory].
Proof.
  refine (text_then_done_renders_concatenation Sample.marked_parse Json.parse
            Json.Number_toString Sample.layout Revised 3 true _ ["Hi"; " there"]
            (page Sample.stream0) eq_refl eq_refl _).
  replace (data_lines _)
    with [q "data: {'text':'Hi'}"; q "data: {'text':' there'}"; q "data: {'done':true}"]
    by (vm_compute; reflexivity).
  repeat constructor; vm_compute; reflexivity.
Defined.

(** The same run, evaluated. *)
Example text_then_done_evaluated :
  read_loop Sample.marked_parse Json.parse Json.Number_toString Sample.layout
    Revised 3 true
    [q "data: {'text':'Hi'}" +:+ String LF (String LF "");
     q "data: {'text':' there'}" +:+ String LF (String LF "")
       +:+ q "data: {'done':true}" +:+ String LF (String LF "")]
    Sample.stream0
  = mkStream
      (mkPage "" true true
         [MessageDiv "user" (TextContent "Hi"); MessageDiv "bot" (InnerHTML "<p>Hello!</p>");
          MessageDiv "user" (TextContent "Hello");
          MessageDiv "bot" (InnerHTML ("<p>Hi there</p>" +:+ String LF ""))]
         100 60 "session_1700000000000" None
         [PostChatStream "Hello" "session_1700000000000"; Speak "Hi there"; LoadChatHistory])
      "Hi there".
Proof. vm_compute. reflexivity. Qed.

(** An error frame, then a text frame, in one stream: the text frame is
    consumed, the accumulator grows and the error display is replaced. *)
Lemma error_frame_terminal_counterexample :
  content_at 3
    (page (read_loop Sample.marked_parse Json.parse Json.Number_toString Sample.layout
             Revised 3 true
             [q "data: {'error':'boom'}" +:+ String LF ""] Sample.stream0))
  = Some (TextContent "Error: boom") /\
  fullText
    (read_loop Sample.marked_parse Json.parse Json.Number_toString Sample.layout
       Revised 3 true
       [q "data: {'error':'boom'}" +:+ String LF ""; q "data: {'text':'late'}" +:+ String LF ""]
       Sample.stream0)
  <> fullText
       (read_loop Sample.marked_parse Json.parse Json.Number_toString Sample.layout
          Revised 3 true
          [q "data: {'error':'boom'}" +:+ String LF ""] Sample.stream0) /\
  content_at 3
    (page (read_loop Sample.marked_parse Json.parse Json.Number_toString Sample.layout
             Revised 3 true
             [q "data: {'error':'boom'}" +:+ String LF ""; q "data: {'text':'late'}" +:+ String LF ""]
             Sample.stream0))
  <> Some (TextContent "Error: boom").
Proof. vm_compute. repeat split; discriminate. Qed.

Lemma error_frame_then_text_witness :
  fullText
    (process_line Sample.marked_parse Json.parse Json.Number_toString Sample.layout
       Revised 3 true (q "data: {'text':'late'}")
       (process_line Sample.marked_parse Json.parse Json.Number_toString Sample.layout
          Revised 3 true (q "data: {'error':'boom'}") Sample.stream0))
  = "late".
Proof.
  apply (error_frame_then_text_still_rendered Sample.marked_parse Json.parse
           Json.Number_toString Sample.layout Revised 3 true
           (q "data: {'error':'boom'}") (q "data: {'text':'late'}") "boom" "late"
           Sample.stream0).
  - split; vm_compute; reflexivity.
  - split; vm_compute; reflexivity.
  - discriminate.
  - discriminate.
  - vm_compute. lia.
Defined.

(** A frame cut just before its line feed, and a frame with a trailing
    blank cut before the blank: the frame is in two reads, and it is
    processed all the same. *)
Lemma split_frame_lost_counterexample :
  fullText
    (read_loop Sample.marked_parse Json.parse Json.Number_toString Sample.layout
       Revised 3 true [q "data: {'text':'Hi'}"; String LF ""] Sample.stream0)
  = "Hi" /\
  content_at 3
    (page (read_loop Sample.marked_parse Json.parse Json.Number_toString Sample.layout
             Revised 3 true [q "data: {'text':'Hi'}"; String LF ""] Sample.stream0))
  = Some (InnerHTML (Sample.marked_parse "Hi")) /\
  fullText
    (read_loop Sample.marked_parse Json.parse Json.Number_toString Sample.layout
       Revised 3 true [q "data: {'text':'Hi'}"; " " +:+ String LF ""] Sample.stream0)
  = "Hi" /\
  quiet_stream
    (read_loop Sample.marked_parse Json.parse Json.Number_toString Sample.layout
       Revised 3 true [q "data: {'text':'Hi'}"; String LF ""] Sample.stream0)
  <> quiet_stream
       (read_loop Sample.marked_parse Json.parse Json.Number_toString Sample.layout
          Revised 3 true [] Sample.stream0).
Proof. vm_compute. repeat split; discriminate. Qed.

(** The frame with the text [Hi]: cut inside the name of its field it is
    lost; cut before the blank that ends its payload, and cut just
    before its line feed, it is processed as if it had not been cut. *)
Lemma split_frame_lost_witness :
  quiet_stream
    (read_loop Sample.marked_parse Json.parse Json.Number_toString Sample.layout
       Revised 3 true
       [q "data: {'text':'a'}" +:+ String LF "" +:+ q "data: {'te";
        q "xt':'Hi'}" +:+ String LF "" +:+ q "data: {'done':true}" +:+ String LF ""]
       Sample.stream0)
  = quiet_stream
      (process_lines Sample.marked_parse Json.parse Json.Number_toString Sample.layout
         Revised 3 true
         ([q "data: {'text':'a'}"] ++ [q "data: {'done':true}"; ""]) Sample.stream0) /\
  read_loop Sample.marked_parse Json.parse Json.Number_toString Sample.layout
    Revised 3 true
    [q "data: {'text':'a'}" +:+ String LF "" +:+ q "data: {'text':'Hi'}";
     " " +:+ String LF "" +:+ q "data: {'done':true}" +:+ String LF ""]
    Sample.stream0
  = process_lines Sample.marked_parse Json.parse Json.Number_toString Sample.layout
      Revised 3 true
      ([q "data: {'text':'a'}"] ++ [data_prefix +:+ q "{'text':'Hi'} "]
       ++ [q "data: {'done':true}"; ""])
      Sample.stream0 /\
  read_loop Sample.marked_parse Json.parse Json.Number_toString Sample.layout
    Revised 3 true
    [q "data: {'text':'a'}" +:+ String LF "" +:+ q "data: {'text':'Hi'}";
     String LF "" +:+ q "data: {'done':true}" +:+ String LF ""]
    Sample.stream0
  = process_lines Sample.marked_parse Json.parse Json.Number_toString Sample.layout
      Revised 3 true
      ([q "data: {'text':'a'}"] ++ [data_prefix +:+ q "{'text':'Hi'}"]
       ++ [q "data: {'done':true}"; ""])
      Sample.stream0.
Proof.
  split; [|split].
  - apply (proj1 (proj2 (proj2 (proj2
             (split_frame_lost Sample.marked_parse Json.parse Json.Number_toString
                Sample.layout Revised 3 true
                (q "data: {'text':'a'}" +:+ String LF "" +:+ q "data: {'te")
                (q "xt':'Hi'}" +:+ String LF "" +:+ q "data: {'done':true}" +:+ String LF "")
                [q "data: {'text':'a'}"] [q "data: {'done':true}"; ""]
                (q "{'text':'Hi'}") 10%nat Sample.stream0
                ltac:(vm_compute; lia) eq_refl eq_refl))))).
    intros _. split; vm_compute; reflexivity.
  - apply (proj1 (proj2 (proj2 (proj2 (proj2
             (split_frame_lost Sample.marked_parse Json.parse Json.Number_toString
                Sample.layout Revised 3 true
                (q "data: {'text':'a'}" +:+ String LF "" +:+ q "data: {'text':'Hi'}")
                (" " +:+ String LF "" +:+ q "data: {'done':true}" +:+ String LF "")
                [q "data: {'text':'a'}"] [q "data: {'done':true}"; ""]
                (q "{'text':'Hi'} ") 19%nat Sample.stream0
                ltac:(vm_compute; lia) eq_refl eq_refl)))))
             ltac:(lia) eq_refl (JObj [("text", JStr "Hi")])).
    + vm_compute. reflexivity.
    + vm_compute. reflexivity.
  - apply (proj2 (proj2 (proj2 (proj2 (proj2
             (split_frame_lost Sample.marked_parse Json.parse Json.Number_toString
                Sample.layout Revised 3 true
                (q "data: {'text':'a'}" +:+ String LF "" +:+ q "data: {'text':'Hi'}")
                (String LF "" +:+ q "data: {'done':true}" +:+ String LF "")
                [q "data: {'text':'a'}"] [q "data: {'done':true}"; ""]
                (q "{'text':'Hi'}") 19%nat Sample.stream0
                ltac:(vm_compute; lia) eq_refl eq_refl)))))).
    reflexivity.
Defined.

(** Deleting the active session in the revised script, at two readings
    of the clock. *)
Lemma deleteChat_success_witness :
  let p := mkPage "" false false [MessageDiv "user" (TextContent "Hi")] 0 60
             "session_1" (Some "session_1") [] in
  (sessionId
     (deleteChat Sample.layout Sample.sort Revised false (ClearResponse true)
        1700000012345 Sample.random p)
   = "session_1700000012345" /\
   chatMessages
     (deleteChat Sample.layout Sample.sort Revised false (ClearResponse true)
        1700000012345 Sample.random p)
   = [EmptyState (Some (getRandomSuggestions Sample.sort Sample.random 3)) false]) /\
  (sessionId
     (deleteChat Sample.layout Sample.sort Revised false (ClearResponse true)
        1762041600000 Sample.random p)
   = "session_1762041600000" /\
   chatMessages
     (deleteChat Sample.layout Sample.sort Revised false (ClearResponse true)
        1762041600000 Sample.random p)
   = [EmptyState (Some (getRandomSuggestions Sample.sort Sample.random 3)) false]).
Proof.
  intros p. split.
  - apply (deleteChat_success Sample.layout Sample.sort Revised false 1700000012345
             Sample.random "session_1" p).
    + reflexivity.
    + discriminate.
    + discriminate.
    + reflexivity.
  - apply (deleteChat_success Sample.layout Sample.sort Revised false 1762041600000
             Sample.random "session_1" p).
    + reflexivity.
    + discriminate.
    + discriminate.
    + reflexivity.
Defined.

(** Revised script: the area is at its bottom, a message 40px high is
    appended, and the offset stays where it was, 40px short of the new
    bottom.  Original script: the user has scrolled back to the top, a
    message is appended, and the offset is moved to the bottom. *)
Lemma auto_scroll_counterexample :
  isNearBottom Sample.layout Sample.page0 = true /\
  scrollTop (addMessage Sample.marked_parse Sample.layout Revised "bot" "x" Sample.page0)
  = scrollTop Sample.page0 /\
  scrollTop (addMessage Sample.marked_parse Sample.layout Revised "bot" "x" Sample.page0)
  <> scrollHeight Sample.layout
       (addMessage Sample.marked_parse Sample.layout Revised "bot" "x" Sample.page0)
     - clientHeight
         (addMessage Sample.marked_parse Sample.layout Revised "bot" "x" Sample.page0) /\
  isNearBottom Sample.layout Sample.page_scrolled_back = false /\
  scrollTop
    (addMessage Sample.marked_parse Sample.layout Original "bot" "x" Sample.page_scrolled_back)
  <> scrollTop Sample.page_scrolled_back.
Proof. vm_compute. repeat split; discriminate. Qed.

Lemma scroll_policy_witness :
  let created := sendMessage Sample.marked_parse Json.parse Json.Number_toString
                   Sample.trim Sample.layout Revised (Response true [] StillOpen)
                   Sample.page_scrolled_back in
  let running := read_loop Sample.marked_parse Json.parse Json.Number_toString
                   Sample.layout Revised 3 (isNearBottom Sample.layout created)
                   [q "data: {'text':'Hi'}" +:+ String LF ""] (mkStream created "") in
  let rerendered :=
    set_content Sample.layout 3
      (InnerHTML (Sample.marked_parse (fullText running +:+ " there"))) (page running) in
  scrollTop
    (addMessage Sample.marked_parse Sample.layout Revised "bot" "x" Sample.page_scrolled_back)
  = scrollTop Sample.page_scrolled_back /\
  sendMessage Sample.marked_parse Json.parse Json.Number_toString Sample.trim
    Sample.layout Revised
    (Response true ([q "data: {'text':'Hi'}" +:+ String LF ""]
                    ++ [q "data: {'text':' there'}"]) StillOpen)
    Sample.page_scrolled_back
  = (if isNearBottom Sample.layout created then scroll_to_bottom Sample.layout rerendered
     else rerendered).
Proof.
  intros created running rerendered.
  pose proof (scroll_policy_by_revision Sample.marked_parse Json.parse Json.Number_toString
                Sample.trim Sample.layout Revised "bot" "x" " there" 3 true
                Sample.page_scrolled_back Sample.stream0 ltac:(discriminate)) as W.
  cbv zeta in W. destruct W as [[Hadd _] Hsend]. split.
  - apply Hadd.
    + reflexivity.
    + vm_compute. discriminate.
  - apply (Hsend ltac:(vm_compute; discriminate)
             [q "data: {'text':'Hi'}" +:+ String LF ""] (q "data: {'text':' there'}")).
    + split; vm_compute; reflexivity.
    + reflexivity.
Defined.

(** A send whose body breaks after one frame, and a send whose body has
    brought a text frame and an error frame and is still open. *)
Lemma controls_follow_the_request_witness :
  let broken := Response true [q "data: {'text':'Hi'}" +:+ String LF ""] ReadFailure in
  let p' := sendMessage Sample.marked_parse Json.parse Json.Number_toString Sample.trim
              Sample.layout Revised broken Sample.page0 in
  let reads := [q "data: {'text':'Hi'}" +:+ String LF (String LF "")
                  +:+ q "data: {'error':'boom'}" +:+ String LF (String LF "")] in
  let streaming := sendMessage Sample.marked_parse Json.parse Json.Number_toString
                     Sample.trim Sample.layout Revised (Response true reads StillOpen)
                     Sample.page0 in
  (input_disabled p' = false /\
   send_disabled p' = false /\
   posts (effects p') = 1%nat) /\
  (content_at 3 streaming = Some (TextContent "Error: boom") /\
   input_disabled streaming = true /\
   send_disabled streaming = true).
Proof.
  intros broken p' reads streaming.
  pose proof (controls_follow_the_request Sample.marked_parse Json.parse
                Json.Number_toString Sample.trim Sample.layout Revised broken Sample.page0)
    as W.
  cbv zeta in W.
  destruct W as (H1 & H2 & H3 & _ & Herr); [vm_compute; discriminate|].
  split; [split; [exact H1|split; [exact H2|exact H3]]|].
  apply (Herr reads [q "data: {'text':'Hi'}"] (q "data: {'error':'boom'}") "boom").
  - vm_compute. reflexivity.
  - split; vm_compute; reflexivity.
  - discriminate.
Defined.

(** The original claim on samples: an error frame has arrived and the
    body is still open; the error is shown, and the input box and the
    send button are still disabled, in both revisions. *)
Lemma error_frame_reenables_counterexample :
  let x := Response true [q "data: {'error':'boom'}" +:+ String LF (String LF "")]
             StillOpen in
  let revised := sendMessage Sample.marked_parse Json.parse Json.Number_toString
                   Sample.trim Sample.layout Revised x Sample.page0 in
  let original := sendMessage Sample.marked_parse Json.parse Json.Number_toString
                    Sample.trim Sample.layout Original x Sample.page0 in
  (content_at 3 revised = Some (TextContent "Error: boom") /\
   input_disabled revised = true /\ send_disabled revised = true) /\
  (content_at 3 original = Some (TextContent "Error: boom") /\
   input_disabled original = true /\ send_disabled original = true) /\
  input_disabled revised <> false /\ send_disabled revised <> false.
Proof. vm_compute. repeat split; discriminate. Qed.

(** A data line whose payload breaks off, between two good frames. *)
Lemma malformed_frame_dropped_witness :
  quiet_stream
    (process_lines Sample.marked_parse Json.parse Json.Number_toString Sample.layout
       Revised 3 true
       ([q "data: {'text':'Hi'}"] ++ q "data: {'text':" :: [q "data: {'text':' there'}"])
       Sample.stream0)
  = quiet_stream
      (process_lines Sample.marked_parse Json.parse Json.Number_toString Sample.layout
         Revised 3 true
         ([q "data: {'text':'Hi'}"] ++ [q "data: {'text':' there'}"])
         Sample.stream0).
Proof.
  apply (malformed_frame_dropped Sample.marked_parse Json.parse Json.Number_toString
           Sample.layout Revised 3 true
           [q "data: {'text':'Hi'}"] (q "data: {'text':") [q "data: {'text':' there'}"]
           Sample.stream0).
  - reflexivity.
  - vm_compute. reflexivity.
Defined.

(** Markup typed by the user stays literal text. *)
Lemma addMessage_rendering_witness :
  MessageDiv "user" (TextContent "<b>Hello</b>")
  ∈ chatMessages
      (sendMessage Sample.marked_parse Json.parse Json.Number_toString Sample.trim
         Sample.layout Original (Response true [] EndOfStream)
         (mkPage " <b>Hello</b> " false false [] 0 60 "session_1" None [])).
Proof.
  apply (proj2 (proj2 (proj2 (addMessage_rendering Sample.marked_parse Json.parse
                         Json.Number_toString Sample.trim Sample.layout Original ""
                         (mkPage " <b>Hello</b> " false false [] 0 60 "session_1" None []))))
           (Response true [] EndOfStream)).
  vm_compute. discriminate.
Defined.

(** Three suggestions under the insertion sort. *)
Lemma getRandomSuggestions_witness :
  length (getRandomSuggestions Sample.sort Sample.random 3) = 3%nat /\
  NoDup (getRandomSuggestions Sample.sort Sample.random 3) /\
  (forall s, s ∈ getRandomSuggestions Sample.sort Sample.random 3 -> s ∈ suggestionPool).
Proof.
  apply (getRandomSuggestions_distinct_from_pool Sample.sort Sample.random 3).
  - exact sample_sort_permutes.
  - vm_compute. split; discriminate.
Defined.

(** The three frames with a falsy field, as they arrive on the wire. *)
Lemma falsy_frames_ignored_witness :
  process_line Sample.marked_parse Json.parse Json.Number_toString Sample.layout
    Revised 3 true (q "data: {'text': ''}") Sample.stream0
  = Sample.stream0.
Proof.
  apply (falsy_frames_ignored Sample.marked_parse Json.parse Json.Number_toString
           Sample.layout Revised 3 true (q "data: {'text': ''}")
           (JObj [("text", JStr "")]) Sample.stream0).
  - reflexivity.
  - vm_compute. reflexivity.
  - left. reflexivity.
Defined.

(** The frames with [done] false and with the empty error, likewise. *)
Example falsy_frames_evaluated :
  process_line Sample.marked_parse Json.parse Json.Number_toString Sample.layout
    Revised 3 true (q "data: {'done': false}") Sample.stream0
  = Sample.stream0 /\
  process_line Sample.marked_parse Json.parse Json.Number_toString Sample.layout
    Original 3 true (q "data: {'error': ''}") Sample.stream0
  = Sample.stream0.
Proof. vm_compute. split; reflexivity. Qed.

(** ** The reader of JSON on samples *)

Example parse_frames :
  Json.parse (q "{'text':'Hi'}") = Some (frame (Text "Hi")) /\
  Json.parse (q " { 'done' : true } ") = Some (frame Done) /\
  Json.parse (q "{'error':'quota'}") = Some (frame (Error "quota")).
Proof. vm_compute. repeat split; reflexivity. Qed.

Example parse_values :
  Json.parse (q "[1, 2.50, -3e2, null, true, {'a': {'b': []}}]")
  = Some (JArr [JNum 1 0; JNum 250 (-2); JNum (-3) 2; JNull; JBool true;
                JObj [("a", JObj [("b", JArr [])])]]) /\
  Json.parse (q "'a\u0041\n'") = Some (JStr ("aA" +:+ String LF "")).
Proof. vm_compute. split; reflexivity. Qed.

Example parse_rejects :
  Json.parse "" = None /\
  Json.parse (q "{'te") = None /\
  Json.parse "01" = None /\
  Json.parse "1." = None /\
  Json.parse (q "{'a':1,}") = None /\
  Json.parse (q "{'a':1} x") = None /\
  Json.parse "nul" = None.
Proof. vm_compute. repeat split; reflexivity. Qed.

(** A number too small for a double is zero, hence falsy; a key written
    twice reads as its later value. *)
Example truthiness_samples :
  ToBoolean (JNum 1 (-400)) = false /\
  ToBoolean (JNum 0 5) = false /\
  ToBoolean (JNum 5 (-324)) = true /\
  ToBoolean (JArr []) = true /\
  get (JObj [("text", JStr "a"); ("text", JStr "")]) "text" = Value (JStr "").
Proof. vm_compute. repeat split; reflexivity. Qed.

(** ** A whole send on a fresh session

    The user sends [Hello]; the reply comes as [Hi], [ there], [done].
    The message of the user is appended as literal text, the reply ends as
    the markup of [Hi there], the reply is spoken, the session list is
    reloaded, and the controls are enabled again. *)
Example send_hello_evaluated :
  sendMessage Sample.marked_parse Json.parse Json.Number_toString Sample.trim
    Sample.layout Revised
    (Response true
       [q "data: {'text':'Hi'}" +:+ String LF (String LF "");
        q "data: {'text':' there'}" +:+ String LF (String LF "")
          +:+ q "data: {'done':true}" +:+ String LF (String LF "")]
       EndOfStream)
    (mkPage "Hello" false false [EmptyState (Some ["Tell me a joke"]) false] 0 400
       "session_1700000000000" None [])
  = mkPage "" false false
      [EmptyState (Some ["Tell me a joke"]) true;
       MessageDiv "user" (TextContent "Hello");
       MessageDiv "bot" (InnerHTML ("<p>Hi there</p>" +:+ String LF ""))]
      0 400 "session_1700000000000" None
      [PostChatStream "Hello" "session_1700000000000"; Speak "Hi there"; LoadChatHistory].
Proof. vm_compute. reflexivity. Qed.

(** The same send while the fetch has no answer: controls disabled, the
    typing indicator shown. *)
Example send_hello_pending :
  sendMessage Sample.marked_parse Json.parse Json.Number_toString Sample.trim
    Sample.layout Revised NoAnswerYet
    (mkPage "Hello" false false [EmptyState (Some ["Tell me a joke"]) false] 0 400
       "session_1700000000000" None [])
  = mkPage "" true true
      [EmptyState (Some ["Tell me a joke"]) true;
       MessageDiv "user" (TextContent "Hello");
       TypingIndicator]
      0 400 "session_1700000000000" None
      [PostChatStream "Hello" "session_1700000000000"].
Proof. vm_compute. reflexivity. Qed.

(** ** The further properties on samples *)

(** The decoder on well-formed text, on a sequence that breaks off, on a
    surrogate and an overlong form, and on a byte order mark. *)
Example decode_samples :
  TextDecoder.decode (String "195" (String "169" "")) = String "195" (String "169" "") /\
  TextDecoder.decode (String "240" (String "159" (String "152" (String "128" ""))))
  = String "240" (String "159" (String "152" (String "128" ""))) /\
  TextDecoder.decode (String "226" (String "130" "")) = TextDecoder.replacement /\
  TextDecoder.decode (String "195" (String LF ""))
  = TextDecoder.replacement +:+ String LF "" /\
  TextDecoder.decode (String "237" (String "160" (String "128" "")))
  = TextDecoder.replacement +:+ TextDecoder.replacement +:+ TextDecoder.replacement /\
  TextDecoder.decode (String "192" (String "128" ""))
  = TextDecoder.replacement +:+ TextDecoder.replacement /\
  TextDecoder.decode (TextDecoder.BOM +:+ "a") = "a" /\
  TextDecoder.decode (TextDecoder.BOM +:+ TextDecoder.BOM) = TextDecoder.BOM /\
  TextDecoder.decode ("a" +:+ TextDecoder.BOM) = "a" +:+ TextDecoder.BOM.
Proof. vm_compute. repeat split; reflexivity. Qed.

(** Two text frames with a byte order mark between them: in one read the
    mark stays at the start of the second line, which is then no data
    line; in two reads it is dropped and the second frame is consumed. *)
Example mark_after_line_feed :
  fullText
    (read_loop Sample.marked_parse Json.parse Json.Number_toString Sample.layout
       Revised 3 true
       (map TextDecoder.decode
          [q "data: {'text':'Hi'}" +:+ String LF ""
             +:+ TextDecoder.BOM +:+ q "data: {'text':' there'}" +:+ String LF ""])
       Sample.stream0)
  = "Hi" /\
  fullText
    (read_loop Sample.marked_parse Json.parse Json.Number_toString Sample.layout
       Revised 3 true
       (map TextDecoder.decode
          [q "data: {'text':'Hi'}" +:+ String LF "";
           TextDecoder.BOM +:+ q "data: {'text':' there'}" +:+ String LF ""])
       Sample.stream0)
  = "Hi there".
Proof. vm_compute. split; reflexivity. Qed.

Lemma cut_after_line_feed_witness :
  read_loop Sample.marked_parse Json.parse Json.Number_toString Sample.layout
    Revised 3 true
    (map TextDecoder.decode
       ([q "data: {'text':'Hi'}" +:+ String LF ""]
        ++ [q "data: {'text':' there'}" +:+ String LF (String LF "")
              +:+ String LF (q "data: {'done':true}" +:+ String LF "")]
        ++ []))
    Sample.stream0
  = read_loop Sample.marked_parse Json.parse Json.Number_toString Sample.layout
      Revised 3 true
      (map TextDecoder.decode
         ([q "data: {'text':'Hi'}" +:+ String LF ""]
          ++ [(q "data: {'text':' there'}" +:+ String LF (String LF ""))
                +:+ String LF "";
              q "data: {'done':true}" +:+ String LF ""]
          ++ []))
      Sample.stream0.
Proof.
  apply (proj1 (cut_after_line_feed_is_harmless Sample.marked_parse Json.parse
                  Json.Number_toString Sample.layout Revised 3 true
                  [q "data: {'text':'Hi'}" +:+ String LF ""]
                  (q "data: {'text':' there'}" +:+ String LF (String LF ""))
                  (q "data: {'done':true}" +:+ String LF "") [] Sample.stream0)).
  reflexivity.
Defined.

Lemma accumulator_and_calls_witness :
  let reads :=
    [q "data: {'text':'Hi'}" +:+ String LF (String LF "")
       +:+ q "data: {'error':'boom'}" +:+ String LF (String LF "");
     q "data: {'text':' there'}" +:+ String LF (String LF "")
       +:+ q "data: {'done':true}" +:+ String LF (String LF "")
       +:+ q "data: {'text':'!'}" +:+ String LF (String LF "")] in
  let events := [Text "Hi"; Error "boom"; Text " there"; Done; Text "!"] in
  fullText
    (read_loop Sample.marked_parse Json.parse Json.Number_toString Sample.layout
       Revised 3 true reads Sample.stream0)
  = fullText Sample.stream0 +:+ joined (deltas events) /\
  effects
    (page
       (read_loop Sample.marked_parse Json.parse Json.Number_toString Sample.layout
          Revised 3 true reads Sample.stream0))
  = effects (page Sample.stream0) ++ calls (fullText Sample.stream0) events.
Proof.
  intros reads events.
  refine (accumulator_and_calls_of_a_stream Sample.marked_parse Json.parse
            Json.Number_toString Sample.layout Revised 3 true reads events
            Sample.stream0 (InnerHTML "") _ _ eq_refl).
  - replace (data_lines reads)
      with [q "data: {'text':'Hi'}"; q "data: {'error':'boom'}";
            q "data: {'text':' there'}"; q "data: {'done':true}";
            q "data: {'text':'!'}"]
      by (vm_compute; reflexivity).
    repeat constructor; vm_compute; reflexivity.
  - cbn. lia.
Defined.

Lemma bot_message_shows_last_rendering_witness :
  let reads :=
    [q "data: {'text':'Hi'}" +:+ String LF (String LF "")
       +:+ q "data: {'done':true}" +:+ String LF (String LF "");
     q "data: {'error':'boom'}" +:+ String LF (String LF "")] in
  let events := [Text "Hi"; Done; Error "boom"] in
  content_at 3
    (page
       (read_loop Sample.marked_parse Json.parse Json.Number_toString Sample.layout
          Original 3 false reads Sample.stream0))
  = Some (shown Sample.marked_parse (fullText Sample.stream0) (InnerHTML "") events).
Proof.
  intros reads events.
  refine (bot_message_shows_last_rendering Sample.marked_parse Json.parse
            Json.Number_toString Sample.layout Original 3 false reads events
            Sample.stream0 (InnerHTML "") _ _ eq_refl).
  - replace (data_lines reads)
      with [q "data: {'text':'Hi'}"; q "data: {'done':true}"; q "data: {'error':'boom'}"]
      by (vm_compute; reflexivity).
    repeat constructor; vm_compute; reflexivity.
  - cbn. lia.
Defined.

Lemma first_truthy_field_wins_witness :
  process_data Sample.marked_parse Json.Number_toString Sample.layout Revised 3 true
    (JObj [("text", JStr "Hi"); ("done", JBool true); ("error", JStr "late")])
    Sample.stream0
  = process_data Sample.marked_parse Json.Number_toString Sample.layout Revised 3 true
      (frame (Text "Hi")) Sample.stream0 /\
  process_data Sample.marked_parse Json.Number_toString Sample.layout Revised 3 true
    (JObj [("error", JStr "late"); ("done", JNum 1 0)]) Sample.stream0
  = process_data Sample.marked_parse Json.Number_toString Sample.layout Revised 3 true
      (frame Done) Sample.stream0.
Proof.
  split.
  - apply (proj1 (first_truthy_field_wins Sample.marked_parse Json.Number_toString
                    Sample.layout Revised 3 true
                    (JObj [("text", JStr "Hi"); ("done", JBool true);
                           ("error", JStr "late")])
                    Sample.stream0) "Hi").
    + reflexivity.
    + discriminate.
  - apply (proj2 (first_truthy_field_wins Sample.marked_parse Json.Number_toString
                    Sample.layout Revised 3 true
                    (JObj [("error", JStr "late"); ("done", JNum 1 0)])
                    Sample.stream0)).
    + discriminate.
    + reflexivity.
    + reflexivity.
Defined.

Lemma payload_that_is_no_object_witness :
  process_line Sample.marked_parse Json.parse Json.Number_toString Sample.layout
    Revised 3 true (q "data: null") Sample.stream0
  = mkStream (log parse_error (page Sample.stream0)) (fullText Sample.stream0) /\
  process_line Sample.marked_parse Json.parse Json.Number_toString Sample.layout
    Revised 3 true (q "data: [1, 'text']") Sample.stream0
  = Sample.stream0.
Proof.
  split.
  - apply (payload_that_is_no_object Sample.marked_parse Json.parse Json.Number_toString
             Sample.layout Revised 3 true (q "data: null") JNull Sample.stream0).
    + reflexivity.
    + vm_compute. reflexivity.
  - apply (payload_that_is_no_object Sample.marked_parse Json.parse Json.Number_toString
             Sample.layout Revised 3 true (q "data: [1, 'text']")
             (JArr [JNum 1 0; JStr "text"]) Sample.stream0).
    + reflexivity.
    + vm_compute. reflexivity.
Defined.

Lemma only_data_lines_matter_witness :
  read_loop Sample.marked_parse Json.parse Json.Number_toString Sample.layout
    Revised 3 true
    [": keep-alive" +:+ String LF "event: message" +:+ String LF ""
       +:+ q "data: {'text':'Hi'}" +:+ String LF (String LF "");
     q "data:{'text':'lost'}" +:+ String LF ""]
    Sample.stream0
  = read_loop Sample.marked_parse Json.parse Json.Number_toString Sample.layout
      Revised 3 true
      [q "data: {'text':'Hi'}"]
      Sample.stream0.
Proof.
  apply (only_data_lines_matter Sample.marked_parse Json.parse Json.Number_toString
           Sample.layout Revised 3 true).
  vm_compute. reflexivity.
Defined.

Lemma deleteChat_failure_witness :
  let p := mkPage "draft" false false [MessageDiv "user" (TextContent "Hi")] 0 60
             "session_1" (Some "session_2") [] in
  let p' := deleteChat Sample.layout Sample.sort Revised false ClearRejected
              1700000012345 Sample.random p in
  currentChatToDelete p' = None /\
  sessionId p' = sessionId p /\
  chatMessages p' = chatMessages p /\
  scrollTop p' = scrollTop p /\
  (input_value p', input_disabled p', send_disabled p')
  = (input_value p, input_disabled p, send_disabled p) /\
  effects p'
  = effects p ++ [] ++ [PostHistoryClear "session_2"]
    ++ [ConsoleError "Error deleting chat:"] ++ [Alert delete_failed_message].
Proof.
  intros p.
  apply (deleteChat_failure Sample.layout Sample.sort Revised false ClearRejected
           1700000012345 Sample.random "session_2" p).
  - reflexivity.
  - discriminate.
  - discriminate.
  - right. reflexivity.
Defined.

Lemma deleteChat_guards_witness :
  let pending := mkPage "" false false [MessageDiv "user" (TextContent "Hi")] 0 60
                   "session_1" (Some "session_2") [] in
  deleteChat Sample.layout Sample.sort Original true (ClearResponse true)
    1700000012345 Sample.random Sample.page0
  = Sample.page0 /\
  deleteChat Sample.layout Sample.sort Original false (ClearResponse true)
    1700000012345 Sample.random pending
  = set_currentChatToDelete None (log HideContextMenu pending) /\
  currentChatToDelete
    (deleteChat Sample.layout Sample.sort Revised false (ClearResponse false)
       1700000012345 Sample.random pending)
  = None.
Proof.
  intros pending. split; [|split].
  - apply (proj1 (deleteChat_guards Sample.layout Sample.sort Original true
                    (ClearResponse true) 1700000012345 Sample.random Sample.page0)).
    left. reflexivity.
  - apply (proj1 (proj2 (deleteChat_guards Sample.layout Sample.sort Original false
                           (ClearResponse true) 1700000012345 Sample.random pending))
             "session_2").
    + reflexivity.
    + discriminate.
    + reflexivity.
    + reflexivity.
  - apply (proj2 (proj2 (deleteChat_guards Sample.layout Sample.sort Revised false
                           (ClearResponse false) 1700000012345 Sample.random pending))
             "session_2").
    + reflexivity.
    + discriminate.
    + discriminate.
Defined.

Lemma getRandomSuggestions_any_count_witness :
  length (getRandomSuggestions Sample.sort Sample.random (-12)) = 3%nat /\
  length (getRandomSuggestions Sample.sort Sample.random 20) = 15%nat /\
  getRandomSuggestions Sample.sort Sample.random 20 ≡ₚ suggestionPool.
Proof.
  split; [|split].
  - apply (proj1 (getRandomSuggestions_any_count Sample.sort Sample.random (-12)
                    sample_sort_permutes)).
  - apply (proj1 (getRandomSuggestions_any_count Sample.sort Sample.random 20
                    sample_sort_permutes)).
  - apply (proj2 (proj2 (proj2 (getRandomSuggestions_any_count Sample.sort Sample.random 20
                                  sample_sort_permutes)))).
    lia.
Defined.

Lemma startNewChat_resets_the_view_witness :
  let p' := startNewChat Sample.layout Sample.sort 1700000012345 Sample.random
              Sample.page0 in
  sessionId p' = "session_1700000012345" /\
  (exists chips,
      chatMessages p' = [EmptyState (Some chips) false] /\
      length chips = 3%nat /\ NoDup chips /\
      (forall s, s ∈ chips -> s ∈ suggestionPool)) /\
  effects p' = effects Sample.page0 ++ [ClearActiveItems; LoadChatHistory] /\
  (input_value p', input_disabled p', send_disabled p', currentChatToDelete p')
  = (input_value Sample.page0, input_disabled Sample.page0, send_disabled Sample.page0,
     currentChatToDelete Sample.page0).
Proof.
  apply (startNewChat_resets_the_view Sample.layout Sample.sort 1700000012345
           Sample.random Sample.page0).
  exact sample_sort_permutes.
Defined.

Lemma loadChatHistory_rows_witness :
  let sessions := [("session_1", Some "First"); ("session_2", None);
                   ("session_3", Some "")] in
  let rows := loadChatHistory "session_2" (SessionsResponse sessions) [] in
  item_title <$> rows !! 0%nat = Some "First" /\
  item_title <$> rows !! 1%nat = Some "Untitled Chat" /\
  item_title <$> rows !! 2%nat = Some "Untitled Chat" /\
  (active_rows rows <= 1)%nat /\
  ("session_2" ∈ map fst sessions -> active_rows rows = 1%nat).
Proof.
  intros sessions rows.
  pose proof (loadChatHistory_rows "session_2" sessions []) as W. cbv zeta in W.
  destruct W as (_ & _ & Hgiven & Hdefault & _ & Hactive & _).
  split; [|split; [|split]].
  - apply (Hgiven 0%nat "session_1" "First"); [reflexivity|discriminate].
  - apply (Hdefault 1%nat "session_2"). left. reflexivity.
  - apply (Hdefault 2%nat "session_3"). right. reflexivity.
  - apply Hactive. apply (bool_decide_unpack _). vm_compute. exact I.
Defined.

Lemma marks_agree_with_reload_witness :
  let sessions := [("session_1", Some "First"); ("session_2", None)] in
  clear_active (loadChatHistory "session_1" (SessionsResponse sessions) [])
  = loadChatHistory "session_1700000012345" (SessionsResponse sessions) [].
Proof.
  intros sessions.
  apply (proj2 (marks_agree_with_reload "session_1" "session_1700000012345" sessions [])).
  apply (bool_decide_unpack _). vm_compute. exact I.
Defined.

Lemma send_goes_to_the_active_session_witness :
  exists rest,
    effects
      (sendMessage Sample.marked_parse Json.parse Json.Number_toString Sample.trim
         Sample.layout Revised Rejected Sample.page0)
    = effects Sample.page0
      ++ PostChatStream (Sample.trim (input_value Sample.page0)) (sessionId Sample.page0)
           :: rest.
Proof.
  apply (proj2 (proj2 (send_goes_to_the_active_session Sample.marked_parse Json.parse
                         Json.Number_toString Sample.trim Sample.layout Revised
                         Rejected Sample.page0))).
  vm_compute. discriminate.
Defined.

Lemma next_send_witness :
  (exists rest,
      effects
        (sendMessage Sample.marked_parse Json.parse Json.Number_toString Sample.trim
           Sample.layout Revised Rejected
           (loadChat Sample.marked_parse Sample.layout Revised "session_7"
              HistoryFailed Sample.page0))
      = effects (loadChat Sample.marked_parse Sample.layout Revised "session_7"
                   HistoryFailed Sample.page0)
        ++ PostChatStream (Sample.trim (input_value Sample.page0)) "session_7" :: rest) /\
  (exists rest,
      effects
        (sendSuggestion Sample.marked_parse Json.parse Json.Number_toString Sample.trim
           Sample.layout Revised " Tell me a joke " NoAnswerYet Sample.page0)
      = effects Sample.page0
        ++ PostChatStream (Sample.trim " Tell me a joke ") (sessionId Sample.page0)
             :: rest).
Proof.
  split.
  - apply (proj1 (next_send_follows_the_session_operation Sample.marked_parse Json.parse
                    Json.Number_toString Sample.trim Sample.layout Sample.sort Revised
                    Rejected "session_7" HistoryFailed 1700000012345 Sample.random
                    " Tell me a joke " Sample.page0)).
    vm_compute. discriminate.
  - apply (proj2 (next_send_follows_the_session_operation Sample.marked_parse Json.parse
                    Json.Number_toString Sample.trim Sample.layout Sample.sort Revised
                    NoAnswerYet "session_7" HistoryFailed 1700000012345 Sample.random
                    " Tell me a joke " Sample.page0)).
    vm_compute. discriminate.
Defined.

Lemma theme_survives_reload_witness :
  let s := mkSettings (Some "dark") ∅ true false (Some []) in
  data_theme (toggleTheme (toggleTheme s)) = data_theme s /\
  data_theme (startup None false true ∅) = Some "light".
Proof.
  intros s. split.
  - apply (proj1 (proj2 (proj2 (proj2 (proj2
             (theme_survives_reload s None false true ∅)))))).
    right. reflexivity.
  - apply (proj2 (proj2 (proj2 (proj2 (proj2
             (theme_survives_reload s None false true ∅)))))).
    reflexivity.
Defined.

Lemma tts_flag_survives_reload_witness :
  isTTSEnabled (startup (Some "dark") true true ∅) = true.
Proof.
  apply (proj2 (proj2 (proj2 (proj2 (proj2 (proj2
           (tts_flag_survives_reload (mkSettings None ∅ true false None)
              (Some "dark") true true ∅))))))).
  reflexivity.
Defined.

Lemma at_most_one_utterance_witness :
  let s := startup None false true ∅ in
  calm (foldl (speech_step Revised Fixture.toLowerCase) s
          [DoSpeak Fixture.voices "Hi"; DoSpeak Fixture.voices "there"; DoToggleTTS;
           DoSpeak Fixture.voices "unheard"; DoToggleTheme; DoToggleTTS]) /\
  speechSynthesis (speak Revised Fixture.toLowerCase Fixture.voices "Hi" s)
  = Some [utterance Revised Fixture.toLowerCase Fixture.voices "Hi"].
Proof.
  intros s. split.
  - apply (proj1 (proj2 (at_most_one_utterance Revised Fixture.toLowerCase
                           [DoSpeak Fixture.voices "Hi"; DoSpeak Fixture.voices "there";
                            DoToggleTTS; DoSpeak Fixture.voices "unheard"; DoToggleTheme;
                            DoToggleTTS]
                           Fixture.voices "Hi" s None false true ∅))).
    vm_compute. repeat split; try discriminate; try lia; auto.
  - apply (proj1 (proj2 (proj2 (at_most_one_utterance Revised Fixture.toLowerCase []
                                  Fixture.voices "Hi" s None false true ∅)))).
    + reflexivity.
    + discriminate.
Defined.

Lemma selectVoice_prefers_japanese_witness :
  exists v, selectVoice Fixture.toLowerCase Fixture.voices = Some v /\
            v ∈ Fixture.voices /\ voice_lang v = "ja-JP" /\
            named Fixture.toLowerCase "female" v = true.
Proof.
  apply (proj2 (proj2 (proj2 (selectVoice_prefers_japanese Fixture.toLowerCase
                                Fixture.voices)))).
  exists (mkVoice "ja-JP" "Kyoko FEMALE"). split; [|split].
  - repeat constructor.
  - reflexivity.
  - vm_compute. reflexivity.
Defined.

Lemma chip_argument_witness :
  exists before after,
    generateSuggestionChipsHTML ["Tell me a joke"; "What's the weather like?"]
    = before +:+ chip_open +:+ escape_apostrophes "What's the weather like?"
      +:+ String "'" after /\
    read_quoted (escape_apostrophes "What's the weather like?" +:+ String "'" after)
    = Some ("What's the weather like?", after).
Proof.
  apply (proj1 (chip_argument_denotes_the_text
                  ["Tell me a joke"; "What's the weather like?"] 1
                  "What's the weather like?" "")).
  - reflexivity.
  - reflexivity.
Defined.
